(** * Cart and ticket state machine of the store bot

    A shallow embedding of the ticket handlers of [cogs/ticket_system.py]
    (and of the quick-buy path of [cogs/product_management.py]), followed by
    the properties of the shopping-cart state machine.

    Conventions of the embedding.
    - Python dictionaries that are iterated (the cart, the in-memory registry
      [bot.active_tickets]) are insertion-ordered association lists; the
      persisted collections behind [load_json]/[save_json] are finite maps.
    - Amounts of money are Python floats in the source; they are modelled as
      rationals with exact arithmetic.
    - A handler runs in a small state-and-exception monad: the state is the
      bot together with what the handler has sent so far; an exception that
      leaves a handler does not undo the mutations made before it.
    - External calls (persistence, the chat platform) either succeed or raise,
      as decided by an oracle given to the handler. *)

From Stdlib Require Import ZArith QArith Qminmax String Ascii List Bool Lia DecimalString DecimalPos Sorted.
From stdpp Require Import base option gmap strings.
Import ListNotations.

Local Open Scope Z_scope.

(** ** Python built-ins used by the handlers *)

Module Py.

Section Dict.
Context {K V : Type} `{EqDecision K}.

(** [d.get(k)] *)
Fixpoint dict_get (k : K) (d : list (K * V)) : option V :=
  match d with
  | [] => None
  | (k', v) :: d' => if decide (k = k') then Some v else dict_get k d'
  end.

(** [d[k] = v]: an existing key keeps its position, a new key goes last. *)
Fixpoint dict_set (k : K) (v : V) (d : list (K * V)) : list (K * V) :=
  match d with
  | [] => [(k, v)]
  | (k', v') :: d' =>
      if decide (k = k') then (k, v) :: d' else (k', v') :: dict_set k v d'
  end.

(** [d.pop(k, None)] *)
Fixpoint dict_pop (k : K) (d : list (K * V)) : list (K * V) :=
  match d with
  | [] => []
  | (k', v') :: d' =>
      if decide (k = k') then d' else (k', v') :: dict_pop k d'
  end.

(** [k in d] *)
Definition dict_mem (k : K) (d : list (K * V)) : bool :=
  match dict_get k d with Some _ => true | None => false end.

(** [d.values()] *)
Definition dict_values (d : list (K * V)) : list V := map snd d.

Definition dict_keys (d : list (K * V)) : list K := map fst d.
End Dict.

(** [str(n)] for an integer. *)
Definition str_of_int (n : Z) : string := NilZero.string_of_int (Z.to_int n).

(** [len(s)] *)
Definition len (s : string) : Z := Z.of_nat (String.length s).

Fixpoint zeros (n : nat) : string :=
  match n with O => EmptyString | S n' => String "0"%char (zeros n') end.

(** [f"{n:04d}"]: decimal, zero-padded to width four, the sign counted in
    the width. *)
Definition format_04d (n : Z) : string :=
  if n <? 0 then
    let digits := str_of_int (- n) in
    String "-"%char (zeros (3 - String.length digits) +:+ digits)
  else
    let digits := str_of_int n in
    zeros (4 - String.length digits) +:+ digits.

(** Truth value of a string: only the empty string is false. *)
Definition truthy (s : string) : bool :=
  match s with EmptyString => false | _ => true end.

(** [s.startswith(p)] *)
Definition startswith (s p : string) : bool := String.prefix p s.

(** [p in s] for strings. *)
Fixpoint contains (p s : string) : bool :=
  String.prefix p s ||
  match s with
  | EmptyString => false
  | String _ s' => contains p s'
  end.

(** [s.upper()] and [s.strip()], on ASCII text. *)
Definition upper_char (c : ascii) : ascii :=
  let n := nat_of_ascii c in
  if (Nat.leb 97 n && Nat.leb n 122)%bool then ascii_of_nat (n - 32) else c.

Fixpoint upper (s : string) : string :=
  match s with
  | EmptyString => EmptyString
  | String c s' => String (upper_char c) (upper s')
  end.

Definition is_space (c : ascii) : bool :=
  let n := nat_of_ascii c in
  (Nat.eqb n 32 || (Nat.leb 9 n && Nat.leb n 13) || (Nat.leb 28 n && Nat.leb n 31))%bool.

Fixpoint lstrip (s : string) : string :=
  match s with
  | EmptyString => EmptyString
  | String c s' => if is_space c then lstrip s' else s
  end.

Fixpoint rstrip (s : string) : string :=
  match s with
  | EmptyString => EmptyString
  | String c s' =>
      match rstrip s' with
      | EmptyString => if is_space c then EmptyString else String c EmptyString
      | r => String c r
      end
  end.

Definition strip (s : string) : string := rstrip (lstrip s).

(** [re.search(r'\(([^)]+)\)', s)], returning [match.group(1)]: the text
    between the leftmost opening parenthesis that is followed by at least
    one character other than a closing parenthesis, and the closing
    parenthesis that ends that run. *)
Fixpoint until_close (s : string) : option string :=
  match s with
  | EmptyString => None
  | String c s' =>
      if Ascii.eqb c ")"%char then Some EmptyString
      else match until_close s' with
           | Some g => Some (String c g)
           | None => None
           end
  end.

Fixpoint re_search_parens (s : string) : option string :=
  match s with
  | EmptyString => None
  | String c s' =>
      if Ascii.eqb c "("%char then
        match until_close s' with
        | Some (String a g) => Some (String a g)
        | _ => re_search_parens s'
        end
      else re_search_parens s'
  end.

(** [int(s)] for a string: an optional sign and decimal digits; anything
    else is a [ValueError], rendered by [None]. *)
Definition digit_of (c : ascii) : option Z :=
  let n := nat_of_ascii c in
  if (Nat.leb 48 n && Nat.leb n 57)%bool then Some (Z.of_nat (n - 48)) else None.

Fixpoint digits_value (acc : Z) (s : string) : option Z :=
  match s with
  | EmptyString => Some acc
  | String c s' =>
      match digit_of c with
      | Some d => digits_value (10 * acc + d) s'
      | None => None
      end
  end.

Definition int_of_str (s : string) : option Z :=
  match strip s with
  | EmptyString => None
  | String c s' =>
      if Ascii.eqb c "-"%char then
        match s' with
        | EmptyString => None
        | _ => option_map Z.opp (digits_value 0 s')
        end
      else if Ascii.eqb c "+"%char then
        match s' with
        | EmptyString => None
        | _ => digits_value 0 s'
        end
      else digits_value 0 (String c s')
  end.

(** Comparisons and [max] on amounts. *)
Definition gtb (a b : Q) : bool := negb (Qle_bool a b).
Definition leb (a b : Q) : bool := Qle_bool a b.
Definition eqb (a b : Q) : bool := Qeq_bool a b.

(** [max(a, b)]: the first argument unless the second is greater. *)
Definition max (a b : Q) : Q := if gtb b a then b else a.

End Py.

(** ** Data model *)

(** A line of the cart: [{"name": ..., "price": ..., "quantity": ...}].
    The price is [None] for a catalog price of JSON null (a product sold on
    quote); arithmetic on it raises [TypeError]. *)
Record cart_item := {
  ci_name : string;
  ci_price : option Q;
  ci_quantity : Z }.

(** The stock field of a product as stored: an integer, or text that
    [int()] has to parse. *)
Inductive stock_value :=
| StockInt (n : Z)
| StockText (s : string).

(** A catalog record. [None] stands for an absent key; the price can also
    be present and null. *)
Record product := {
  p_name : option string;
  p_price : option (option Q);
  p_stock : option stock_value }.

(** The per-ticket state kept in [bot.active_tickets]. A field read through
    [.get] is an option: [None] is the absent key (or a stored [None]). *)
Record ticket_state := {
  creator_id : option Z;
  category : option string;
  status : option string;
  cart : list (string * cart_item);
  discount : option Q;
  discount_reason : option string;
  referral_info : option (string * Z);
  order_id : option string;
  gift_recipient_id : option Z;
  claimed_by : option Z;
  cart_message_id : option Z }.

(** An order of the order ledger, as [confirm] writes it. *)
Record order := {
  o_user_id : Z;
  o_items : list (string * cart_item);
  o_status : string;
  o_discount : Q;
  o_discount_reason : string;
  o_gift_recipient_id : option Z;
  o_timestamp : Z;
  o_channel_id : Z }.

Inductive max_uses :=
| Unlimited
| Finite (n : Z).

(** An entry of the discount registry. Fields read with a default
    ([is_active], [max_uses], [uses], [used]) hold the default when the key is
    absent. [d_generated_by] distinguishes the absent key ([None]) from a
    stored null ([Some None]). [d_generated_for_referrer_id] is the key that
    the referral reward of [order_processing.py] writes instead of
    [generated_by]; no handler reads it. *)
Record discount_info := {
  d_type : option string;
  d_discount_inr : option Q;
  d_used : bool;
  d_generated_by : option (option string);
  d_generated_for_referrer_id : option Z;
  d_is_active : bool;
  d_max_uses : max_uses;
  d_uses : Z;
  d_expires_at : option string }.

(** An entry of [config['role_based_discounts']]. *)
Record role_discount := {
  rd_role_id : option Z;
  rd_discount_percent : option Q }.

Record config := {
  role_based_discounts : list role_discount;
  new_user_discount_inr : option Q }.

(** The bot: the in-memory ticket registry, the persisted collections, the
    configuration and whether the cogs other handlers look up are loaded. *)
Record bot := {
  active_tickets : list (Z * ticket_state);
  products : gmap string product;
  orders : gmap string order;
  discounts : gmap string discount_info;
  referrals : gmap string string;
  counters : gmap string Z;
  bot_config : config;
  payment_cog : bool;
  ticket_cog : bool }.

(** A component of the cart view (the product dropdown and the three
    buttons). *)
Record component := {
  custom_id : string;
  disabled : bool }.

(** The acting user of an interaction: identity, the roles held when the
    user is a guild member ([None] otherwise), the channel, and the message
    the component sits on. *)
Record interaction := {
  user_id : Z;
  user_roles : option (list Z);
  channel_id : Z;
  message_id : Z }.

(** *** Field updates *)

Definition set_cart (c : list (string * cart_item)) (t : ticket_state) :=
  {| creator_id := creator_id t; category := category t; status := status t;
     cart := c; discount := discount t; discount_reason := discount_reason t;
     referral_info := referral_info t; order_id := order_id t;
     gift_recipient_id := gift_recipient_id t; claimed_by := claimed_by t;
     cart_message_id := cart_message_id t |}.

Definition set_discount (d : option Q) (t : ticket_state) :=
  {| creator_id := creator_id t; category := category t; status := status t;
     cart := cart t; discount := d; discount_reason := discount_reason t;
     referral_info := referral_info t; order_id := order_id t;
     gift_recipient_id := gift_recipient_id t; claimed_by := claimed_by t;
     cart_message_id := cart_message_id t |}.

Definition set_discount_reason (r : option string) (t : ticket_state) :=
  {| creator_id := creator_id t; category := category t; status := status t;
     cart := cart t; discount := discount t; discount_reason := r;
     referral_info := referral_info t; order_id := order_id t;
     gift_recipient_id := gift_recipient_id t; claimed_by := claimed_by t;
     cart_message_id := cart_message_id t |}.

Definition set_referral_info (r : option (string * Z)) (t : ticket_state) :=
  {| creator_id := creator_id t; category := category t; status := status t;
     cart := cart t; discount := discount t; discount_reason := discount_reason t;
     referral_info := r; order_id := order_id t;
     gift_recipient_id := gift_recipient_id t; claimed_by := claimed_by t;
     cart_message_id := cart_message_id t |}.

Definition set_order_id (o : option string) (t : ticket_state) :=
  {| creator_id := creator_id t; category := category t; status := status t;
     cart := cart t; discount := discount t; discount_reason := discount_reason t;
     referral_info := referral_info t; order_id := o;
     gift_recipient_id := gift_recipient_id t; claimed_by := claimed_by t;
     cart_message_id := cart_message_id t |}.

Definition set_gift_recipient_id (g : option Z) (t : ticket_state) :=
  {| creator_id := creator_id t; category := category t; status := status t;
     cart := cart t; discount := discount t; discount_reason := discount_reason t;
     referral_info := referral_info t; order_id := order_id t;
     gift_recipient_id := g; claimed_by := claimed_by t;
     cart_message_id := cart_message_id t |}.

Definition set_cart_message_id (m : option Z) (t : ticket_state) :=
  {| creator_id := creator_id t; category := category t; status := status t;
     cart := cart t; discount := discount t; discount_reason := discount_reason t;
     referral_info := referral_info t; order_id := order_id t;
     gift_recipient_id := gift_recipient_id t; claimed_by := claimed_by t;
     cart_message_id := m |}.

Definition set_quantity (n : Z) (i : cart_item) :=
  {| ci_name := ci_name i; ci_price := ci_price i; ci_quantity := n |}.

Definition set_status (s : string) (o : order) :=
  {| o_user_id := o_user_id o; o_items := o_items o; o_status := s;
     o_discount := o_discount o; o_discount_reason := o_discount_reason o;
     o_gift_recipient_id := o_gift_recipient_id o;
     o_timestamp := o_timestamp o; o_channel_id := o_channel_id o |}.

Definition set_used (u : bool) (d : discount_info) :=
  {| d_type := d_type d; d_discount_inr := d_discount_inr d; d_used := u;
     d_generated_by := d_generated_by d;
     d_generated_for_referrer_id := d_generated_for_referrer_id d;
     d_is_active := d_is_active d;
     d_max_uses := d_max_uses d; d_uses := d_uses d;
     d_expires_at := d_expires_at d |}.

Definition set_uses (n : Z) (d : discount_info) :=
  {| d_type := d_type d; d_discount_inr := d_discount_inr d; d_used := d_used d;
     d_generated_by := d_generated_by d;
     d_generated_for_referrer_id := d_generated_for_referrer_id d;
     d_is_active := d_is_active d;
     d_max_uses := d_max_uses d; d_uses := n;
     d_expires_at := d_expires_at d |}.

Definition set_active_tickets (a : list (Z * ticket_state)) (b : bot) :=
  {| active_tickets := a; products := products b; orders := orders b;
     discounts := discounts b; referrals := referrals b;
     counters := counters b; bot_config := bot_config b;
     payment_cog := payment_cog b; ticket_cog := ticket_cog b |}.

Definition set_products (ps : gmap string product) (b : bot) :=
  {| active_tickets := active_tickets b; products := ps; orders := orders b;
     discounts := discounts b; referrals := referrals b;
     counters := counters b; bot_config := bot_config b;
     payment_cog := payment_cog b; ticket_cog := ticket_cog b |}.

Definition set_orders (o : gmap string order) (b : bot) :=
  {| active_tickets := active_tickets b; products := products b; orders := o;
     discounts := discounts b; referrals := referrals b;
     counters := counters b; bot_config := bot_config b;
     payment_cog := payment_cog b; ticket_cog := ticket_cog b |}.

Definition set_discounts (d : gmap string discount_info) (b : bot) :=
  {| active_tickets := active_tickets b; products := products b;
     orders := orders b; discounts := d; referrals := referrals b;
     counters := counters b; bot_config := bot_config b;
     payment_cog := payment_cog b; ticket_cog := ticket_cog b |}.

Definition set_counters (c : gmap string Z) (b : bot) :=
  {| active_tickets := active_tickets b; products := products b;
     orders := orders b; discounts := discounts b; referrals := referrals b;
     counters := c; bot_config := bot_config b;
     payment_cog := payment_cog b; ticket_cog := ticket_cog b |}.

(** [bot.active_tickets[channel] = ticket_state] *)
Definition store_ticket (ch : Z) (t : ticket_state) (b : bot) : bot :=
  set_active_tickets (Py.dict_set ch t (active_tickets b)) b.

(** ** Environment and effects *)

(** The calls a handler makes to the outside (persistence gateway, chat
    platform, payment cog), one name per call site. *)
Inductive ext_call :=
| AddLoadProducts
| EmbedLoadProducts
| EmbedEditMessage
| ApplyLoadReferrals
| ApplyLoadOrders
| ApplyLoadDiscounts
| ApplySaveDiscounts
| ConfirmLoadProducts
| ConfirmEditView
| ConfirmLoadCounters
| ConfirmSaveCounters
| ConfirmLoadOrders
| ConfirmSaveOrders
| ConfirmPaymentEmbed
| ConfirmFetchRecipient
| ConfirmSendPayment
| CancelLoadOrders
| CancelSaveOrders
| CancelLoadDiscounts
| CancelSaveDiscounts
| CancelSendNotice
| CreateSendRefusal
| CreateEditResponse
| CreateAddUser
| CreateLoadProducts
| CreateSendCart
| QuickLoadProducts
| QuickCreateThread
| QuickSendCreated
| QuickAddUser
| QuickLoadProductsForView
| QuickSendCart.

Inductive exn :=
| KeyError (key : string)
| TypeError
| IndexError
| ExternalError (c : ext_call).

(** What [datetime.fromisoformat] makes of a stored expiry: a [ValueError],
    a timestamp without a zone (comparing it with the zone-aware current time
    raises [TypeError]), or a zone-aware instant. *)
Inductive iso_result :=
| IsoInvalid
| IsoNaive
| IsoAware (t : Z).

(** What the platform knows of a thread id: not in the channel cache, or
    cached with the given result of fetching it. *)
Inductive thread_presence :=
| NotCached
| FetchOk
| FetchHttpError
| FetchOtherError.

Inductive thread_creation :=
| Created (thread_id : Z)
| CreateForbidden
| CreateFailed.

Record env := {
  fails : ext_call -> bool;
  now : Z;
  fromisoformat : string -> iso_result;
  repr_number : Q -> string;
  channel_cart_message : Z -> option Z;
  thread_status : Z -> thread_presence;
  create_thread : thread_creation;
  panel_channel_ok : bool;
  cart_message_sent : Z }.

(** The cart display: one line per item (name, quantity, line total), the
    discount line when a discount is shown, and the grand total of the
    footer. *)
Record embed := {
  em_lines : list (string * Z * Q);
  em_discount : option (string * Q);
  em_total : Q }.

(** The messages a handler sends to the actor. *)
Inductive reply :=
| NoProductsToChoose
| TicketNoLongerActive
| ProductNotFound
| InvalidStockData
| StockExhausted (name : string)
| AddedToCart (name : string)
| AddedWithoutDisplay
| DiscountAlreadyApplied
| InvalidReferralCode
| CorruptedReferralCode
| OwnReferralCode
| NewCustomersOnly
| ReferralNotConfigured
| ReferralNotPositive
| ReferralApplied (amount : Q)
| InvalidDiscountCode
| RedeemAlreadyUsed
| RedeemNotYours
| PromoInactive
| PromoMaxUses
| PromoExpired
| UnknownCodeType
| AmountMissing
| AmountNotPositive
| DiscountApplied (amount : Q)
| AppliedWithoutDisplay
| CartEmpty
| ConfirmProductMissing (pid : string)
| ConfirmInvalidStock (pid : string)
| ConfirmStockShort (pid : string) (available in_cart : Z)
| PaymentGatewayMissing
| ConfirmUnexpectedError (e : exn)
| NoOrderToCancel
| CancelBeforeConfirm
| OrderCancelled
| CannotCancel
| CancelUnexpectedError (e : exn)
| AlreadyHaveTicket (thread_id : Z)
| CannotCreateThread
| CreateThreadError
| TicketCreated (thread_id : Z)
| QuickProductNotFound
| QuickOutOfStock
| QuickTicketSystemMissing
| QuickPanelMissing
| QuickTicketCreated (thread_id : Z)
| QuickForbidden
| QuickUnexpectedError (e : exn)
| CartEmbedReply (e : embed).

(** What a handler sends. *)
Inductive event :=
| Followup (r : reply)
| CartShown (message : Z) (e : embed) (view : list component)
| ViewEdited (message : Z) (view : list component)
| PaymentShown (order : string) (buyer : Z) (amount_off : Q) (gift : option Z)
| ChannelNotice (order : string) (by_user : Z).

(** The state a handler works on: the bot, the cart view the handler
    belongs to, and what has been sent (latest first). *)
Record world := {
  w_bot : bot;
  w_view : list component;
  w_sent : list event }.

Inductive result (A : Type) :=
| Ok (a : A)
| Raised (e : exn).
Arguments Ok {A} a.
Arguments Raised {A} e.

(** State and exceptions: an exception keeps the state reached. *)
Definition M (A : Type) : Type := world -> result A * world.

#[global] Instance M_ret : MRet M := fun A a w => (Ok a, w).

#[global] Instance M_bind : MBind M := fun A B f m w =>
  match m w with
  | (Ok a, w') => f a w'
  | (Raised e, w') => (Raised e, w')
  end.

Definition raise {A} (e : exn) : M A := fun w => (Raised e, w).

Definition get_bot : M bot := fun w => (Ok (w_bot w), w).

Definition put_bot (b : bot) : M unit := fun w =>
  (Ok tt, {| w_bot := b; w_view := w_view w; w_sent := w_sent w |}).

Definition get_view : M (list component) := fun w => (Ok (w_view w), w).

Definition put_view (v : list component) : M unit := fun w =>
  (Ok tt, {| w_bot := w_bot w; w_view := v; w_sent := w_sent w |}).

Definition send (ev : event) : M unit := fun w =>
  (Ok tt, {| w_bot := w_bot w; w_view := w_view w; w_sent := ev :: w_sent w |}).

Definition followup (r : reply) : M unit := send (Followup r).

(** An external call: raises when the oracle says so. *)
Definition call (e : env) (c : ext_call) : M unit :=
  if fails e c then raise (ExternalError c) else mret tt.

(** [try: body except Exception as e: handler(e)] *)
Definition try_except {A} (body : M A) (handler : exn -> M A) : M A := fun w =>
  match body w with
  | (Ok a, w') => (Ok a, w')
  | (Raised e, w') => handler e w'
  end.

(** A value that may be missing where the source subscripts or multiplies. *)
Definition or_raise {A} (e : exn) (o : option A) : M A :=
  match o with
  | Some a => mret a
  | None => raise e
  end.

(** Running a handler from a bot and a view, with nothing sent yet. *)
Definition run {A} (m : M A) (b : bot) (v : list component) : result A * world :=
  m {| w_bot := b; w_view := v; w_sent := [] |}.

Definition final_bot {A} (r : result A * world) : bot := w_bot (snd r).
Definition final_view {A} (r : result A * world) : list component := w_view (snd r).
Definition sent {A} (r : result A * world) : list event := w_sent (snd r).

(** ** The cart display: [ShoppingCartView.update_cart_embed] *)

(** [i.get('price', 0.0) * i.get('quantity', 0)]; [None] is the [TypeError]
    of multiplying a null price. *)
Definition item_total (i : cart_item) : option Q :=
  match ci_price i with
  | Some p => Some (p * inject_Z (ci_quantity i))%Q
  | None => None
  end.

(** [sum(...)] over the cart values, from the left, starting at zero. *)
Fixpoint sum_from (acc : Q) (items : list cart_item) : option Q :=
  match items with
  | [] => Some acc
  | i :: rest =>
      match item_total i with
      | Some t => sum_from (acc + t)%Q rest
      | None => None
      end
  end.

Definition cart_total (c : list (string * cart_item)) : option Q :=
  sum_from 0%Q (Py.dict_values c).

Fixpoint cart_lines (items : list cart_item) : option (list (string * Z * Q)) :=
  match items with
  | [] => Some []
  | i :: rest =>
      match item_total i, cart_lines rest with
      | Some t, Some ls => Some ((ci_name i, ci_quantity i, t) :: ls)
      | _, _ => None
      end
  end.

(** [ticket_state.get("discount", 0.0)] *)
Definition discount_or_zero (t : ticket_state) : Q :=
  match discount t with Some d => d | None => 0%Q end.

(** The embed built from a ticket state. *)
Definition cart_embed (t : ticket_state) : option embed :=
  match cart t with
  | [] => Some {| em_lines := []; em_discount := None; em_total := 0%Q |}
  | _ =>
      match cart_total (cart t), cart_lines (Py.dict_values (cart t)) with
      | Some total, Some ls =>
          let d := discount_or_zero t in
          let reason :=
            match discount_reason t with
            | Some r => r
            | None => "Discount Applied"%string
            end in
          Some {| em_lines := ls;
                  em_discount := if Py.gtb d 0%Q then Some (reason, d) else None;
                  em_total := Py.max 0%Q (total - d)%Q |}
      | _, _ => None
      end
  end.

(** A fresh, enabled product dropdown. *)
Definition ProductSelect : component :=
  {| custom_id := "product_select"; disabled := false |}.

(** [self.children[0] = ProductSelect(...)], read as a list assignment. *)
Definition replace_first (c : component) (v : list component)
    : option (list component) :=
  match v with
  | [] => None
  | _ :: rest => Some (c :: rest)
  end.

Definition update_cart_embed (e : env) (i : interaction)
    (message_to_edit : option Z) : M unit :=
  b ← get_bot;
  match Py.dict_get (channel_id i) (active_tickets b) with
  | None => mret tt
  | Some t =>
      em ← or_raise TypeError (cart_embed t);
      call e EmbedLoadProducts;;
      v ← get_view;
      v' ← or_raise IndexError (replace_first ProductSelect v);
      put_view v';;
      match message_to_edit with
      | Some m =>
          if fails e EmbedEditMessage
          then followup (CartEmbedReply em)
          else send (CartShown m em v')
      | None => followup (CartEmbedReply em)
      end
  end.

(** ** Adding an item: [ProductSelect.callback] *)

(** Truth value of an optional integer: [None] and [0] are false. *)
Definition truthy_id (o : option Z) : bool :=
  match o with
  | Some n => negb (n =? 0)
  | None => false
  end.

(** [int(product.get('stock', 0))]; [None] is the [ValueError]. *)
Definition stock_of (p : product) : option Z :=
  match p_stock p with
  | None => Some 0
  | Some (StockInt n) => Some n
  | Some (StockText s) => Py.int_of_str s
  end.

(** [product.get('price', 0.0)] *)
Definition price_of (p : product) : option Q :=
  match p_price p with
  | None => Some 0%Q
  | Some v => v
  end.

(** [cart.get(product_id, {}).get('quantity', 0)] *)
Definition quantity_in_cart (pid : string) (c : list (string * cart_item)) : Z :=
  match Py.dict_get pid c with
  | Some item => ci_quantity item
  | None => 0
  end.

(** Locating the cart message: the stored id when the message is still in
    the channel, else the cart message found in the recent history, whose id
    is then stored in the ticket state. *)
Definition fetch_by_stored_id (e : env) (i : interaction) (t : ticket_state)
    : option Z :=
  match cart_message_id t with
  | Some m =>
      if negb (m =? 0) && bool_decide (channel_cart_message e (channel_id i) = Some m)
      then Some m else None
  | None => None
  end.

Definition locate_cart_message (e : env) (i : interaction) (t : ticket_state)
    : M (option Z) :=
  match fetch_by_stored_id e i t with
  | Some m => mret (Some m)
  | None =>
      match channel_cart_message e (channel_id i) with
      | Some m =>
          b ← get_bot;
          put_bot (store_ticket (channel_id i) (set_cart_message_id (Some m) t) b);;
          mret (Some m)
      | None => mret None
      end
  end.

(** The redisplay after the cart changed. *)
Definition refresh_after_add (e : env) (i : interaction) (t' : ticket_state)
    (product : product) : M unit :=
  cart_message ← locate_cart_message e i t';
  match cart_message with
  | Some m =>
      update_cart_embed e i (Some m);;
      name ← or_raise (KeyError "name") (p_name product);
      followup (AddedToCart name)
  | None => followup AddedWithoutDisplay
  end.

(** The handler. The renaming of the thread after the mutation is left out:
    it sits in a [try] whose [except] swallows every error, and it touches
    neither the ticket state nor what is sent to the actor. *)
Definition ProductSelect_callback (e : env) (i : interaction) (value : string)
    : M unit :=
  if bool_decide (value = "disabled"%string) then followup NoProductsToChoose
  else
    b ← get_bot;
    match Py.dict_get (channel_id i) (active_tickets b) with
    | None => followup TicketNoLongerActive
    | Some t =>
        let c := cart t in
        call e AddLoadProducts;;
        let product_id := value in
        match products b !! product_id with
        | None => followup ProductNotFound
        | Some product =>
            match stock_of product with
            | None => followup InvalidStockData
            | Some stock =>
                if negb (stock =? -1) && (quantity_in_cart product_id c >=? stock)
                then
                  name ← or_raise (KeyError "name") (p_name product);
                  followup (StockExhausted name)
                else
                  c' ← match Py.dict_get product_id c with
                       | Some item =>
                           mret (Py.dict_set product_id
                                   (set_quantity (ci_quantity item + 1) item) c)
                       | None =>
                           name ← or_raise (KeyError "name") (p_name product);
                           mret (Py.dict_set product_id
                                   {| ci_name := name;
                                      ci_price := price_of product;
                                      ci_quantity := 1 |} c)
                       end;
                  let t' := set_cart c' t in
                  put_bot (store_ticket (channel_id i) t' b);;
                  refresh_after_add e i t' product
            end
        end
    end.

(** ** Applying a code: [DiscountCodeModal.on_submit] *)

(** [str(x)] of a stored [generated_by] value. *)
Definition str_of_generated_by (g : option string) : string :=
  match g with
  | Some s => s
  | None => "None"
  end.

(** [any(o.get('user_id') == user and o.get('status') == 'Delivered'
         for o in orders.values())] *)
Definition has_past_orders (user : Z) (os : gmap string order) : bool :=
  existsb (fun o => (o_user_id o =? user) && bool_decide (o_status o = "Delivered"%string))
          (map snd (map_to_list os)).

(** The redisplay after a code was applied: only the stored message id is
    tried. The source redisplays through the persistent cart view of the bot
    (or a fresh one); the model uses the view of the world. *)
Definition redisplay_after_code (e : env) (i : interaction) (t : ticket_state)
    : M unit :=
  match fetch_by_stored_id e i t with
  | Some m => update_cart_embed e i (Some m)
  | None => followup AppliedWithoutDisplay
  end.

Definition apply_referral (e : env) (i : interaction) (code : string)
    (t : ticket_state) : M unit :=
  call e ApplyLoadReferrals;;
  b ← get_bot;
  match referrals b !! code with
  | None => followup InvalidReferralCode
  | Some referrer_id_str =>
      if negb (Py.truthy referrer_id_str) then followup InvalidReferralCode
      else
        match Py.int_of_str referrer_id_str with
        | None => followup CorruptedReferralCode
        | Some referrer_id =>
            if user_id i =? referrer_id then followup OwnReferralCode
            else
              call e ApplyLoadOrders;;
              if has_past_orders (user_id i) (orders b)
              then followup NewCustomersOnly
              else
                match new_user_discount_inr (bot_config b) with
                | None => followup ReferralNotConfigured
                | Some amount =>
                    if Py.leb amount 0%Q then followup ReferralNotPositive
                    else
                      let t' :=
                        set_referral_info (Some (code, referrer_id))
                          (set_discount_reason
                             (Some ("Referral Discount (Code: " +:+ code +:+ ")"))
                             (set_discount (Some amount) t)) in
                      put_bot (store_ticket (channel_id i) t' b);;
                      followup (ReferralApplied amount);;
                      redisplay_after_code e i t'
                end
        end
  end.

(** The checks of a redeemable code; on success the registry entry marked
    used. *)
Definition check_redeem (i : interaction) (info : discount_info)
    : reply + discount_info :=
  if d_used info then inl RedeemAlreadyUsed
  else
    match d_generated_by info with
    | Some g =>
        if negb (bool_decide (Py.str_of_int (user_id i) = str_of_generated_by g))
        then inl RedeemNotYours
        else inr (set_used true info)
    | None => inr (set_used true info)
    end.

(** The checks of a promotional code; on success the registry entry with its
    usage counter incremented. The inner [None] is the [TypeError] of
    comparing a zone-less expiry with the current time. *)
Definition check_promo (e : env) (info : discount_info)
    : option (reply + discount_info) :=
  if negb (d_is_active info) then Some (inl PromoInactive)
  else
    let current_uses := d_uses info in
    let over :=
      match d_max_uses info with
      | Unlimited => false
      | Finite n => current_uses >=? n
      end in
    if over then Some (inl PromoMaxUses)
    else
      let accepted := Some (inr (set_uses (current_uses + 1) info)) in
      match d_expires_at info with
      | Some expiry_str =>
          if Py.truthy expiry_str then
            match fromisoformat e expiry_str with
            | IsoAware expiry_time =>
                if expiry_time <? now e then Some (inl PromoExpired) else accepted
            | IsoInvalid => accepted
            | IsoNaive => None
            end
          else accepted
      | None => accepted
      end.

(** The tail of [on_submit] once the code passed the checks of its type. *)
Definition apply_amount (e : env) (i : interaction) (code : string)
    (t : ticket_state) (info' : discount_info) : M unit :=
  match d_discount_inr info' with
  | None => followup AmountMissing
  | Some amount =>
      if Py.leb amount 0%Q then followup AmountNotPositive
      else
        b ← get_bot;
        let t' :=
          set_discount_reason (Some ("Discount Code (" +:+ code +:+ ")"))
            (set_discount (Some amount) t) in
        put_bot (store_ticket (channel_id i) t' b);;
        call e ApplySaveDiscounts;;
        b' ← get_bot;
        put_bot (set_discounts (<[code := info']> (discounts b')) b');;
        followup (DiscountApplied amount);;
        redisplay_after_code e i t'
  end.

Definition DiscountCodeModal_on_submit (e : env) (i : interaction)
    (code_input : string) : M unit :=
  let code := Py.upper (Py.strip code_input) in
  b ← get_bot;
  match Py.dict_get (channel_id i) (active_tickets b) with
  | None => followup TicketNoLongerActive
  | Some t =>
      if Py.gtb (discount_or_zero t) 0%Q then followup DiscountAlreadyApplied
      else if Py.startswith code "REF-" then apply_referral e i code t
      else
        call e ApplyLoadDiscounts;;
        match discounts b !! code with
        | None => followup InvalidDiscountCode
        | Some info =>
            let code_type :=
              match d_type info with Some ty => ty | None => "promo"%string end in
            if bool_decide (code_type = "redeem"%string) then
              match check_redeem i info with
              | inl r => followup r
              | inr info' => apply_amount e i code t info'
              end
            else if bool_decide (code_type = "promo"%string) then
              match check_promo e info with
              | Some (inl r) => followup r
              | Some (inr info') => apply_amount e i code t info'
              | None => raise TypeError
              end
            else followup UnknownCodeType
        end
  end.

(** ** Confirming: [ShoppingCartView.confirm] *)

(** The stock re-validation loop: the message of the first violation. *)
Fixpoint check_stock (ps : gmap string product)
    (items : list (string * cart_item)) : option reply :=
  match items with
  | [] => None
  | (pid, item_data) :: rest =>
      match ps !! pid with
      | None => Some (ConfirmProductMissing pid)
      | Some product_info =>
          match stock_of product_info with
          | None => Some (ConfirmInvalidStock pid)
          | Some stock_available =>
              let quantity_in_cart := ci_quantity item_data in
              if negb (stock_available =? -1) && (quantity_in_cart >? stock_available)
              then Some (ConfirmStockShort pid stock_available quantity_in_cart)
              else check_stock ps rest
          end
      end
  end.

(** [sorted(role_discounts_config,
            key=lambda r: r.get('discount_percent', 0), reverse=True)]:
    a stable sort, highest key first. *)
Definition sort_key (r : role_discount) : Q :=
  match rd_discount_percent r with
  | Some p => p
  | None => 0%Q
  end.

Fixpoint insert_desc (r : role_discount) (l : list role_discount)
    : list role_discount :=
  match l with
  | [] => [r]
  | r' :: l' =>
      if Py.gtb (sort_key r') (sort_key r) then r' :: insert_desc r l'
      else r :: r' :: l'
  end.

Definition sorted_desc (l : list role_discount) : list role_discount :=
  foldr insert_desc [] l.

(** [role_id and discount_percent is not None and role_id in user_roles] *)
Definition applicable (roles : list Z) (r : role_discount) : option (Z * Q) :=
  match rd_role_id r, rd_discount_percent r with
  | Some role_id, Some discount_percent =>
      if negb (role_id =? 0) && existsb (Z.eqb role_id) roles
      then Some (role_id, discount_percent)
      else None
  | _, _ => None
  end.

(** The loop over the sorted tiers stops at the first one that applies. *)
Fixpoint first_applicable (roles : list Z) (l : list role_discount)
    : option (Z * Q) :=
  match l with
  | [] => None
  | r :: l' =>
      match applicable roles r with
      | Some hit => Some hit
      | None => first_applicable roles l'
      end
  end.

Definition role_reason (e : env) (role_id : Z) (discount_percent : Q) : string :=
  repr_number e discount_percent +:+ "% Role Discount (for <@&"
    +:+ Py.str_of_int role_id +:+ ">)".

(** The tier rule: the ticket state and the final discount it leaves. *)
Definition tier_discount (e : env) (i : interaction) (cfg : config)
    (t : ticket_state) : option (ticket_state * Q) :=
  let final_discount := discount_or_zero t in
  match user_roles i with
  | Some roles =>
      if Py.eqb final_discount 0%Q then
        let sorted_role_discounts := sorted_desc (role_based_discounts cfg) in
        match cart_total (cart t) with
        | None => None
        | Some total_cart_value =>
            match first_applicable roles sorted_role_discounts with
            | Some (role_id, discount_percent) =>
                let calculated_discount :=
                  (total_cart_value * (discount_percent / 100))%Q in
                if Py.gtb calculated_discount final_discount
                then Some (set_discount_reason
                             (Some (role_reason e role_id discount_percent))
                             (set_discount (Some calculated_discount) t),
                           calculated_discount)
                else Some (t, final_discount)
            | None => Some (t, final_discount)
            end
        end
      else Some (t, final_discount)
  | None => Some (t, final_discount)
  end.

Definition set_disabled (d : bool) (c : component) : component :=
  {| custom_id := custom_id c; disabled := d |}.

Definition order_key : string := "last_order_number".

(** The payment presentation requested from the payment cog. *)
Definition request_payment (e : env) (i : interaction) (oid : string)
    (final_discount : Q) (t : ticket_state) : M unit :=
  b ← get_bot;
  if negb (payment_cog b) then followup PaymentGatewayMissing
  else
    call e ConfirmPaymentEmbed;;
    (if truthy_id (gift_recipient_id t)
     then call e ConfirmFetchRecipient else mret tt);;
    call e ConfirmSendPayment;;
    send (PaymentShown oid (user_id i) final_discount (gift_recipient_id t)).

Definition confirm_body (e : env) (i : interaction) : M unit :=
  b ← get_bot;
  match Py.dict_get (channel_id i) (active_tickets b) with
  | None => followup CartEmpty
  | Some t =>
      match cart t with
      | [] => followup CartEmpty
      | cart_contents =>
          call e ConfirmLoadProducts;;
          match check_stock (products b) cart_contents with
          | Some r => followup r
          | None =>
              '(t1, final_discount) ←
                 or_raise TypeError (tier_discount e i (bot_config b) t);
              let t2 := set_discount (Some final_discount) t1 in
              put_bot (store_ticket (channel_id i) t2 b);;
              update_cart_embed e i (Some (message_id i));;
              v ← get_view;
              put_view (map (set_disabled true) v);;
              call e ConfirmEditView;;
              send (ViewEdited (message_id i) (map (set_disabled true) v));;
              call e ConfirmLoadCounters;;
              b1 ← get_bot;
              let last_order_number :=
                match counters b1 !! order_key with Some n => n | None => 0 end in
              let new_order_number := last_order_number + 1 in
              let oid := ("ORD" +:+ Py.format_04d new_order_number)%string in
              call e ConfirmSaveCounters;;
              put_bot (set_counters (<[order_key := new_order_number]> (counters b1)) b1);;
              call e ConfirmLoadOrders;;
              b2 ← get_bot;
              let new_order :=
                {| o_user_id := user_id i;
                   o_items := cart_contents;
                   o_status := "Pending Payment";
                   o_discount := final_discount;
                   o_discount_reason :=
                     match discount_reason t2 with
                     | Some r => r
                     | None => "No Discount"%string
                     end;
                   o_gift_recipient_id := gift_recipient_id t2;
                   o_timestamp := now e;
                   o_channel_id := channel_id i |} in
              let t3 := set_order_id (Some oid) t2 in
              put_bot (store_ticket (channel_id i) t3 b2);;
              call e ConfirmSaveOrders;;
              b3 ← get_bot;
              put_bot (set_orders (<[oid := new_order]> (orders b3)) b3);;
              request_payment e i oid final_discount t3
          end
      end
  end.

Definition confirm (e : env) (i : interaction) : M unit :=
  try_except (confirm_body e i)
    (fun ex => followup (ConfirmUnexpectedError ex)).

(** ** Cancelling: [ShoppingCartView.cancel_order] *)

(** Returning a redeemable code on cancellation. *)
Definition unuse_redeem_code (e : env) (i : interaction) (t : ticket_state)
    : M unit :=
  match discount_reason t with
  | Some reason =>
      if Py.truthy reason && Py.contains "REDEEM-" reason then
        match Py.re_search_parens reason with
        | Some used_code =>
            call e CancelLoadDiscounts;;
            b ← get_bot;
            match discounts b !! used_code with
            | Some info =>
                if bool_decide (d_type info = Some "redeem"%string)
                   && d_used info
                   && bool_decide
                        (str_of_generated_by
                           (match d_generated_by info with
                            | Some g => g
                            | None => None
                            end)
                         = Py.str_of_int (user_id i))
                then
                  call e CancelSaveDiscounts;;
                  put_bot (set_discounts
                             (<[used_code := set_used false info]> (discounts b)) b)
                else mret tt
            | None => mret tt
            end
        | None => mret tt
        end
      else mret tt
  | None => mret tt
  end.

(** [ticket_state.pop(...)] of the four order-related keys. *)
Definition clear_order_info (t : ticket_state) : ticket_state :=
  set_gift_recipient_id None
    (set_discount_reason None (set_discount None (set_order_id None t))).

(** The end of a cancellation: the components of the view are enabled
    again, the cart is redisplayed when its message is found, and the
    cancellation is announced. *)
Definition reopen_cart (e : env) (i : interaction) (oid : string)
    (t' : ticket_state) : M unit :=
  v ← get_view;
  put_view (map (set_disabled false) v);;
  match fetch_by_stored_id e i t' with
  | Some m => update_cart_embed e i (Some m)
  | None => mret tt
  end;;
  followup OrderCancelled;;
  call e CancelSendNotice;;
  send (ChannelNotice oid (user_id i)).

Definition cancel_body (e : env) (i : interaction) : M unit :=
  b ← get_bot;
  match Py.dict_get (channel_id i) (active_tickets b) with
  | None => followup NoOrderToCancel
  | Some t =>
      match order_id t with
      | None => followup CancelBeforeConfirm
      | Some oid =>
          if negb (Py.truthy oid) then followup CancelBeforeConfirm
          else
            call e CancelLoadOrders;;
            match orders b !! oid with
            | Some order_to_cancel =>
                if bool_decide (o_status order_to_cancel = "Pending Payment"%string)
                then
                  call e CancelSaveOrders;;
                  put_bot (set_orders
                             (<[oid := set_status "Cancelled by User" order_to_cancel]>
                                (orders b)) b);;
                  unuse_redeem_code e i t;;
                  b1 ← get_bot;
                  let t' := clear_order_info t in
                  put_bot (store_ticket (channel_id i) t' b1);;
                  reopen_cart e i oid t'
                else followup CannotCancel
            | None => followup CannotCancel
            end
      end
  end.

Definition cancel_order (e : env) (i : interaction) : M unit :=
  try_except (cancel_body e i)
    (fun ex => followup (CancelUnexpectedError ex)).

(** ** Opening a ticket: [TicketSystem.create_ticket_thread] *)

(** The loop over a snapshot of the registry: the thread that makes the
    creation refused, if any, and the registry after the stale entries met on
    the way were removed. An entry is also removed when the refusal cannot be
    sent: the send sits in the same [try], and its failure is an
    [HTTPException]. *)
Fixpoint check_existing (e : env) (user : Z)
    (snapshot tickets : list (Z * ticket_state))
    : option Z * list (Z * ticket_state) :=
  match snapshot with
  | [] => (None, tickets)
  | (thread_id, state) :: rest =>
      if bool_decide (creator_id state = Some user)
         && bool_decide (status state = Some "Open"%string)
      then
        match thread_status e thread_id with
        | FetchOk =>
            if fails e CreateSendRefusal
            then check_existing e user rest (Py.dict_pop thread_id tickets)
            else (Some thread_id, tickets)
        | NotCached => check_existing e user rest (Py.dict_pop thread_id tickets)
        | FetchHttpError => check_existing e user rest (Py.dict_pop thread_id tickets)
        | FetchOtherError => check_existing e user rest tickets
        end
      else check_existing e user rest tickets
  end.

(** The state stored for a new ticket. *)
Definition new_ticket_state (user : Z) (cat : option string) : ticket_state :=
  {| creator_id := Some user;
     category := cat;
     status := Some "Open"%string;
     cart := [];
     discount := Some 0%Q;
     discount_reason := Some "No Discount"%string;
     referral_info := None;
     order_id := None;
     gift_recipient_id := None;
     claimed_by := None;
     cart_message_id := None |}.

(** The handler, up to the registration of the ticket and of its cart
    message; the welcome messages and the staff controls sent afterwards
    change nothing of the bot. *)
Definition create_ticket_thread (e : env) (i : interaction)
    (ticket_category : option string) : M unit :=
  b ← get_bot;
  let '(refused, tickets) :=
    check_existing e (user_id i) (active_tickets b) (active_tickets b) in
  put_bot (set_active_tickets tickets b);;
  match refused with
  | Some thread_id => followup (AlreadyHaveTicket thread_id)
  | None =>
      match create_thread e with
      | CreateForbidden => followup CannotCreateThread
      | CreateFailed => followup CreateThreadError
      | Created thread_id =>
          call e CreateEditResponse;;
          followup (TicketCreated thread_id);;
          call e CreateAddUser;;
          b1 ← get_bot;
          let t := new_ticket_state (user_id i) ticket_category in
          put_bot (store_ticket thread_id t b1);;
          if bool_decide (ticket_category = Some "BUY"%string) then
            call e CreateLoadProducts;;
            call e CreateSendCart;;
            b2 ← get_bot;
            put_bot (store_ticket thread_id
                       (set_cart_message_id (Some (cart_message_sent e)) t) b2)
          else mret tt
      end
  end.

(** ** Quick buy: [ProductManagement.execute_quick_buy] *)

(** [product.get('stock', 0) == 0] *)
Definition stock_is_zero (p : product) : bool :=
  match p_stock p with
  | None => true
  | Some (StockInt n) => n =? 0
  | Some (StockText _) => false
  end.

(** The state stored for a quick-buy ticket: the keys the source writes. *)
Definition quick_ticket_state (user : Z) (pid : string) (p : product)
    : ticket_state :=
  {| creator_id := Some user;
     category := Some "BUY"%string;
     status := Some "Open"%string;
     cart := [(pid, {| ci_name := match p_name p with
                                  | Some n => n
                                  | None => "Unnamed Product"%string
                                  end;
                       ci_price := price_of p;
                       ci_quantity := 1 |})];
     discount := Some 0%Q;
     discount_reason := None;
     referral_info := None;
     order_id := None;
     gift_recipient_id := None;
     claimed_by := None;
     cart_message_id := None |}.

Definition quick_buy_body (e : env) (i : interaction) (pid : string)
    (p : product) : M unit :=
  match create_thread e with
  | CreateForbidden => followup QuickForbidden
  | CreateFailed => raise (ExternalError QuickCreateThread)
  | Created thread_id =>
      call e QuickSendCreated;;
      followup (QuickTicketCreated thread_id);;
      call e QuickAddUser;;
      b ← get_bot;
      let t := quick_ticket_state (user_id i) pid p in
      put_bot (store_ticket thread_id t b);;
      call e QuickLoadProductsForView;;
      _ ← or_raise TypeError (price_of p);
      call e QuickSendCart;;
      b1 ← get_bot;
      put_bot (store_ticket thread_id
                 (set_cart_message_id (Some (cart_message_sent e)) t) b1)
  end.

Definition execute_quick_buy (e : env) (i : interaction) (product_id : string)
    : M unit :=
  call e QuickLoadProducts;;
  b ← get_bot;
  let pid := Py.upper product_id in
  match products b !! pid with
  | None => followup QuickProductNotFound
  | Some p =>
      if stock_is_zero p then followup QuickOutOfStock
      else if negb (ticket_cog b) then followup QuickTicketSystemMissing
      else if negb (panel_channel_ok e) then followup QuickPanelMissing
      else
        try_except (quick_buy_body e i pid p)
          (fun ex => followup (QuickUnexpectedError ex))
  end.


(** ** Commands and staff controls

    The slash commands ([/gift], [/create_discount]), the buttons of the
    staff controls, the closing of a ticket and the reward dropdown of the
    loyalty program. They answer with messages of their own and call the
    outside at call sites of their own, so they run in a second monad of the
    same kind as [M]: the state is the bot, the loyalty accounts and what has
    been sent; an exception keeps the state reached. A call to the outside
    returns or raises one of the exceptions of the chat library, as an
    oracle decides for each call site. *)

(** [l[start:stop]] for a list and two integers. *)
Definition norm_index (len idx : Z) : Z :=
  if idx <? 0 then Z.max 0 (idx + len) else Z.min idx len.

Definition list_slice {A} (start stop : Z) (l : list A) : list A :=
  let n := Z.of_nat (length l) in
  let a := norm_index n start in
  let b := norm_index n stop in
  firstn (Z.to_nat (b - a)) (skipn (Z.to_nat a) l).

(** [s[:n]] for a string. *)
Definition str_take (n : nat) (s : string) : string := String.substring 0 n s.

(** An entry of the [users] collection; [None] is an absent key. *)
Record account := {
  points : option Z;
  wallet_balance : option Q }.

(** An entry of [config['loyalty_program']['rewards']]. *)
Record reward := {
  rw_points : option Z;
  rw_discount_inr : option Q }.

(** What these handlers read of the configuration, beside [config]. *)
Record settings := {
  owner_ids : list Z;
  rewards : list reward }.

(** The member a command is given as an argument. *)
Record member := {
  m_id : Z;
  m_bot : bool }.

(** The call sites. *)
Inductive site :=
| GiftRespond
| ClaimDefer
| ClaimFetchClaimer
| ClaimReplyClaimed
| ClaimEditControls
| ClaimAnnounce
| ClaimReportError
| UnclaimDefer
| UnclaimReplyRefused
| UnclaimFetchCreator
| UnclaimEditControls
| UnclaimAnnounce
| UnclaimReportError
| CloseAcknowledge
| CloseFetchCreator
| CloseMakeDirs
| CloseExport
| CloseSummary
| CloseWriteFile
| CloseSendStaff
| CloseReplyStaffFailed
| CloseReplyNoChannel
| CloseSendCreator
| CloseReplyCreatorFailed
| CloseReplyNoCreator
| CloseReplyExportFailed
| CloseNotifyStaffEmpty
| CloseReplyCritical
| CloseNotifyStaffCritical
| CloseDeleteChannel
| CloseReplyDeleteFailed
| CloseReportError
| DiscountDefer
| DiscountLoad
| DiscountReply
| DiscountSave
| RedeemRespond
| RedeemDefer
| RedeemLoadUsers
| RedeemReply
| RedeemSaveUsers
| RedeemLoadDiscounts
| RedeemSaveDiscounts
| RedeemSendDm
| RedeemReplyDm.

(** What a call does: it returns, or raises [discord.Forbidden],
    [discord.NotFound], or another exception. *)
Inductive call_result :=
| Succeeds
| RaisesForbidden
| RaisesNotFound
| RaisesOther.

Inductive cexn :=
| Forbidden (s : site)
| NotFound (s : site)
| OtherError (s : site)
| MissingKey (key : string)
| BadInteger
| CheckFailure.

(** The messages of these handlers. *)
Inductive notice :=
| GiftOutsideTicket
| GiftNotBuyTicket
| GiftToBot
| GiftToSelf
| GiftSet (recipient : Z)
| AlreadyClaimed (by_user : Z) (resolved : bool)
| ControlsShown (claimed : bool)
| ClaimedBy (user : Z)
| CannotUnclaim
| Unclaimed (user : Z)
| StaffError (ex : cexn)
| SavingTicket
| TranscriptToStaff (channel : Z)
| TranscriptNotSentForbidden
| TranscriptNotSentError
| TranscriptChannelMissing
| TranscriptToCreator (creator : Z)
| CreatorDmForbidden
| CreatorDmError
| CreatorUnknown
| TranscriptFailed
| StaffTranscriptFailed (channel : Z)
| TranscriptCritical
| StaffTranscriptCritical (channel : Z) (ex : cexn)
| CannotDeleteChannel
| DeleteChannelError (ex : cexn)
| DiscountNotPositive
| MaxUsesNegative
| CodeExists (code : string)
| ExpiryNotPositive
| DiscountCreated (code : string)
| NoRewardSelected
| RewardUnavailable
| NotEnoughPoints
| CodeSentByDm (code : string)
| CodeNotSentForbidden
| CodeNotSentError.

(** The outside as these handlers see it: the oracle of the call sites, the
    current time in seconds and its rendering by [isoformat], the users in
    the cache of the bot, whether the transcript channel of the
    configuration is found, whether the export of the chat gives a text,
    whether the AI cog is loaded, and the six characters drawn for a code. *)
Record cenv := {
  result_of : site -> call_result;
  c_now : Z;
  isoformat : Z -> string;
  user_cached : Z -> bool;
  transcript_channel_ok : bool;
  export_nonempty : bool;
  ai_cog : bool;
  random_suffix : string }.

Record cworld := {
  cw_bot : bot;
  cw_users : gmap string account;
  cw_sent : list notice }.

Inductive outcome (A : Type) :=
| Done (a : A)
| Failed (ex : cexn).
Arguments Done {A} a.
Arguments Failed {A} ex.

Definition Cmd (A : Type) : Type := cworld -> outcome A * cworld.

#[global] Instance Cmd_ret : MRet Cmd := fun A a w => (Done a, w).

#[global] Instance Cmd_bind : MBind Cmd := fun A B f m w =>
  match m w with
  | (Done a, w') => f a w'
  | (Failed ex, w') => (Failed ex, w')
  end.

Definition craise {A} (ex : cexn) : Cmd A := fun w => (Failed ex, w).

Definition cget_bot : Cmd bot := fun w => (Done (cw_bot w), w).

Definition cput_bot (b : bot) : Cmd unit := fun w =>
  (Done tt, {| cw_bot := b; cw_users := cw_users w; cw_sent := cw_sent w |}).

Definition cget_users : Cmd (gmap string account) := fun w => (Done (cw_users w), w).

Definition cput_users (us : gmap string account) : Cmd unit := fun w =>
  (Done tt, {| cw_bot := cw_bot w; cw_users := us; cw_sent := cw_sent w |}).

Definition tell (n : notice) : Cmd unit := fun w =>
  (Done tt, {| cw_bot := cw_bot w; cw_users := cw_users w;
               cw_sent := n :: cw_sent w |}).

(** A call to the outside. *)
Definition ccall (ce : cenv) (s : site) : Cmd unit :=
  match result_of ce s with
  | Succeeds => mret tt
  | RaisesForbidden => craise (Forbidden s)
  | RaisesNotFound => craise (NotFound s)
  | RaisesOther => craise (OtherError s)
  end.

(** Sending a message: the call, then the record of what was sent. *)
Definition respond (ce : cenv) (s : site) (n : notice) : Cmd unit :=
  ccall ce s;; tell n.

(** [try: body except ...: handler] *)
Definition catch {A} (body : Cmd A) (handler : cexn -> Cmd A) : Cmd A := fun w =>
  match body w with
  | (Done a, w') => (Done a, w')
  | (Failed ex, w') => handler ex w'
  end.

(** [try: body finally: cleanup]: the cleanup runs in either case; an
    exception of the cleanup replaces the outcome of the body. *)
Definition try_finally (body : Cmd unit) (cleanup : Cmd unit) : Cmd unit := fun w =>
  match body w with
  | (r, w') =>
      match cleanup w' with
      | (Done _, w'') => (r, w'')
      | (Failed ex, w'') => (Failed ex, w'')
      end
  end.

Definition cor_raise {A} (ex : cexn) (o : option A) : Cmd A :=
  match o with
  | Some a => mret a
  | None => craise ex
  end.

(** Running a handler from a bot and the accounts, with nothing sent yet. *)
Definition crun {A} (m : Cmd A) (b : bot) (us : gmap string account)
    : outcome A * cworld :=
  m {| cw_bot := b; cw_users := us; cw_sent := [] |}.

Definition cbot {A} (r : outcome A * cworld) : bot := cw_bot (snd r).
Definition cusers {A} (r : outcome A * cworld) : gmap string account :=
  cw_users (snd r).
Definition csent {A} (r : outcome A * cworld) : list notice := cw_sent (snd r).

(** *** More field updates *)

Definition set_claimed_by (c : option Z) (t : ticket_state) :=
  {| creator_id := creator_id t; category := category t; status := status t;
     cart := cart t; discount := discount t; discount_reason := discount_reason t;
     referral_info := referral_info t; order_id := order_id t;
     gift_recipient_id := gift_recipient_id t; claimed_by := c;
     cart_message_id := cart_message_id t |}.


(** The dictionary [{}] read as a ticket state: every key is absent. *)
Definition empty_ticket_state : ticket_state :=
  {| creator_id := None; category := None; status := None; cart := [];
     discount := None; discount_reason := None; referral_info := None;
     order_id := None; gift_recipient_id := None; claimed_by := None;
     cart_message_id := None |}.

(** [bot.active_tickets.get(channel, {})] *)
Definition ticket_or_empty (ch : Z) (b : bot) : ticket_state :=
  match Py.dict_get ch (active_tickets b) with
  | Some t => t
  | None => empty_ticket_state
  end.

(** ** The [/gift] command: [TicketSystem.gift] *)

Definition gift (ce : cenv) (i : interaction) (recipient : member) : Cmd unit :=
  b ← cget_bot;
  if negb (Py.dict_mem (channel_id i) (active_tickets b))
  then respond ce GiftRespond GiftOutsideTicket
  else
    match Py.dict_get (channel_id i) (active_tickets b) with
    | None => respond ce GiftRespond GiftNotBuyTicket
    | Some ticket_state =>
        if negb (bool_decide (category ticket_state = Some "BUY"%string))
        then respond ce GiftRespond GiftNotBuyTicket
        else if m_bot recipient then respond ce GiftRespond GiftToBot
        else if m_id recipient =? user_id i then respond ce GiftRespond GiftToSelf
        else
          cput_bot (store_ticket (channel_id i)
                      (set_gift_recipient_id (Some (m_id recipient)) ticket_state) b);;
          respond ce GiftRespond (GiftSet (m_id recipient))
    end.

(** ** The staff controls: [StaffTicketView], [StaffClaimedView] *)

(** The [except Exception] clause of the buttons. *)
Definition report_error (ce : cenv) (s : site) (ex : cexn) : Cmd unit :=
  respond ce s (StaffError ex).

(** Looking up the user who holds the claim, for the mention: from the
    cache, else fetched; a user that is not found is named by id. *)
Definition resolve_claimer (ce : cenv) (claimer : Z) : Cmd bool :=
  if user_cached ce claimer then mret true
  else
    catch (ccall ce ClaimFetchClaimer;; mret true)
      (fun ex => match ex with
                 | NotFound _ => mret false
                 | _ => craise ex
                 end).

(** [StaffTicketView.ClaimButton.callback] *)
Definition ClaimButton_callback (ce : cenv) (i : interaction) : Cmd unit :=
  catch
    (ccall ce ClaimDefer;;
     b ← cget_bot;
     let ticket_state := ticket_or_empty (channel_id i) b in
     if truthy_id (claimed_by ticket_state) then
       claimer ← cor_raise (MissingKey "claimed_by") (claimed_by ticket_state);
       resolved ← resolve_claimer ce claimer;
       respond ce ClaimReplyClaimed (AlreadyClaimed claimer resolved)
     else
       cput_bot (store_ticket (channel_id i)
                   (set_claimed_by (Some (user_id i)) ticket_state) b);;
       respond ce ClaimEditControls (ControlsShown true);;
       respond ce ClaimAnnounce (ClaimedBy (user_id i)))
    (report_error ce ClaimReportError).

(** [interaction.user.id in self.bot.config.get('owner_ids', [])] *)
Definition is_owner (cfg : settings) (i : interaction) : bool :=
  existsb (Z.eqb (user_id i)) (owner_ids cfg).

(** [StaffClaimedView.UnclaimButton.callback]; [ticket_creator_id] is the
    creator the button was built with. *)
Definition UnclaimButton_callback (ce : cenv) (cfg : settings)
    (ticket_creator_id : option Z) (i : interaction) : Cmd unit :=
  catch
    (ccall ce UnclaimDefer;;
     b ← cget_bot;
     let ticket_state := ticket_or_empty (channel_id i) b in
     let is_owner_check := is_owner cfg i in
     let claimed_by_id := claimed_by ticket_state in
     if truthy_id claimed_by_id
        && negb (bool_decide (claimed_by_id = Some (user_id i)))
        && negb is_owner_check
     then respond ce UnclaimReplyRefused CannotUnclaim
     else
       cput_bot (store_ticket (channel_id i)
                   (set_claimed_by None ticket_state) b);;
       (if truthy_id ticket_creator_id
        then catch (ccall ce UnclaimFetchCreator) (fun _ => mret tt)
        else mret tt);;
       respond ce UnclaimEditControls (ControlsShown false);;
       respond ce UnclaimAnnounce (Unclaimed (user_id i)))
    (report_error ce UnclaimReportError).

(** ** Closing a ticket: [close_ticket_action] *)

(** Sending the transcript to the staff channel or to the creator, inside
    [try ... except discord.Forbidden ... except Exception ...]: each
    [except] clause answers the actor. *)
Definition send_or_explain (ce : cenv) (s : site) (sent_notice : notice)
    (reply_site : site) (on_forbidden on_error : notice) : Cmd unit :=
  catch (respond ce s sent_notice)
    (fun ex => match ex with
               | Forbidden _ => respond ce reply_site on_forbidden
               | _ => respond ce reply_site on_error
               end).

(** A notification of the staff channel inside
    [try ... except discord.Forbidden: print(...)]. *)
Definition notify_staff (ce : cenv) (s : site) (n : notice) : Cmd unit :=
  catch (respond ce s n)
    (fun ex => match ex with
               | Forbidden _ => mret tt
               | _ => craise ex
               end).

(** The body of the [try]: the chat is exported, written to a file and
    sent to the staff channel and to the creator. *)
Definition make_transcript (ce : cenv) (i : interaction)
    (ticket_creator : option Z) : Cmd unit :=
  ccall ce CloseMakeDirs;;
  ccall ce CloseExport;;
  if export_nonempty ce then
    (if ai_cog ce then ccall ce CloseSummary else mret tt);;
    ccall ce CloseWriteFile;;
    (if transcript_channel_ok ce
     then send_or_explain ce CloseSendStaff (TranscriptToStaff (channel_id i))
            CloseReplyStaffFailed TranscriptNotSentForbidden TranscriptNotSentError
     else respond ce CloseReplyNoChannel TranscriptChannelMissing);;
    match ticket_creator with
    | Some creator =>
        send_or_explain ce CloseSendCreator (TranscriptToCreator creator)
          CloseReplyCreatorFailed CreatorDmForbidden CreatorDmError
    | None => respond ce CloseReplyNoCreator CreatorUnknown
    end
  else
    respond ce CloseReplyExportFailed TranscriptFailed;;
    if transcript_channel_ok ce
    then notify_staff ce CloseNotifyStaffEmpty (StaffTranscriptFailed (channel_id i))
    else mret tt.

(** The [except Exception] clause of the transcript. *)
Definition transcript_failed (ce : cenv) (i : interaction) (ex : cexn) : Cmd unit :=
  respond ce CloseReplyCritical TranscriptCritical;;
  if transcript_channel_ok ce
  then notify_staff ce CloseNotifyStaffCritical
         (StaffTranscriptCritical (channel_id i) ex)
  else mret tt.

(** The [finally] clause: the ticket leaves the registry, then the channel
    is deleted. *)
Definition forget_and_delete (ce : cenv) (i : interaction) : Cmd unit :=
  b ← cget_bot;
  cput_bot (set_active_tickets (Py.dict_pop (channel_id i) (active_tickets b)) b);;
  catch (ccall ce CloseDeleteChannel)
    (fun ex => match ex with
               | NotFound _ => mret tt
               | Forbidden _ => respond ce CloseReplyDeleteFailed CannotDeleteChannel
               | _ => respond ce CloseReplyDeleteFailed (DeleteChannelError ex)
               end).

(** The creator is fetched when the ticket state names one; a failure of
    the fetch is logged and leaves the creator unknown. *)
Definition fetch_creator (ce : cenv) (ticket_creator_id : option Z)
    : Cmd (option Z) :=
  match ticket_creator_id with
  | Some creator =>
      if negb (creator =? 0)
      then catch (ccall ce CloseFetchCreator;; mret (Some creator))
             (fun _ => mret None)
      else mret None
  | None => mret None
  end.

(** [response_done] is [interaction.response.is_done()]. *)
Definition close_ticket_action (ce : cenv) (i : interaction)
    (response_done : bool) : Cmd unit :=
  (if response_done
   then respond ce CloseAcknowledge SavingTicket
   else ccall ce CloseAcknowledge);;
  b ← cget_bot;
  let ticket_state := ticket_or_empty (channel_id i) b in
  ticket_creator ← fetch_creator ce (creator_id ticket_state);
  try_finally
    (catch (make_transcript ce i ticket_creator) (transcript_failed ce i))
    (forget_and_delete ce i).

(** [StaffTicketView.CloseButton.callback] *)
Definition CloseButton_callback (ce : cenv) (i : interaction) : Cmd unit :=
  catch (close_ticket_action ce i false) (report_error ce CloseReportError).

(** ** The options of the dropdowns *)

(** The description of a [discord.SelectOption]. *)
Inductive description :=
| NoDescription
| PriceText (price : Q)
| CustomQuote
| Text (s : string).

Record select_option := {
  opt_label : string;
  opt_value : string;
  opt_description : description }.

(** The option built for a product of the catalog. *)
Definition product_option (pid : string) (prod : product) : select_option :=
  {| opt_label :=
       str_take 100 (match p_name prod with
                     | Some n => n
                     | None => "Unnamed Product"%string
                     end);
     opt_value := pid;
     opt_description :=
       match p_price prod with
       | Some (Some q) => PriceText q
       | _ => CustomQuote
       end |}.

(** The loop of [ProductSelect.__init__]: a product whose stock is not an
    integer is skipped, and so is one whose stock is neither positive nor
    [-1]. *)
Fixpoint stocked_options (products : list (string * product))
    : list select_option :=
  match products with
  | [] => []
  | (pid, prod) :: rest =>
      match stock_of prod with
      | None => stocked_options rest
      | Some stock =>
          if (stock >? 0) || (stock =? -1)
          then product_option pid prod :: stocked_options rest
          else stocked_options rest
      end
  end.

Definition no_products_option : select_option :=
  {| opt_label := "No products available at the moment.";
     opt_value := "disabled";
     opt_description := NoDescription |}.

(** The options of [ProductSelect.__init__]. *)
Definition ProductSelect_init (products : list (string * product))
    : list select_option :=
  let options := list_slice 0 25 (stocked_options products) in
  match options with
  | [] => [no_products_option]
  | _ => options
  end.

(** ** The product browser: [ProductBrowserView] *)

Inductive browser_notice :=
| PageShown (page : list (string * product)) (number total : Z)
            (previous_off next_off : bool)
| NoProductsOnPage
| QuickAddModalShown (page : list (string * product))
| NoProductsInStore.

(** The view ([products], [current_page] and the [disabled] flags of its two
    navigation buttons) and the message that shows it: the flags of the
    buttons as the user sees them, [None] when no message shows the view. *)
Record browser := {
  br_products : list (string * product);
  current_page : Z;
  previous_disabled : bool;
  next_disabled : bool;
  shown : option (bool * bool) }.

Definition items_per_page : Z := 3.

(** [self.products[start_index:end_index]] *)
Definition page_products (br : browser) : list (string * product) :=
  let start_index := current_page br * items_per_page in
  let end_index := start_index + items_per_page in
  list_slice start_index end_index (br_products br).

(** [-(-len(self.products) // self.items_per_page)] *)
Definition total_pages (br : browser) : Z :=
  - ((- Z.of_nat (length (br_products br))) / items_per_page).

(** The page of [get_page_embed]: its products and the numbers of its
    footer, with the flags the buttons have when it is sent. The text of the
    fields is not modelled; building it is taken to succeed. *)
Definition get_page_embed (br : browser) (previous_off next_off : bool)
    : browser_notice :=
  PageShown (page_products br) (current_page br + 1) (total_pages br)
    previous_off next_off.

(** [update_view]: the flags are set on the view, then the message is
    edited; [edit_ok] tells whether the edit goes through. *)
Definition update_view (edit_ok : bool) (br : browser)
    : option browser_notice * browser :=
  let previous_off := current_page br =? 0 in
  let next_off :=
    (current_page br + 1) * items_per_page >=? Z.of_nat (length (br_products br)) in
  if edit_ok
  then (Some (get_page_embed br previous_off next_off),
        {| br_products := br_products br; current_page := current_page br;
           previous_disabled := previous_off; next_disabled := next_off;
           shown := Some (previous_off, next_off) |})
  else (None,
        {| br_products := br_products br; current_page := current_page br;
           previous_disabled := previous_off; next_disabled := next_off;
           shown := shown br |}).

Definition set_current_page (p : Z) (br : browser) : browser :=
  {| br_products := br_products br; current_page := p;
     previous_disabled := previous_disabled br;
     next_disabled := next_disabled br; shown := shown br |}.

Definition previous_button (edit_ok : bool) (br : browser)
    : option browser_notice * browser :=
  update_view edit_ok (set_current_page (current_page br - 1) br).

Definition next_button (edit_ok : bool) (br : browser)
    : option browser_notice * browser :=
  update_view edit_ok (set_current_page (current_page br + 1) br).

Definition quick_add_to_cart (br : browser) : browser_notice :=
  match page_products br with
  | [] => NoProductsOnPage
  | page => QuickAddModalShown page
  end.

(** [/browse], once the catalog is loaded: the first page, with the flags
    of the first page. *)
Definition browse (products : list (string * product))
    : browser_notice * option browser :=
  match products with
  | [] => (NoProductsInStore, None)
  | _ =>
      let view := {| br_products := products; current_page := 0;
                     previous_disabled := false; next_disabled := false;
                     shown := None |} in
      let next_off := Z.of_nat (length products) <=? items_per_page in
      (get_page_embed view true next_off,
       Some {| br_products := products; current_page := 0;
               previous_disabled := true; next_disabled := next_off;
               shown := Some (true, next_off) |})
  end.

(** A press of a navigation button; the platform delivers it only for a
    button that the message shows enabled. *)
Inductive press :=
| PressPrevious
| PressNext.

Definition press_enabled (p : press) (br : browser) : bool :=
  match shown br, p with
  | Some (previous_off, _), PressPrevious => negb previous_off
  | Some (_, next_off), PressNext => negb next_off
  | None, _ => false
  end.

Definition do_press (edit_ok : bool) (p : press) (br : browser) : browser :=
  match p with
  | PressPrevious => snd (previous_button edit_ok br)
  | PressNext => snd (next_button edit_ok br)
  end.

(** ** Promotional codes: [AdminTools.create_discount] *)

(** The entry written for a new promotional code. *)
Definition new_promo (discount_inr : Q) (max : Z) (expiry : option string)
    : discount_info :=
  {| d_type := Some "promo"%string;
     d_discount_inr := Some discount_inr;
     d_used := false;
     d_generated_by := None;
     d_generated_for_referrer_id := None;
     d_is_active := true;
     d_max_uses := if max >? 0 then Finite max else Unlimited;
     d_uses := 0;
     d_expires_at := expiry |}.

Definition seconds_per_day : Z := 86400.

(** The command behind its owner check; [expires_in_days] is optional. *)
Definition create_discount (ce : cenv) (cfg : settings) (i : interaction)
    (code : string) (discount_inr : Q) (max : Z) (expires_in_days : option Z)
    : Cmd unit :=
  if negb (is_owner cfg i) then craise CheckFailure
  else
    ccall ce DiscountDefer;;
    ccall ce DiscountLoad;;
    b ← cget_bot;
    let code := Py.upper (Py.strip code) in
    if Py.leb discount_inr 0%Q then respond ce DiscountReply DiscountNotPositive
    else if max <? 0 then respond ce DiscountReply MaxUsesNegative
    else if bool_decide (is_Some (discounts b !! code))
    then respond ce DiscountReply (CodeExists code)
    else
      match expires_in_days with
      | Some days =>
          if days <=? 0 then respond ce DiscountReply ExpiryNotPositive
          else
            let expiry_timestamp :=
              isoformat ce (c_now ce + days * seconds_per_day) in
            ccall ce DiscountSave;;
            cput_bot (set_discounts
                        (<[code := new_promo discount_inr max (Some expiry_timestamp)]>
                           (discounts b)) b);;
            respond ce DiscountReply (DiscountCreated code)
      | None =>
          ccall ce DiscountSave;;
          cput_bot (set_discounts
                      (<[code := new_promo discount_inr max None]> (discounts b)) b);;
          respond ce DiscountReply (DiscountCreated code)
      end.

(** ** Redeeming points: [RedeemSelect.callback] *)




(** ** Scenario data

    Concrete inputs on which the properties below are exercised. *)

Definition sample_env : env :=
  {| fails := fun _ => false;
     now := 1000;
     fromisoformat := fun _ => IsoInvalid;
     repr_number := fun _ => "10"%string;
     channel_cart_message := fun _ => None;
     thread_status := fun _ => FetchOk;
     create_thread := Created 200;
     panel_channel_ok := true;
     cart_message_sent := 900 |}.

Definition button (id : string) : component :=
  {| custom_id := id; disabled := false |}.

Definition sample_view : list component :=
  [ProductSelect; button "cart_confirm"; button "cart_discount";
   button "cart_cancel"].

(** User 7, a guild member holding roles 11 and 12, acting in channel 100. *)
Definition sample_interaction : interaction :=
  {| user_id := 7; user_roles := Some [11; 12]; channel_id := 100;
     message_id := 900 |}.

Definition alpha : product :=
  {| p_name := Some "Alpha"%string;
     p_price := Some (Some 10%Q);
     p_stock := Some (StockInt (-1)) |}.

Definition alpha_line (q : Z) : cart_item :=
  {| ci_name := "Alpha"; ci_price := Some 10%Q; ci_quantity := q |}.

(** An open BUY ticket of user 7 with the given cart, discount and order. *)
Definition sample_ticket (c : list (string * cart_item)) (d : option Q)
    (reason : option string) (oid : option string) : ticket_state :=
  {| creator_id := Some 7; category := Some "BUY"%string;
     status := Some "Open"%string; cart := c; discount := d;
     discount_reason := reason; referral_info := None; order_id := oid;
     gift_recipient_id := None; claimed_by := None; cart_message_id := None |}.

Definition sample_config : config :=
  {| role_based_discounts :=
       [ {| rd_role_id := Some 11; rd_discount_percent := Some 5%Q |};
         {| rd_role_id := Some 12; rd_discount_percent := Some 10%Q |};
         {| rd_role_id := Some 13; rd_discount_percent := Some 50%Q |} ];
     new_user_discount_inr := Some 20%Q |}.

(** A bot whose only ticket is [t], in channel 100. *)
Definition sample_bot (t : ticket_state) (os : gmap string order)
    (ds : gmap string discount_info) : bot :=
  {| active_tickets := [(100, t)];
     products := {[ "A"%string := alpha ]};
     orders := os;
     discounts := ds;
     referrals := ∅;
     counters := ∅;
     bot_config := sample_config;
     payment_cog := true;
     ticket_cog := true |}.

(** The catalog after Alpha was repriced from 10 to 20. *)
Definition alpha_repriced : product :=
  {| p_name := Some "Alpha"%string;
     p_price := Some (Some 20%Q);
     p_stock := Some (StockInt (-1)) |}.

(** A bot whose ticket holds one Alpha captured at 10, with the repriced
    catalog and the given order id on the ticket. *)
Definition repriced_bot (oid : option string) : bot :=
  {| active_tickets :=
       [(100, sample_ticket [("A"%string, alpha_line 1)] (Some 0%Q)
                (Some "No Discount"%string) oid)];
     products := {[ "A"%string := alpha_repriced ]};
     orders := ∅;
     discounts := ∅;
     referrals := ∅;
     counters := ∅;
     bot_config := sample_config;
     payment_cog := true;
     ticket_cog := true |}.

(** The promotional code SAVE5: five off, at most two uses, none so far. *)
Definition save5 : discount_info :=
  {| d_type := Some "promo"%string;
     d_discount_inr := Some 5%Q;
     d_used := false;
     d_generated_by := None;
     d_generated_for_referrer_id := None;
     d_is_active := true;
     d_max_uses := Finite 2;
     d_uses := 0;
     d_expires_at := None |}.

Definition fresh_ticket (user : Z) : ticket_state :=
  new_ticket_state user (Some "BUY"%string).


Definition interaction_of (user channel : Z) : interaction :=
  {| user_id := user; user_roles := Some []; channel_id := channel;
     message_id := 900 |}.


(** An order of user 7 for two Alpha with five off, in the given status. *)
Definition sample_order (st : string) (reason : string) : order :=
  {| o_user_id := 7;
     o_items := [("A"%string, alpha_line 2)];
     o_status := st;
     o_discount := 5%Q;
     o_discount_reason := reason;
     o_gift_recipient_id := None;
     o_timestamp := 1000;
     o_channel_id := 100 |}.

(** The ticket of that order: confirmed, with the discount of a code. *)
Definition confirmed_ticket (code : string) : ticket_state :=
  {| creator_id := Some 7; category := Some "BUY"%string;
     status := Some "Open"%string;
     cart := [("A"%string, alpha_line 2)];
     discount := Some 5%Q;
     discount_reason := Some ("Discount Code (" +:+ code +:+ ")");
     referral_info := None;
     order_id := Some "ORD0001"%string;
     gift_recipient_id := Some 8;
     claimed_by := None;
     cart_message_id := None |}.

(** A redeemable code minted for user 7 and already used. *)
Definition used_redeem_code : discount_info :=
  {| d_type := Some "redeem"%string;
     d_discount_inr := Some 5%Q;
     d_used := true;
     d_generated_by := Some (Some "7"%string);
     d_generated_for_referrer_id := None;
     d_is_active := true;
     d_max_uses := Unlimited;
     d_uses := 0;
     d_expires_at := None |}.

(** The bot after user 7 confirmed an order paid partly with [code]. *)
Definition confirmed_bot (code : string) (st : string) : bot :=
  sample_bot (confirmed_ticket code)
    {[ "ORD0001"%string := sample_order st ("Discount Code (" +:+ code +:+ ")") ]}
    {[ code := used_redeem_code;
       "SAVE5"%string := set_uses 1 save5 ]}.

(** A ticket of user 7 holding ten Alpha (subtotal 100) and no discount. *)
Definition full_cart_ticket : ticket_state :=
  sample_ticket [("A"%string, alpha_line 10)] (Some 0%Q)
    (Some "No Discount"%string) None.

(** The same ticket after SAVE5 was applied. *)
Definition coded_cart_ticket : ticket_state :=
  sample_ticket [("A"%string, alpha_line 10)] (Some 5%Q)
    (Some "Discount Code (SAVE5)"%string) None.


(** A referral reward as [order_processing.py] mints it for user 7. *)
Definition reward_code : discount_info :=
  {| d_type := Some "redeem"%string;
     d_discount_inr := Some 5%Q;
     d_used := false;
     d_generated_by := None;
     d_generated_for_referrer_id := Some 7;
     d_is_active := true;
     d_max_uses := Unlimited;
     d_uses := 0;
     d_expires_at := None |}.

(** A bot with two Alpha in the cart of user 7 and the codes SAVE5 and
    REWARD-AB12CD in the registry. *)
Definition shop_bot : bot :=
  sample_bot
    (sample_ticket [("A"%string, alpha_line 2)] (Some 0%Q)
       (Some "No Discount"%string) None)
    ∅
    {[ "SAVE5"%string := save5; "REWARD-AB12CD"%string := reward_code ]}.

(** The bot after a handler ran on it. *)
Definition after (m : M unit) (b : bot) : bot := final_bot (run m b sample_view).

(** User 7 without any role. *)
Definition plain_interaction : interaction := interaction_of 7 100.

Definition alpha_with_stock (n : Z) : product :=
  {| p_name := Some "Alpha"%string;
     p_price := Some (Some 10%Q);
     p_stock := Some (StockInt n) |}.

(** The order id of the ticket of a channel. *)
Definition ticket_order_id (channel : Z) (b : bot) : option string :=
  match Py.dict_get channel (active_tickets b) with
  | Some t => order_id t
  | None => None
  end.

(** Whether a code of the registry is marked used. *)
Definition code_used (code : string) (b : bot) : option bool :=
  match discounts b !! code with
  | Some info => Some (d_used info)
  | None => None
  end.

(** An environment in which the edit that disables the view fails. *)
Definition edit_fails_env : env :=
  {| fails := fun c => match c with ConfirmEditView => true | _ => false end;
     now := 1000;
     fromisoformat := fun _ => IsoInvalid;
     repr_number := fun _ => "10"%string;
     channel_cart_message := fun _ => None;
     thread_status := fun _ => FetchOk;
     create_thread := Created 200;
     panel_channel_ok := true;
     cart_message_sent := 900 |}.

(** ** Notions used in the statements

    What a statement below needs beyond the handlers: the readings of a
    registry entry, the states a handler is expected to leave, and the
    invariants. *)

(** A computation that leaves the bot as it finds it, whatever it returns. *)
Definition keeps_bot {A} (m : M A) : Prop :=
  forall w, w_bot (snd (m w)) = w_bot w.

(** Two ticket states that differ at most in the stored cart message id. *)
Definition same_but_message (t1 t2 : ticket_state) : Prop :=
  set_cart_message_id None t1 = set_cart_message_id None t2.

(** The cart an accepted selection leaves. *)
Definition cart_after_add (pid : string) (p : product)
    (c : list (string * cart_item)) : option (list (string * cart_item)) :=
  match Py.dict_get pid c with
  | Some item => Some (Py.dict_set pid (set_quantity (ci_quantity item + 1) item) c)
  | None =>
      match p_name p with
      | Some name =>
          Some (Py.dict_set pid {| ci_name := name; ci_price := price_of p;
                                   ci_quantity := 1 |} c)
      | None => None
      end
  end.








(** The discount of the ticket of a channel. *)
Definition ticket_discount (channel : Z) (b : bot) : option Q :=
  match Py.dict_get channel (active_tickets b) with
  | Some t => discount t
  | None => None
  end.

(** Every external call succeeds. *)
Definition no_faults (e : env) : Prop := forall c, fails e c = false.

(** The registry entry a cancellation by [user] gives back: the code named
    in the discount reason of the ticket, when it is a used redeemable code
    generated by that user. *)
Definition returned_code (user : Z) (t : ticket_state)
    (ds : gmap string discount_info) : option (string * discount_info) :=
  match discount_reason t with
  | Some reason =>
      if Py.truthy reason && Py.contains "REDEEM-" reason then
        match Py.re_search_parens reason with
        | Some used_code =>
            match ds !! used_code with
            | Some info =>
                if bool_decide (d_type info = Some "redeem"%string)
                   && d_used info
                   && bool_decide
                        (str_of_generated_by
                           (match d_generated_by info with
                            | Some g => g
                            | None => None
                            end)
                         = Py.str_of_int user)
                then Some (used_code, info)
                else None
            | None => None
            end
        | None => None
        end
      else None
  | None => None
  end.

(** The bot after that entry, if any, was marked unused. *)
Definition after_return (user : Z) (t : ticket_state) (b : bot) : bot :=
  match returned_code user t (discounts b) with
  | Some (code, info) =>
      set_discounts (<[code := set_used false info]> (discounts b)) b
  | None => b
  end.



(** The tiers of the configuration that the actor holds, with their
    percentages. *)
Definition held_tiers (roles : list Z) (cfg : list role_discount)
    : list (Z * Q) :=
  flat_map (fun r => match applicable roles r with
                     | Some hit => [hit]
                     | None => []
                     end) cfg.

(** Sorted by key, highest first. *)
Definition descending (l : list role_discount) : Prop :=
  StronglySorted (fun r r' => (sort_key r' <= sort_key r)%Q) l.

(** The order number and id that the next Confirm allocates. *)
Definition next_order_number (b : bot) : Z :=
  match counters b !! order_key with Some n => n | None => 0 end + 1.

(** ["ORD"] followed by the number, zero-padded to four digits. *)
Definition next_order_id (b : bot) : string :=
  ("ORD" +:+ Py.format_04d (next_order_number b))%string.

(** The order record written for a ticket state and a final discount. *)
Definition order_record (e : env) (i : interaction) (t : ticket_state)
    (final_discount : Q) : order :=
  {| o_user_id := user_id i;
     o_items := cart t;
     o_status := "Pending Payment";
     o_discount := final_discount;
     o_discount_reason :=
       match discount_reason t with
       | Some r => r
       | None => "No Discount"%string
       end;
     o_gift_recipient_id := gift_recipient_id t;
     o_timestamp := now e;
     o_channel_id := channel_id i |}.

(** The bot once the order has been written. *)
Definition placed_bot (e : env) (i : interaction) (b : bot) (t2 : ticket_state)
    (final_discount : Q) : bot :=
  set_orders
    (<[next_order_id b := order_record e i t2 final_discount]> (orders b))
    (store_ticket (channel_id i) (set_order_id (Some (next_order_id b)) t2)
       (set_counters (<[order_key := next_order_number b]> (counters b))
          (store_ticket (channel_id i) t2 b))).

(** The external calls of [confirm] up to the write of the order succeed. *)
Definition order_calls_succeed (e : env) : Prop :=
  fails e ConfirmLoadProducts = false /\
  fails e EmbedLoadProducts = false /\
  fails e ConfirmEditView = false /\
  fails e ConfirmLoadCounters = false /\
  fails e ConfirmSaveCounters = false /\
  fails e ConfirmLoadOrders = false /\
  fails e ConfirmSaveOrders = false.

(** [ticket_state.get('discount_reason', 'No Discount')] *)
Definition reason_or_none (t : ticket_state) : string :=
  match discount_reason t with
  | Some r => r
  | None => "No Discount"%string
  end.

(** An entry of the registry is a live open ticket of [user]: the user
    created it, its status is Open and its thread still exists. *)
Definition live_open (e : env) (user : Z) (entry : Z * ticket_state) : bool :=
  bool_decide (creator_id (snd entry) = Some user)
  && bool_decide (status (snd entry) = Some "Open"%string)
  && match thread_status e (fst entry) with
     | FetchOk => true
     | _ => false
     end.

(** The threads of the live open tickets of a user. *)
Definition live_open_tickets (e : env) (user : Z) (b : bot) : list Z :=
  map fst (List.filter (live_open e user) (active_tickets b)).

(** An open ticket of [user] whose thread is gone. *)
Definition stale (e : env) (user : Z) (entry : Z * ticket_state) : bool :=
  bool_decide (creator_id (snd entry) = Some user)
  && bool_decide (status (snd entry) = Some "Open"%string)
  && match thread_status e (fst entry) with
     | NotCached | FetchHttpError => true
     | _ => false
     end.

(** Every user has at most one live open ticket. *)
Definition at_most_one (e : env) (b : bot) : Prop :=
  forall u, (length (live_open_tickets e u b) <= 1)%nat.

(** A computation that leaves the cart view as it finds it. *)
Definition keeps_view {A} (m : M A) : Prop :=
  forall w, w_view (snd (m w)) = w_view w.


(** ** Notions used in the further properties *)

(** A cart line that the catalog covers: its product exists, the stock of the
    product reads as an integer, and the stock is unlimited or at least the
    quantity of the line. *)
Definition line_in_stock (ps : gmap string product)
    (line : string * cart_item) : Prop :=
  exists p stock,
    ps !! fst line = Some p /\ stock_of p = Some stock /\
    (stock = -1 \/ ci_quantity (snd line) <= stock).

Definition cart_in_stock (ps : gmap string product)
    (c : list (string * cart_item)) : Prop :=
  List.Forall (line_in_stock ps) c.

(** The replies of the stock re-validation of [confirm]. *)
Definition stock_reply (r : reply) : Prop :=
  match r with
  | ConfirmProductMissing _ | ConfirmInvalidStock _ | ConfirmStockShort _ _ _ => True
  | _ => False
  end.

(** The bot after the actor made the given selections in the dropdown one
    after the other, each under an environment of its own. *)
Fixpoint select_all (i : interaction) (steps : list (env * string))
    (b : bot) (v : list component) : bot :=
  match steps with
  | [] => b
  | (e, value) :: rest =>
      let r := run (ProductSelect_callback e i value) b v in
      select_all i rest (final_bot r) (final_view r)
  end.

(** The cart of the ticket of a channel. *)
Definition ticket_cart (channel : Z) (b : bot) : option (list (string * cart_item)) :=
  match Py.dict_get channel (active_tickets b) with
  | Some t => Some (cart t)
  | None => None
  end.










(** [counters.get('last_order_number', 0)] *)
Definition last_order_number (b : bot) : Z :=
  match counters b !! order_key with Some n => n | None => 0 end.




(** Every component of a view is enabled, or every one is disabled. *)
Definition all_enabled (v : list component) : Prop :=
  List.Forall (fun x => disabled x = false) v.

Definition all_disabled (v : list component) : Prop :=
  List.Forall (fun x => disabled x = true) v.

(** An environment in which the thread of channel 100 is gone. *)
Definition gone_thread_env : env :=
  {| fails := fun _ => false;
     now := 1000;
     fromisoformat := fun _ => IsoInvalid;
     repr_number := fun _ => "10"%string;
     channel_cart_message := fun _ => None;
     thread_status := fun k => if k =? 100 then NotCached else FetchOk;
     create_thread := Created 200;
     panel_channel_ok := true;
     cart_message_sent := 900 |}.

(** The external calls of the quick-buy path succeed. *)
Definition quick_calls_succeed (e : env) : Prop :=
  fails e QuickSendCreated = false /\
  fails e QuickAddUser = false /\
  fails e QuickLoadProductsForView = false /\
  fails e QuickSendCart = false.

(** A computation of the second monad that leaves the bot, or the accounts,
    as it finds them. *)
Definition ckeeps_bot {A} (m : Cmd A) : Prop :=
  forall w, cw_bot (snd (m w)) = cw_bot w.

Definition ckeeps_users {A} (m : Cmd A) : Prop :=
  forall w, cw_users (snd (m w)) = cw_users w.


(** An outside in which every call succeeds. *)
Definition sample_cenv : cenv :=
  {| result_of := fun _ => Succeeds;
     c_now := 1000;
     isoformat := fun _ => "2030-01-01T00:00:00+00:00"%string;
     user_cached := fun _ => true;
     transcript_channel_ok := true;
     export_nonempty := true;
     ai_cog := false;
     random_suffix := "AB12CD" |}.

(** An outside in which every call raises. *)
Definition failing_cenv : cenv :=
  {| result_of := fun _ => RaisesOther;
     c_now := 1000;
     isoformat := fun _ => "2030-01-01T00:00:00+00:00"%string;
     user_cached := fun _ => false;
     transcript_channel_ok := true;
     export_nonempty := true;
     ai_cog := true;
     random_suffix := "AB12CD" |}.

(** User 1 owns the bot; ten points buy five off. *)
Definition sample_settings : settings :=
  {| owner_ids := [1];
     rewards := [ {| rw_points := Some 10; rw_discount_inr := Some 5%Q |} ] |}.

(** User 8, not a bot. *)
Definition friend : member := {| m_id := 8; m_bot := false |}.

(** The ticket state after [/gift] named a recipient. *)
Definition with_gift (recipient : Z) (t : ticket_state) : ticket_state :=
  set_gift_recipient_id (Some recipient) t.

(** The [/gift] command accepts the recipient on this ticket state. *)
Definition gift_allowed (i : interaction) (recipient : member)
    (t : ticket_state) : bool :=
  bool_decide (category t = Some "BUY"%string)
  && negb (m_bot recipient) && negb (m_id recipient =? user_id i).

(** The message of a [/gift] that is turned down. *)
Definition gift_refusal (i : interaction) (recipient : member)
    (t : option ticket_state) : notice :=
  match t with
  | None => GiftOutsideTicket
  | Some t =>
      if negb (bool_decide (category t = Some "BUY"%string)) then GiftNotBuyTicket
      else if m_bot recipient then GiftToBot
      else GiftToSelf
  end.

(** The ticket state after a claim was given up. *)
Definition unclaimed (t : ticket_state) : ticket_state := set_claimed_by None t.

(** The presser may give up the claim on the ticket: nobody holds it, the
    presser holds it, or the presser owns the bot. *)
Definition may_unclaim (cfg : settings) (i : interaction) (t : ticket_state)
    : bool :=
  negb (truthy_id (claimed_by t))
  || bool_decide (claimed_by t = Some (user_id i))
  || is_owner cfg i.

(** The registry without the ticket of the channel of [i]. *)
Definition without_ticket (i : interaction) (b : bot) : bot :=
  set_active_tickets (Py.dict_pop (channel_id i) (active_tickets b)) b.

(** The browser of a catalog turned to a page. *)
Definition view_at (l : list (string * product)) (p : Z) : browser :=
  {| br_products := l; current_page := p; previous_disabled := false;
     next_disabled := false; shown := None |}.

(** A run of presses of the navigation buttons, each one on a button that
    the message shows enabled and each one followed by an edit of the
    message that goes through; [None] when a press is not possible. *)
Fixpoint presses (ps : list press) (br : browser) : option browser :=
  match ps with
  | [] => Some br
  | p :: rest =>
      if press_enabled p br then presses rest (do_press true p br) else None
  end.

(** The page of the browser is one of its pages, and the message shows the
    buttons as the page requires. *)
Definition on_a_page (br : browser) : Prop :=
  0 <= current_page br < total_pages br /\
  shown br = Some (current_page br =? 0,
                   (current_page br + 1) * items_per_page
                     >=? Z.of_nat (length (br_products br))).

(** The expiry written for a code created with [expires_in_days]. *)
Definition expiry_stamp (ce : cenv) (expires_in_days : option Z) : option string :=
  match expires_in_days with
  | Some days => Some (isoformat ce (c_now ce + days * seconds_per_day))
  | None => None
  end.

(** The arguments of [/create_discount] pass its checks on this registry. *)
Definition creatable (b : bot) (code : string) (discount_inr : Q) (max : Z)
    (expires_in_days : option Z) : Prop :=
  (0 < discount_inr)%Q /\ 0 <= max /\
  discounts b !! Py.upper (Py.strip code) = None /\
  match expires_in_days with Some days => 0 < days | None => True end.

(** The bot after [/create_discount] registered the code. *)
Definition with_promo (ce : cenv) (code : string) (discount_inr : Q) (max : Z)
    (expires_in_days : option Z) (b : bot) : bot :=
  set_discounts
    (<[Py.upper (Py.strip code) :=
         new_promo discount_inr max (expiry_stamp ce expires_in_days)]>
       (discounts b)) b.




(** * Properties *)

(** Unfolding of the monadic operations. *)
Ltac munfold :=
  unfold mbind, M_bind, mret, M_ret, get_bot, put_bot, get_view, put_view,
    followup, send, call, raise, or_raise in *.

(** ** Facts about the built-ins *)

Lemma gtb_true (a b : Q) : Py.gtb a b = true <-> (b < a)%Q.
Proof.
  unfold Py.gtb. rewrite negb_true_iff.
  split; intros H.
  - apply Qnot_le_lt. intros Hle. apply Qle_bool_iff in Hle. congruence.
  - destruct (Qle_bool a b) eqn:E; [|reflexivity].
    apply Qle_bool_iff in E. exfalso. exact (Qlt_not_le _ _ H E).
Qed.

Lemma gtb_false (a b : Q) : Py.gtb a b = false <-> (a <= b)%Q.
Proof.
  unfold Py.gtb. rewrite negb_false_iff. apply Qle_bool_iff.
Qed.

Lemma max_is_Qmax (a b : Q) : (Py.max a b == Qmax a b)%Q.
Proof.
  unfold Py.max. destruct (Py.gtb b a) eqn:E.
  - apply gtb_true in E. symmetry. apply Q.max_r. apply Qlt_le_weak, E.
  - apply gtb_false in E. symmetry. apply Q.max_l. exact E.
Qed.

Section DictFacts.
Context {K V : Type} `{EqDecision K}.
Implicit Types (k : K) (v : V) (d : list (K * V)).

Lemma dict_get_set_eq k v d : Py.dict_get k (Py.dict_set k v d) = Some v.
Proof.
  induction d as [|[k' v'] d IH]; simpl.
  - destruct (decide (k = k)); congruence.
  - destruct (decide (k = k')) as [->|Hne]; simpl.
    + destruct (decide (k' = k')); congruence.
    + destruct (decide (k = k')); [contradiction|exact IH].
Qed.

Lemma dict_get_set_ne k k' v d :
  k <> k' -> Py.dict_get k' (Py.dict_set k v d) = Py.dict_get k' d.
Proof.
  intros Hne. induction d as [|[k0 v0] d IH]; simpl.
  - destruct (decide (k' = k)); congruence.
  - destruct (decide (k = k0)) as [->|Hk]; simpl.
    + destruct (decide (k' = k0)); congruence.
    + destruct (decide (k' = k0)); [reflexivity|exact IH].
Qed.



Lemma dict_get_pop_ne k k' d :
  k <> k' -> Py.dict_get k' (Py.dict_pop k d) = Py.dict_get k' d.
Proof.
  intros Hne. induction d as [|[k0 v0] d IH]; simpl; [reflexivity|].
  destruct (decide (k = k0)) as [->|Hk]; simpl.
  - destruct (decide (k' = k0)); congruence.
  - destruct (decide (k' = k0)); [reflexivity|exact IH].
Qed.
End DictFacts.

(** ** Effects that leave the bot alone *)

Lemma keeps_bot_ret {A} (a : A) : keeps_bot (mret a).
Proof. intros w. reflexivity. Qed.

Lemma keeps_bot_raise {A} (ex : exn) : keeps_bot (@raise A ex).
Proof. intros w. reflexivity. Qed.

Lemma keeps_bot_bind {A B} (m : M A) (f : A -> M B) :
  keeps_bot m -> (forall a, keeps_bot (f a)) -> keeps_bot (m ≫= f).
Proof.
  intros Hm Hf w. unfold mbind, M_bind.
  specialize (Hm w). destruct (m w) as [[a|ex] w']; simpl in *.
  - rewrite Hf. exact Hm.
  - exact Hm.
Qed.

Lemma keeps_bot_send (ev : event) : keeps_bot (send ev).
Proof. intros w. reflexivity. Qed.

Lemma keeps_bot_followup (r : reply) : keeps_bot (followup r).
Proof. intros w. reflexivity. Qed.

Lemma keeps_bot_call (e : env) (c : ext_call) : keeps_bot (call e c).
Proof. intros w. unfold call. destruct (fails e c); reflexivity. Qed.

Lemma keeps_bot_or_raise {A} (ex : exn) (o : option A) : keeps_bot (or_raise ex o).
Proof. intros w. destruct o; reflexivity. Qed.

Lemma keeps_bot_get_bot : keeps_bot get_bot.
Proof. intros w. reflexivity. Qed.

Lemma keeps_bot_get_view : keeps_bot get_view.
Proof. intros w. reflexivity. Qed.

Lemma keeps_bot_put_view (v : list component) : keeps_bot (put_view v).
Proof. intros w. reflexivity. Qed.

Lemma keeps_bot_try_except {A} (m : M A) (h : exn -> M A) :
  keeps_bot m -> (forall ex, keeps_bot (h ex)) -> keeps_bot (try_except m h).
Proof.
  intros Hm Hh w. unfold try_except.
  specialize (Hm w). destruct (m w) as [[a|ex] w']; simpl in *.
  - exact Hm.
  - rewrite Hh. exact Hm.
Qed.

Create HintDb keeps.

#[local] Hint Resolve keeps_bot_ret keeps_bot_raise keeps_bot_send
  keeps_bot_followup keeps_bot_call keeps_bot_or_raise keeps_bot_get_bot
  keeps_bot_get_view keeps_bot_put_view : keeps.

Ltac keeps :=
  repeat first
    [ apply keeps_bot_bind; [|intros ?]
    | apply keeps_bot_try_except; [|intros ?]
    | solve [auto with keeps]
    | match goal with
      | |- keeps_bot (match ?x with _ => _ end) => destruct x
      | |- keeps_bot (if ?x then _ else _) => destruct x
      end ].

Lemma keeps_bot_update_cart_embed e i m : keeps_bot (update_cart_embed e i m).
Proof. unfold update_cart_embed. keeps. Qed.

#[local] Hint Resolve keeps_bot_update_cart_embed : keeps.

(** ** One discount per order *)

(** C7. On a ticket whose discount is strictly positive, an attempt to apply
    any code (referral, redeemable or promotional) is rejected with the
    message that a discount has already been applied; nothing of the bot
    changes, so the ticket keeps its discount and its discount reason. *)
Theorem apply_code_rejected_when_discount_set
    (e : env) (i : interaction) (code_input : string) (b : bot)
    (v : list component) (t : ticket_state) (d : Q) :
  Py.dict_get (channel_id i) (active_tickets b) = Some t ->
  discount t = Some d ->
  (0 < d)%Q ->
  let r := run (DiscountCodeModal_on_submit e i code_input) b v in
  fst r = Ok tt /\
  sent r = [Followup DiscountAlreadyApplied] /\
  final_bot r = b /\
  exists t', Py.dict_get (channel_id i) (active_tickets (final_bot r)) = Some t' /\
             discount t' = discount t /\
             discount_reason t' = discount_reason t.
Proof.
  intros Ht Hd Hpos r. subst r.
  unfold run, DiscountCodeModal_on_submit, mbind, M_bind, get_bot. simpl.
  rewrite Ht.
  assert (Hg : Py.gtb (discount_or_zero t) 0%Q = true).
  { apply gtb_true. unfold discount_or_zero. rewrite Hd. exact Hpos. }
  rewrite Hg. simpl.
  repeat split. exists t. auto.
Qed.

Lemma apply_code_rejected_when_discount_set_witness :
  let r := run (DiscountCodeModal_on_submit sample_env sample_interaction "REF-FRIEND")
               (sample_bot coded_cart_ticket ∅ ∅) sample_view in
  fst r = Ok tt /\
  sent r = [Followup DiscountAlreadyApplied] /\
  final_bot r = sample_bot coded_cart_ticket ∅ ∅ /\
  exists t', Py.dict_get 100 (active_tickets (final_bot r)) = Some t' /\
             discount t' = Some 5%Q /\
             discount_reason t' = Some "Discount Code (SAVE5)"%string.
Proof.
  exact (apply_code_rejected_when_discount_set sample_env sample_interaction
           "REF-FRIEND" (sample_bot coded_cart_ticket ∅ ∅) sample_view
           coded_cart_ticket 5%Q eq_refl eq_refl eq_refl).
Defined.

(** ** The grand total of the cart display *)

Lemma cart_lines_defined (items : list cart_item) (acc total : Q) :
  sum_from acc items = Some total -> exists ls, cart_lines items = Some ls.
Proof.
  revert acc. induction items as [|it items IH]; intros acc Hs; simpl in *.
  - eauto.
  - destruct (item_total it) as [x|]; [|discriminate].
    destruct (IH _ Hs) as [ls ->]. eauto.
Qed.

(** C9. For every cart whose line totals can be computed and every
    non-negative discount, the cart display exists and its grand total is
    [max(0, subtotal - discount)], the subtotal being the sum over the cart
    of unit price times quantity; the grand total is never negative. *)
Theorem grand_total_is_clamped_difference (t : ticket_state) (subtotal : Q) :
  cart_total (cart t) = Some subtotal ->
  (0 <= discount_or_zero t)%Q ->
  exists em, cart_embed t = Some em /\
             (em_total em == Qmax 0 (subtotal - discount_or_zero t))%Q /\
             (0 <= em_total em)%Q.
Proof.
  intros Hsum Hd. unfold cart_embed.
  destruct (cart t) as [|entry rest] eqn:Hc.
  - eexists. split; [reflexivity|]. simpl.
    unfold cart_total in Hsum. simpl in Hsum. injection Hsum as <-.
    split; [|apply Qle_refl].
    apply Qeq_sym, Q.max_l.
    destruct (discount_or_zero t) as [n m].
    unfold Qle in *. simpl in *. lia.
  - rewrite Hsum.
    destruct (cart_lines_defined _ _ _ Hsum) as [ls Hls]. rewrite Hls.
    eexists. split; [reflexivity|]. simpl. split.
    + apply max_is_Qmax.
    + rewrite max_is_Qmax. apply Q.le_max_l.
Qed.

(** Two Alpha at 10 with five off: the display totals 15. *)
Lemma grand_total_is_clamped_difference_witness :
  exists em,
    cart_embed (sample_ticket [("A"%string, alpha_line 2)] (Some 5%Q)
                  (Some "Discount Code (SAVE5)"%string) None) = Some em /\
    (em_total em == Qmax 0 ((0 + 10 * inject_Z 2) - 5))%Q /\
    (0 <= em_total em)%Q.
Proof.
  apply (grand_total_is_clamped_difference
           (sample_ticket [("A"%string, alpha_line 2)] (Some 5%Q)
              (Some "Discount Code (SAVE5)"%string) None)
           (0 + 10 * inject_Z 2)%Q).
  - reflexivity.
  - simpl. unfold Qle. simpl. lia.
Defined.

(** What [update_cart_embed] shows is the embed of the ticket state. *)
Lemma update_cart_embed_shows (e : env) (i : interaction) (m : Z) (b : bot)
    (c : component) (rest : list component) (s : list event)
    (t : ticket_state) (em : embed) :
  Py.dict_get (channel_id i) (active_tickets b) = Some t ->
  cart_embed t = Some em ->
  fails e EmbedLoadProducts = false ->
  let w := snd (update_cart_embed e i (Some m)
                  {| w_bot := b; w_view := c :: rest; w_sent := s |}) in
  w_sent w = CartShown m em (ProductSelect :: rest) :: s \/
  w_sent w = Followup (CartEmbedReply em) :: s.
Proof.
  intros Ht Hem Hf. unfold update_cart_embed. munfold. simpl.
  rewrite Ht, Hem, Hf. simpl.
  destruct (fails e EmbedEditMessage); simpl; auto.
Qed.

(** ** Adding an item *)

Lemma same_but_message_refl t : same_but_message t t.
Proof. reflexivity. Qed.

Lemma same_but_message_set m t : same_but_message (set_cart_message_id m t) t.
Proof. reflexivity. Qed.

Lemma same_but_message_fields t1 t2 :
  same_but_message t1 t2 ->
  cart t1 = cart t2 /\ order_id t1 = order_id t2 /\ discount t1 = discount t2 /\
  discount_reason t1 = discount_reason t2.
Proof.
  unfold same_but_message, set_cart_message_id. intros H.
  injection H as _ _ _ Hc Hd Hr _ Ho _ _. auto.
Qed.

Lemma refresh_after_add_ticket e i t' product b v s :
  exists t'',
    Py.dict_get (channel_id i)
      (active_tickets
         (w_bot (snd (refresh_after_add e i t' product
                        {| w_bot := store_ticket (channel_id i) t' b;
                           w_view := v; w_sent := s |}))))
    = Some t'' /\ same_but_message t'' t'.
Proof.
  unfold refresh_after_add, locate_cart_message, mbind, M_bind.
  destruct (fetch_by_stored_id e i t') as [m|].
  - simpl.
    pose proof (keeps_bot_update_cart_embed e i (Some m)
                  {| w_bot := store_ticket (channel_id i) t' b;
                     w_view := v; w_sent := s |}) as Hk.
    destruct (update_cart_embed e i (Some m) _) as [[[]|ex] w']; simpl in *.
    + exists t'. split; [|reflexivity].
      destruct (p_name product); simpl; rewrite Hk; simpl;
        apply dict_get_set_eq.
    + exists t'. split; [|reflexivity]. rewrite Hk. simpl. apply dict_get_set_eq.
  - destruct (channel_cart_message e (channel_id i)) as [m|]; simpl.
    + pose proof (keeps_bot_update_cart_embed e i (Some m)
                  {| w_bot := store_ticket (channel_id i)
                                (set_cart_message_id (Some m) t')
                                (store_ticket (channel_id i) t' b);
                     w_view := v; w_sent := s |}) as Hk.
      destruct (update_cart_embed e i (Some m) _) as [[[]|ex] w']; simpl in *.
      * exists (set_cart_message_id (Some m) t'). split; [|reflexivity].
        destruct (p_name product); simpl; rewrite Hk; simpl;
          apply dict_get_set_eq.
      * exists (set_cart_message_id (Some m) t'). split; [|reflexivity].
        rewrite Hk. simpl. apply dict_get_set_eq.
    + exists t'. split; [|reflexivity]. apply dict_get_set_eq.
Qed.

Lemma add_item_run (e : env) (i : interaction) (pid : string) (b : bot)
    (v : list component) (t : ticket_state) (p : product) (stock : Z)
    (c' : list (string * cart_item)) :
  pid <> "disabled"%string ->
  fails e AddLoadProducts = false ->
  Py.dict_get (channel_id i) (active_tickets b) = Some t ->
  products b !! pid = Some p ->
  stock_of p = Some stock ->
  stock = -1 \/ quantity_in_cart pid (cart t) < stock ->
  cart_after_add pid p (cart t) = Some c' ->
  exists t',
    Py.dict_get (channel_id i)
      (active_tickets (final_bot (run (ProductSelect_callback e i pid) b v)))
    = Some t' /\ same_but_message t' (set_cart c' t).
Proof.
  intros Hv Hf Ht Hp Hs Hok Hc.
  unfold final_bot, run, ProductSelect_callback.
  rewrite bool_decide_eq_false_2 by exact Hv.
  unfold mbind, M_bind, get_bot, call. simpl.
  rewrite Ht, Hf. simpl. rewrite Hp, Hs.
  assert (Hguard : negb (stock =? -1) && (quantity_in_cart pid (cart t) >=? stock) = false).
  { destruct Hok as [->|Hlt]; [reflexivity|].
    apply andb_false_iff. right. rewrite Z.geb_leb. apply Z.leb_gt. exact Hlt. }
  rewrite Hguard.
  unfold cart_after_add in Hc.
  destruct (Py.dict_get pid (cart t)) as [item|] eqn:Hget.
  - injection Hc as <-. simpl.
    apply (refresh_after_add_ticket e i _ p b v []).
  - destruct (p_name p) as [name|] eqn:Hn; [|discriminate].
    injection Hc as <-. simpl.
    apply (refresh_after_add_ticket e i _ p b v []).
Qed.



(** ** Promotional codes *)










(** ** Cancelling an order *)

Lemma unuse_redeem_code_run e i t w :
  no_faults e ->
  unuse_redeem_code e i t w =
    (Ok tt, {| w_bot := after_return (user_id i) t (w_bot w);
               w_view := w_view w; w_sent := w_sent w |}).
Proof.
  intros Hnf. destruct w as [b v s].
  unfold unuse_redeem_code, after_return, returned_code. simpl.
  destruct (discount_reason t) as [reason|]; [|reflexivity].
  destruct (Py.truthy reason && Py.contains "REDEEM-" reason); [|reflexivity].
  destruct (Py.re_search_parens reason) as [used_code|]; [|reflexivity].
  unfold mbind, M_bind, call, get_bot. rewrite !Hnf. simpl.
  destruct (discounts b !! used_code) as [info|]; [|reflexivity].
  destruct (bool_decide (d_type info = Some "redeem"%string) && d_used info &&
            bool_decide (str_of_generated_by
                           match d_generated_by info with
                           | Some g => g
                           | None => None
                           end = Py.str_of_int (user_id i))); [|reflexivity].
  reflexivity.
Qed.

Lemma keeps_bot_reopen_cart e i oid t : keeps_bot (reopen_cart e i oid t).
Proof. unfold reopen_cart. keeps. Qed.

Lemma cancel_pending_run (e : env) (i : interaction) (b : bot)
    (v : list component) (t : ticket_state) (oid : string) (o : order) :
  no_faults e ->
  Py.dict_get (channel_id i) (active_tickets b) = Some t ->
  order_id t = Some oid ->
  Py.truthy oid = true ->
  orders b !! oid = Some o ->
  o_status o = "Pending Payment"%string ->
  final_bot (run (cancel_order e i) b v) =
    store_ticket (channel_id i) (clear_order_info t)
      (after_return (user_id i) t
         (set_orders (<[oid := set_status "Cancelled by User" o]> (orders b)) b)).
Proof.
  intros Hnf Ht Ho Htr Hord Hst.
  unfold final_bot, run, cancel_order, try_except, cancel_body.
  munfold. simpl.
  rewrite Ht, Ho, Htr. simpl. rewrite !Hnf, Hord.
  rewrite bool_decide_eq_true_2 by exact Hst. simpl.
  rewrite unuse_redeem_code_run by exact Hnf. simpl.
  match goal with
  | |- w_bot (snd (match reopen_cart ?e ?i ?oid ?t ?w with _ => _ end)) = _ =>
      pose proof (keeps_bot_reopen_cart e i oid t w) as Hk;
      destruct (reopen_cart e i oid t w) as [[[]|ex] w']; simpl in *;
      rewrite Hk; reflexivity
  end.
Qed.

Lemma cancel_not_pending_run (e : env) (i : interaction) (b : bot)
    (v : list component) (t : ticket_state) (oid : string) (o : order) :
  fails e CancelLoadOrders = false ->
  Py.dict_get (channel_id i) (active_tickets b) = Some t ->
  order_id t = Some oid ->
  Py.truthy oid = true ->
  orders b !! oid = Some o ->
  o_status o <> "Pending Payment"%string ->
  run (cancel_order e i) b v =
    (Ok tt, {| w_bot := b; w_view := v; w_sent := [Followup CannotCancel] |}).
Proof.
  intros Hf Ht Ho Htr Hord Hst.
  unfold run, cancel_order, try_except, cancel_body.
  munfold. simpl.
  rewrite Ht, Ho, Htr. simpl. rewrite Hf, Hord.
  rewrite bool_decide_eq_false_2 by exact Hst.
  reflexivity.
Qed.

(** C3. On a ticket linked to an order of the ledger, with every external
    call succeeding: when the status of the order is anything but
    "Pending Payment" (for instance "Payment Received"), Cancel answers that
    the order can no longer be cancelled and changes nothing; when the
    status is exactly "Pending Payment", the order gets the status
    "Cancelled by User", the ticket loses [order_id], [discount],
    [discount_reason] and [gift_recipient_id], and its cart is the cart it
    had before. *)
Theorem cancel_by_order_status (e : env) (i : interaction) (b : bot)
    (v : list component) (t : ticket_state) (oid : string) (o : order) :
  no_faults e ->
  Py.dict_get (channel_id i) (active_tickets b) = Some t ->
  order_id t = Some oid ->
  Py.truthy oid = true ->
  orders b !! oid = Some o ->
  let r := run (cancel_order e i) b v in
  (o_status o <> "Pending Payment"%string ->
   fst r = Ok tt /\ sent r = [Followup CannotCancel] /\ final_bot r = b) /\
  (o_status o = "Pending Payment"%string ->
   orders (final_bot r) !! oid = Some (set_status "Cancelled by User" o) /\
   exists t',
     Py.dict_get (channel_id i) (active_tickets (final_bot r)) = Some t' /\
     order_id t' = None /\ discount t' = None /\ discount_reason t' = None /\
     gift_recipient_id t' = None /\ cart t' = cart t).
Proof.
  intros Hnf Ht Ho Htr Hord r. split; intros Hst.
  - subst r. rewrite (cancel_not_pending_run e i b v t oid o); auto.
  - subst r. rewrite (cancel_pending_run e i b v t oid o); auto.
    split.
    + unfold store_ticket, after_return. simpl.
      destruct (returned_code _ _ _) as [[code info]|]; simpl;
        apply lookup_insert_eq.
    + exists (clear_order_info t). split.
      * unfold store_ticket. simpl. apply dict_get_set_eq.
      * repeat split.
Qed.

Lemma sample_env_no_faults : no_faults sample_env.
Proof. intros c. reflexivity. Qed.

Lemma cancel_by_order_status_witness :
  (let r := run (cancel_order sample_env sample_interaction)
                (confirmed_bot "REDEEM-AB12CD" "Pending Payment") sample_view in
   orders (final_bot r) !! "ORD0001"%string =
     Some (sample_order "Cancelled by User" "Discount Code (REDEEM-AB12CD)") /\
   exists t',
     Py.dict_get 100 (active_tickets (final_bot r)) = Some t' /\
     order_id t' = None /\ discount t' = None /\ discount_reason t' = None /\
     gift_recipient_id t' = None /\ cart t' = [("A"%string, alpha_line 2)]) /\
  (let r := run (cancel_order sample_env sample_interaction)
                (confirmed_bot "REDEEM-AB12CD" "Payment Received") sample_view in
   fst r = Ok tt /\ sent r = [Followup CannotCancel] /\
   final_bot r = confirmed_bot "REDEEM-AB12CD" "Payment Received").
Proof.
  split.
  - apply (proj2 (cancel_by_order_status sample_env sample_interaction
                    (confirmed_bot "REDEEM-AB12CD" "Pending Payment") sample_view
                    (confirmed_ticket "REDEEM-AB12CD") "ORD0001"
                    (sample_order "Pending Payment" "Discount Code (REDEEM-AB12CD)")
                    sample_env_no_faults eq_refl eq_refl eq_refl eq_refl)).
    reflexivity.
  - apply (proj1 (cancel_by_order_status sample_env sample_interaction
                    (confirmed_bot "REDEEM-AB12CD" "Payment Received") sample_view
                    (confirmed_ticket "REDEEM-AB12CD") "ORD0001"
                    (sample_order "Payment Received" "Discount Code (REDEEM-AB12CD)")
                    sample_env_no_faults eq_refl eq_refl eq_refl eq_refl)).
    simpl. discriminate.
Defined.

(** *** What a cancellation does to the discount registry *)














(** ** The tier discount *)

Lemma insert_desc_In (x r : role_discount) (l : list role_discount) :
  In x (insert_desc r l) <-> x = r \/ In x l.
Proof.
  induction l as [|r' l IH]; simpl.
  - intuition.
  - destruct (Py.gtb (sort_key r') (sort_key r)); simpl.
    + rewrite IH. intuition.
    + intuition.
Qed.

Lemma sorted_desc_In (x : role_discount) (l : list role_discount) :
  In x (sorted_desc l) <-> In x l.
Proof.
  induction l as [|r l IH]; simpl; [reflexivity|].
  rewrite insert_desc_In, IH. intuition.
Qed.

Lemma insert_desc_descending (r : role_discount) (l : list role_discount) :
  descending l -> descending (insert_desc r l).
Proof.
  unfold descending. induction 1 as [|r' l Hl IH Hall]; simpl.
  - constructor; constructor.
  - destruct (Py.gtb (sort_key r') (sort_key r)) eqn:E.
    + constructor; [exact IH|].
      apply List.Forall_forall. intros x Hx. apply insert_desc_In in Hx as [->|Hx].
      * apply gtb_true in E. apply Qlt_le_weak, E.
      * rewrite List.Forall_forall in Hall. apply Hall, Hx.
    + apply gtb_false in E.
      constructor; [constructor; assumption|].
      constructor; [exact E|].
      apply List.Forall_forall. intros x Hx. rewrite List.Forall_forall in Hall.
      apply Qle_trans with (sort_key r'); [apply Hall, Hx|exact E].
Qed.

Lemma sorted_desc_descending (l : list role_discount) : descending (sorted_desc l).
Proof.
  induction l as [|r l IH]; simpl.
  - constructor.
  - apply insert_desc_descending, IH.
Qed.

Lemma applicable_key roles r rid pct :
  applicable roles r = Some (rid, pct) -> sort_key r = pct.
Proof.
  unfold applicable, sort_key.
  destruct (rd_role_id r) as [role|]; [|discriminate].
  destruct (rd_discount_percent r) as [p|]; [|discriminate].
  destruct (negb (role =? 0) && existsb (Z.eqb role) roles); [|discriminate].
  intros H. injection H as _ ->. reflexivity.
Qed.

Lemma first_applicable_In roles l hit :
  first_applicable roles l = Some hit ->
  exists r, In r l /\ applicable roles r = Some hit.
Proof.
  induction l as [|r l IH]; simpl; [discriminate|].
  destruct (applicable roles r) as [h|] eqn:E.
  - intros H. injection H as <-. exists r. auto.
  - intros H. destruct (IH H) as (r' & Hin & Ha). exists r'. auto.
Qed.

Lemma first_applicable_exists roles l r hit :
  In r l -> applicable roles r = Some hit ->
  exists hit', first_applicable roles l = Some hit'.
Proof.
  induction l as [|r' l IH]; simpl; [contradiction|].
  intros [->|Hin] Ha.
  - rewrite Ha. eauto.
  - destruct (applicable roles r'); eauto.
Qed.

Lemma first_applicable_highest roles l rid pct :
  descending l ->
  first_applicable roles l = Some (rid, pct) ->
  forall r rid' pct', In r l -> applicable roles r = Some (rid', pct') ->
                      (pct' <= pct)%Q.
Proof.
  unfold descending. induction 1 as [|r0 l Hl IH Hall]; simpl; [discriminate|].
  destruct (applicable roles r0) as [[rid0 pct0]|] eqn:E.
  - intros H. injection H as -> ->.
    intros r rid' pct' [<-|Hin] Ha.
    + rewrite E in Ha. injection Ha as _ <-. apply Qle_refl.
    + rewrite List.Forall_forall in Hall.
      rewrite <- (applicable_key _ _ _ _ Ha), <- (applicable_key _ _ _ _ E).
      apply Hall, Hin.
  - intros H r rid' pct' [<-|Hin] Ha.
    + rewrite E in Ha. discriminate.
    + exact (IH H r rid' pct' Hin Ha).
Qed.

Lemma held_tiers_In roles cfg hit :
  In hit (held_tiers roles cfg) <->
  exists r, In r cfg /\ applicable roles r = Some hit.
Proof.
  unfold held_tiers. rewrite in_flat_map. split.
  - intros (r & Hin & Hh). exists r. split; [exact Hin|].
    destruct (applicable roles r) as [h|]; simpl in Hh; [|contradiction].
    destruct Hh as [->|[]]. reflexivity.
  - intros (r & Hin & Ha). exists r. split; [exact Hin|].
    rewrite Ha. left. reflexivity.
Qed.

(** The loop of [confirm] over the sorted tiers picks a held tier whose
    percentage is the highest among the held tiers. *)
Lemma best_tier_is_highest roles cfg :
  held_tiers roles cfg <> [] ->
  exists rid pct,
    first_applicable roles (sorted_desc cfg) = Some (rid, pct) /\
    In (rid, pct) (held_tiers roles cfg) /\
    forall rid' pct', In (rid', pct') (held_tiers roles cfg) -> (pct' <= pct)%Q.
Proof.
  intros Hne.
  destruct (held_tiers roles cfg) as [|h0 rest] eqn:Hh; [contradiction|].
  assert (Hin0 : In h0 (held_tiers roles cfg)) by (rewrite Hh; left; reflexivity).
  apply held_tiers_In in Hin0 as (r0 & Hr0 & Ha0).
  destruct (first_applicable_exists roles (sorted_desc cfg) r0 h0)
    as ([rid pct] & Hf); [apply sorted_desc_In, Hr0|exact Ha0|].
  exists rid, pct. split; [exact Hf|]. rewrite <- Hh. split.
  - apply held_tiers_In.
    destruct (first_applicable_In _ _ _ Hf) as (r & Hin & Ha).
    exists r. split; [apply sorted_desc_In, Hin|exact Ha].
  - intros rid' pct' Hin'.
    apply held_tiers_In in Hin' as (r & Hin & Ha).
    apply (first_applicable_highest roles (sorted_desc cfg) rid pct
             (sorted_desc_descending cfg) Hf r rid' pct').
    + apply sorted_desc_In, Hin.
    + exact Ha.
Qed.

(** ** Confirming an order *)

Lemma cart_embed_defined (t : ticket_state) (total : Q) :
  cart_total (cart t) = Some total -> exists em, cart_embed t = Some em.
Proof.
  intros Hsum. unfold cart_embed.
  destruct (cart t) as [|entry rest] eqn:Hc; [eauto|].
  rewrite Hsum.
  destruct (cart_lines_defined _ _ _ Hsum) as [ls ->]. eauto.
Qed.

Lemma update_cart_embed_ok (e : env) (i : interaction) (m : Z) (b : bot)
    (c : component) (rest : list component) (s : list event)
    (t : ticket_state) (total : Q) :
  Py.dict_get (channel_id i) (active_tickets b) = Some t ->
  cart_total (cart t) = Some total ->
  fails e EmbedLoadProducts = false ->
  exists ev,
    update_cart_embed e i (Some m) {| w_bot := b; w_view := c :: rest; w_sent := s |} =
      (Ok tt, {| w_bot := b; w_view := ProductSelect :: rest; w_sent := ev :: s |}).
Proof.
  intros Ht Hsum Hf.
  destruct (cart_embed_defined t total Hsum) as [em Hem].
  unfold update_cart_embed. munfold. simpl.
  rewrite Ht, Hem, Hf. simpl.
  destruct (fails e EmbedEditMessage); simpl; eauto.
Qed.

Lemma no_faults_order_calls e : no_faults e -> order_calls_succeed e.
Proof. intros H. repeat split; apply H. Qed.

#[local] Arguments check_stock : simpl never.
#[local] Arguments tier_discount : simpl never.
#[local] Arguments cart_total : simpl never.
#[local] Arguments update_cart_embed : simpl never.
#[local] Arguments request_payment : simpl never.
#[local] Arguments Py.format_04d : simpl never.

Lemma confirm_reaches_payment (e : env) (i : interaction) (b : bot)
    (c : component) (rest : list component) (t t1 : ticket_state)
    (total final_discount : Q) :
  order_calls_succeed e ->
  Py.dict_get (channel_id i) (active_tickets b) = Some t ->
  cart t <> [] ->
  check_stock (products b) (cart t) = None ->
  cart_total (cart t) = Some total ->
  tier_discount e i (bot_config b) t = Some (t1, final_discount) ->
  cart t1 = cart t ->
  let t2 := set_discount (Some final_discount) t1 in
  exists s,
    run (confirm e i) b (c :: rest) =
      try_except
        (request_payment e i (next_order_id b) final_discount
           (set_order_id (Some (next_order_id b)) t2))
        (fun ex => followup (ConfirmUnexpectedError ex))
        {| w_bot := placed_bot e i b t2 final_discount;
           w_view := map (set_disabled true) (ProductSelect :: rest);
           w_sent := s |}.
Proof.
  intros (H1 & H2 & H3 & H4 & H5 & H6 & H7) Ht Hne Hstock Hsum Htier Hcart t2.
  unfold run, confirm, confirm_body.
  unfold try_except at 1. unfold mbind at 1, M_bind at 1, get_bot at 1. simpl.
  rewrite Ht.
  destruct (cart t) as [|entry more] eqn:Hc; [contradiction|].
  unfold mbind at 1, M_bind at 1, call at 1. rewrite H1. simpl.
  rewrite Hstock, Htier.
  unfold mbind at 1, M_bind at 1, or_raise at 1. simpl.
  unfold mbind at 1, M_bind at 1, put_bot at 1. simpl.
  unfold mbind at 1, M_bind at 1.
  destruct (update_cart_embed_ok e i (message_id i)
              (store_ticket (channel_id i) (set_discount (Some final_discount) t1) b)
              c rest [] (set_discount (Some final_discount) t1) total)
    as [ev Hev].
  { unfold store_ticket. simpl. apply dict_get_set_eq. }
  { simpl. rewrite Hcart. exact Hsum. }
  { exact H2. }
  rewrite Hev.
  munfold. simpl. rewrite H3. simpl. rewrite H4. simpl. rewrite H5. simpl.
  rewrite H6. simpl. rewrite H7. simpl.
  eexists. unfold try_except, placed_bot, order_record, next_order_id,
    next_order_number, t2. simpl.
  rewrite Hcart. reflexivity.
Qed.

Lemma keeps_bot_request_payment e i oid d t : keeps_bot (request_payment e i oid d t).
Proof. unfold request_payment. keeps. Qed.

Lemma confirm_places_order (e : env) (i : interaction) (b : bot)
    (c : component) (rest : list component) (t t1 : ticket_state)
    (total final_discount : Q) :
  order_calls_succeed e ->
  Py.dict_get (channel_id i) (active_tickets b) = Some t ->
  cart t <> [] ->
  check_stock (products b) (cart t) = None ->
  cart_total (cart t) = Some total ->
  tier_discount e i (bot_config b) t = Some (t1, final_discount) ->
  cart t1 = cart t ->
  final_bot (run (confirm e i) b (c :: rest)) =
    placed_bot e i b (set_discount (Some final_discount) t1) final_discount.
Proof.
  intros Hc Ht Hne Hs Hsum Htier Hcart.
  destruct (confirm_reaches_payment e i b c rest t t1 total final_discount
              Hc Ht Hne Hs Hsum Htier Hcart) as [s ->].
  unfold final_bot.
  rewrite (keeps_bot_try_except _ _ (keeps_bot_request_payment _ _ _ _ _)
             (fun ex => keeps_bot_followup _)).
  reflexivity.
Qed.

Lemma tier_discount_cart e i cfg t t1 d :
  tier_discount e i cfg t = Some (t1, d) -> cart t1 = cart t.
Proof.
  unfold tier_discount.
  destruct (user_roles i) as [roles|]; [|intros H; injection H as <- _; reflexivity].
  destruct (Py.eqb (discount_or_zero t) 0); [|intros H; injection H as <- _; reflexivity].
  destruct (cart_total (cart t)) as [total|]; [|discriminate].
  destruct (first_applicable roles _) as [[rid pct]|];
    [|intros H; injection H as <- _; reflexivity].
  destruct (Py.gtb _ _); intros H; injection H as <- _; reflexivity.
Qed.

Lemma tier_discount_manual e i cfg t :
  (0 < discount_or_zero t)%Q ->
  tier_discount e i cfg t = Some (t, discount_or_zero t).
Proof.
  intros Hpos. unfold tier_discount.
  assert (He : Py.eqb (discount_or_zero t) 0 = false).
  { unfold Py.eqb. destruct (Qeq_bool (discount_or_zero t) 0) eqn:E; [|reflexivity].
    apply Qeq_bool_iff in E. rewrite E in Hpos. discriminate. }
  rewrite He. destruct (user_roles i); reflexivity.
Qed.

Lemma tier_discount_role e i cfg t roles total rid pct :
  user_roles i = Some roles ->
  (discount_or_zero t == 0)%Q ->
  cart_total (cart t) = Some total ->
  first_applicable roles (sorted_desc (role_based_discounts cfg)) = Some (rid, pct) ->
  tier_discount e i cfg t =
    Some (if Py.gtb (total * (pct / 100))%Q 0%Q
          then (set_discount_reason (Some (role_reason e rid pct))
                  (set_discount (Some (total * (pct / 100))%Q) t),
                (total * (pct / 100))%Q)
          else (t, discount_or_zero t)).
Proof.
  intros Hr Hz Hsum Hf. unfold tier_discount. rewrite Hr, Hsum, Hf.
  assert (He : Py.eqb (discount_or_zero t) 0 = true).
  { apply Qeq_bool_iff. exact Hz. }
  rewrite He.
  assert (Hg : Py.gtb (total * (pct / 100))%Q (discount_or_zero t) =
               Py.gtb (total * (pct / 100))%Q 0%Q).
  { unfold Py.gtb. f_equal.
    destruct (Qle_bool (total * (pct / 100)) 0) eqn:E.
    - apply Qle_bool_iff. apply Qle_bool_iff in E. rewrite Hz. exact E.
    - destruct (Qle_bool (total * (pct / 100)) (discount_or_zero t)) eqn:E';
        [|reflexivity].
      apply Qle_bool_iff in E'. rewrite Hz in E'. apply Qle_bool_iff in E'.
      congruence. }
  rewrite Hg. destruct (Py.gtb (total * (pct / 100))%Q 0%Q); reflexivity.
Qed.

(** C5. Let a Confirm pass the stock re-validation and write its order, the
    actor being a guild member and the cart having the subtotal [total].
    If the discount of the ticket is 0 and the actor holds at least one
    configured tier, then there is a held tier whose percentage [pct] is the
    highest among the held tiers such that: when [total * pct / 100] exceeds
    zero it is the discount of the order (with the reason naming the role),
    and otherwise no discount is applied. If the discount of the ticket is
    greater than 0 (a code was applied), the order carries that discount and
    its reason, and no tier discount is added. *)
Theorem tier_discount_at_confirm (e : env) (i : interaction) (b : bot)
    (c : component) (rest : list component) (t : ticket_state) (total : Q)
    (roles : list Z) :
  order_calls_succeed e ->
  Py.dict_get (channel_id i) (active_tickets b) = Some t ->
  cart t <> [] ->
  check_stock (products b) (cart t) = None ->
  cart_total (cart t) = Some total ->
  user_roles i = Some roles ->
  let r := run (confirm e i) b (c :: rest) in
  let held := held_tiers roles (role_based_discounts (bot_config b)) in
  ((discount_or_zero t == 0)%Q -> held <> [] ->
   exists rid pct,
     In (rid, pct) held /\
     (forall rid' pct', In (rid', pct') held -> (pct' <= pct)%Q) /\
     ((0 < total * (pct / 100))%Q ->
      exists o, orders (final_bot r) !! next_order_id b = Some o /\
                o_discount o = (total * (pct / 100))%Q /\
                o_discount_reason o = role_reason e rid pct) /\
     ((total * (pct / 100) <= 0)%Q ->
      exists o, orders (final_bot r) !! next_order_id b = Some o /\
                (o_discount o == 0)%Q /\
                o_discount_reason o = reason_or_none t)) /\
  ((0 < discount_or_zero t)%Q ->
   exists o, orders (final_bot r) !! next_order_id b = Some o /\
             o_discount o = discount_or_zero t /\
             o_discount_reason o = reason_or_none t).
Proof.
  intros Hc Ht Hne Hs Hsum Hroles r held. split.
  - intros Hz Hheld.
    destruct (best_tier_is_highest roles (role_based_discounts (bot_config b)) Hheld)
      as (rid & pct & Hf & Hin & Hmax).
    exists rid, pct. split; [exact Hin|]. split; [exact Hmax|].
    pose proof (tier_discount_role e i (bot_config b) t roles total rid pct
                  Hroles Hz Hsum Hf) as Htier.
    split.
    + intros Hpos. apply gtb_true in Hpos. rewrite Hpos in Htier.
      unfold r. rewrite (confirm_places_order e i b c rest t _ total _
                           Hc Ht Hne Hs Hsum Htier eq_refl).
      eexists. split; [apply lookup_insert_eq|]. split; reflexivity.
    + intros Hle. apply gtb_false in Hle. rewrite Hle in Htier.
      unfold r. rewrite (confirm_places_order e i b c rest t _ total _
                           Hc Ht Hne Hs Hsum Htier eq_refl).
      eexists. split; [apply lookup_insert_eq|]. split; [exact Hz|reflexivity].
  - intros Hpos.
    pose proof (tier_discount_manual e i (bot_config b) t Hpos) as Htier.
    unfold r. rewrite (confirm_places_order e i b c rest t _ total _
                         Hc Ht Hne Hs Hsum Htier eq_refl).
    eexists. split; [apply lookup_insert_eq|]. split; reflexivity.
Qed.

Lemma tier_discount_at_confirm_witness :
  (exists rid pct,
     In (rid, pct) (held_tiers [11; 12] (role_based_discounts sample_config)) /\
     (forall rid' pct',
         In (rid', pct') (held_tiers [11; 12] (role_based_discounts sample_config)) ->
         (pct' <= pct)%Q) /\
     ((0 < (0 + 10 * inject_Z 10) * (pct / 100))%Q ->
      exists o,
        orders (final_bot (run (confirm sample_env sample_interaction)
                               (sample_bot full_cart_ticket ∅ ∅) sample_view))
          !! "ORD0001"%string = Some o /\
        o_discount o = ((0 + 10 * inject_Z 10) * (pct / 100))%Q /\
        o_discount_reason o = role_reason sample_env rid pct) /\
     (((0 + 10 * inject_Z 10) * (pct / 100) <= 0)%Q ->
      exists o,
        orders (final_bot (run (confirm sample_env sample_interaction)
                               (sample_bot full_cart_ticket ∅ ∅) sample_view))
          !! "ORD0001"%string = Some o /\
        (o_discount o == 0)%Q /\
        o_discount_reason o = "No Discount"%string)) /\
  (exists o,
     orders (final_bot (run (confirm sample_env sample_interaction)
                            (sample_bot coded_cart_ticket ∅ ∅) sample_view))
       !! "ORD0001"%string = Some o /\
     o_discount o = 5%Q /\
     o_discount_reason o = "Discount Code (SAVE5)"%string).
Proof.
  split.
  - apply (proj1 (tier_discount_at_confirm sample_env sample_interaction
                    (sample_bot full_cart_ticket ∅ ∅) ProductSelect
                    [button "cart_confirm"; button "cart_discount";
                     button "cart_cancel"]
                    full_cart_ticket (0 + 10 * inject_Z 10)%Q [11; 12]
                    (no_faults_order_calls _ sample_env_no_faults)
                    eq_refl ltac:(discriminate) eq_refl eq_refl eq_refl)).
    + reflexivity.
    + discriminate.
  - apply (proj2 (tier_discount_at_confirm sample_env sample_interaction
                    (sample_bot coded_cart_ticket ∅ ∅) ProductSelect
                    [button "cart_confirm"; button "cart_discount";
                     button "cart_cancel"]
                    coded_cart_ticket (0 + 10 * inject_Z 10)%Q [11; 12]
                    (no_faults_order_calls _ sample_env_no_faults)
                    eq_refl ltac:(discriminate) eq_refl eq_refl eq_refl)).
    reflexivity.
Defined.

(** The scenario of the specification: a member holding a 10% tier (and a
    5% one) confirms a cart worth 100; the order carries a discount of 10
    named after the role. *)
Example tier_scenario :
  exists o,
    orders (final_bot (run (confirm sample_env sample_interaction)
                           (sample_bot full_cart_ticket ∅ ∅) sample_view))
      !! "ORD0001"%string = Some o /\
    (o_discount o == 10)%Q /\
    o_discount_reason o = "10% Role Discount (for <@&12>)"%string /\
    o_status o = "Pending Payment"%string.
Proof.
  eexists. split; [vm_compute; reflexivity|].
  split; [reflexivity|]. split; reflexivity.
Qed.

(** *** Failures after the stock re-validation *)

Lemma tier_discount_defined e i cfg t total :
  cart_total (cart t) = Some total ->
  exists t1 d, tier_discount e i cfg t = Some (t1, d).
Proof.
  intros Hsum. unfold tier_discount. rewrite Hsum.
  destruct (user_roles i) as [roles|]; [|eauto].
  destruct (Py.eqb (discount_or_zero t) 0); [|eauto].
  destruct (first_applicable roles _) as [[rid pct]|]; [|eauto].
  destruct (Py.gtb _ _); eauto.
Qed.






(** ** One live open ticket per user *)

Lemma filter_live_pop (e : env) (u : Z) (k : Z) (d : list (Z * ticket_state)) :
  thread_status e k <> FetchOk ->
  List.filter (live_open e u) (Py.dict_pop k d) = List.filter (live_open e u) d.
Proof.
  intros Hk. induction d as [|[k' st] d IH]; simpl; [reflexivity|].
  destruct (decide (k = k')) as [<-|Hne]; simpl.
  - unfold live_open at 2. simpl.
    destruct (thread_status e k); try contradiction;
      rewrite andb_false_r; reflexivity.
  - rewrite IH. reflexivity.
Qed.

(** The loop refuses exactly when the snapshot holds a live open ticket of
    the user, and it never removes a live ticket of anybody. *)
Lemma check_existing_spec (e : env) (user : Z)
    (snapshot tickets : list (Z * ticket_state)) :
  fails e CreateSendRefusal = false ->
  let res := check_existing e user snapshot tickets in
  (forall u, List.filter (live_open e u) (snd res) = List.filter (live_open e u) tickets) /\
  match fst res with
  | Some thread_id =>
      exists st, In (thread_id, st) snapshot /\ live_open e user (thread_id, st) = true
  | None => List.filter (live_open e user) snapshot = []
  end.
Proof.
  intros Hsend.
  revert tickets. induction snapshot as [|[k st] snap IH]; intros tickets; simpl.
  - split; [reflexivity|reflexivity].
  - assert (Hlo : live_open e user (k, st) =
                  bool_decide (creator_id st = Some user)
                  && bool_decide (status st = Some "Open"%string)
                  && match thread_status e k with
                     | FetchOk => true
                     | _ => false
                     end) by reflexivity.
    rewrite Hlo.
    destruct (bool_decide (creator_id st = Some user)
              && bool_decide (status st = Some "Open"%string)) eqn:Hmine; simpl.
    + destruct (thread_status e k) eqn:Hk; simpl.
      * destruct (IH (Py.dict_pop k tickets)) as [Hf Hres]. split.
        -- intros u. rewrite Hf. apply filter_live_pop. congruence.
        -- destruct (fst (check_existing e user snap (Py.dict_pop k tickets)));
             [destruct Hres as (st' & Hin & Hl); eauto|exact Hres].
      * rewrite Hsend. split; [reflexivity|]. exists st.
        split; [left; reflexivity|]. exact Hlo.
      * destruct (IH (Py.dict_pop k tickets)) as [Hf Hres]. split.
        -- intros u. rewrite Hf. apply filter_live_pop. congruence.
        -- destruct (fst (check_existing e user snap (Py.dict_pop k tickets)));
             [destruct Hres as (st' & Hin & Hl); eauto|exact Hres].
      * destruct (IH tickets) as [Hf Hres]. split; [exact Hf|].
        destruct (fst (check_existing e user snap tickets));
          [destruct Hres as (st' & Hin & Hl); eauto|exact Hres].
    + destruct (IH tickets) as [Hf Hres]. split; [exact Hf|].
      destruct (fst (check_existing e user snap tickets));
        [destruct Hres as (st' & Hin & Hl); eauto|exact Hres].
Qed.

(** Creating a ticket from the panel is refused while the user has a live
    open ticket; the registry keeps its live tickets and gets no new one. *)
Lemma create_refused_when_live (e : env) (i : interaction)
    (cat : option string) (b : bot) (v : list component)
    (entry : Z * ticket_state) :
  fails e CreateSendRefusal = false ->
  In entry (active_tickets b) ->
  live_open e (user_id i) entry = true ->
  let r := run (create_ticket_thread e i cat) b v in
  exists thread_id,
    fst r = Ok tt /\
    sent r = [Followup (AlreadyHaveTicket thread_id)] /\
    forall u, live_open_tickets e u (final_bot r) = live_open_tickets e u b.
Proof.
  intros Hsend Hin Hlive r. subst r.
  unfold run, create_ticket_thread. munfold. simpl.
  pose proof (check_existing_spec e (user_id i) (active_tickets b) (active_tickets b)
                Hsend) as [Hf Hres].
  destruct (check_existing e (user_id i) (active_tickets b) (active_tickets b))
    as [[thread_id|] tickets]; simpl in *.
  - exists thread_id. split; [reflexivity|]. split; [reflexivity|].
    intros u. unfold live_open_tickets, final_bot. simpl. rewrite Hf. reflexivity.
  - exfalso.
    assert (Hx : In entry (List.filter (live_open e (user_id i)) (active_tickets b))).
    { apply filter_In. split; assumption. }
    rewrite Hres in Hx. exact Hx.
Qed.

(** The stale entries of the user are removed when the creation goes on. *)
Lemma dict_get_pop_none (k k' : Z) (d : list (Z * ticket_state)) :
  Py.dict_get k d = None -> Py.dict_get k (Py.dict_pop k' d) = None.
Proof.
  induction d as [|[k0 v0] d IH]; simpl; [reflexivity|].
  destruct (decide (k = k0)); [discriminate|]. intros Hd.
  destruct (decide (k' = k0)); simpl; [exact Hd|].
  destruct (decide (k = k0)); [contradiction|exact (IH Hd)].
Qed.

Lemma dict_get_not_key (k : Z) (d : list (Z * ticket_state)) :
  ~ In k (Py.dict_keys d) -> Py.dict_get k d = None.
Proof.
  induction d as [|[k0 v0] d IH]; simpl; [reflexivity|].
  intros Hn. destruct (decide (k = k0)) as [->|Hne]; [tauto|].
  apply IH. tauto.
Qed.

Lemma dict_get_pop_eq (k : Z) (d : list (Z * ticket_state)) :
  List.NoDup (Py.dict_keys d) -> Py.dict_get k (Py.dict_pop k d) = None.
Proof.
  induction d as [|[k0 v0] d IH]; simpl; [reflexivity|].
  intros Hnd. apply List.NoDup_cons_iff in Hnd as [Hn Hnd].
  destruct (decide (k = k0)) as [->|Hne]; simpl.
  - apply dict_get_not_key, Hn.
  - destruct (decide (k = k0)); [contradiction|exact (IH Hnd)].
Qed.

Lemma dict_keys_pop_subset (k x : Z) (d : list (Z * ticket_state)) :
  In x (Py.dict_keys (Py.dict_pop k d)) -> In x (Py.dict_keys d).
Proof.
  induction d as [|[k0 v0] d IH]; simpl; [tauto|].
  destruct (decide (k = k0)); simpl; [tauto|].
  intros [H|H]; [tauto|right; exact (IH H)].
Qed.

Lemma NoDup_pop (k : Z) (d : list (Z * ticket_state)) :
  List.NoDup (Py.dict_keys d) -> List.NoDup (Py.dict_keys (Py.dict_pop k d)).
Proof.
  induction d as [|[k0 v0] d IH]; simpl; [intros; constructor|].
  intros Hnd. apply List.NoDup_cons_iff in Hnd as [Hn Hnd].
  destruct (decide (k = k0)); simpl; [exact Hnd|].
  apply List.NoDup_cons_iff. split; [|exact (IH Hnd)].
  intros Hx. apply Hn. exact (dict_keys_pop_subset k k0 d Hx).
Qed.

Lemma check_existing_get_none (e : env) (user k : Z)
    (snapshot tickets : list (Z * ticket_state)) :
  Py.dict_get k tickets = None ->
  Py.dict_get k (snd (check_existing e user snapshot tickets)) = None.
Proof.
  revert tickets. induction snapshot as [|[k0 st0] snap IH]; intros tickets Hd;
    simpl; [exact Hd|].
  destruct (bool_decide (creator_id st0 = Some user)
            && bool_decide (status st0 = Some "Open"%string)); simpl.
  - destruct (thread_status e k0); simpl;
      try (apply IH; try apply dict_get_pop_none; exact Hd).
    destruct (fails e CreateSendRefusal); simpl;
      [apply IH, dict_get_pop_none, Hd|exact Hd].
  - apply IH, Hd.
Qed.

Lemma check_existing_removes_stale (e : env) (user : Z)
    (snapshot tickets : list (Z * ticket_state)) (k : Z) (st : ticket_state) :
  List.NoDup (Py.dict_keys tickets) ->
  fst (check_existing e user snapshot tickets) = None ->
  In (k, st) snapshot ->
  stale e user (k, st) = true ->
  Py.dict_get k (snd (check_existing e user snapshot tickets)) = None.
Proof.
  revert tickets.
  induction snapshot as [|[k0 st0] snap IH]; intros tickets Hnd Hres Hin Hst;
    simpl in *; [contradiction|].
  destruct Hin as [Heq|Hin].
  - injection Heq as -> ->. unfold stale in Hst. simpl in Hst.
    apply andb_true_iff in Hst as [Hmine Hgone]. rewrite Hmine in *. simpl in *.
    destruct (thread_status e k); try discriminate;
      apply check_existing_get_none, dict_get_pop_eq, Hnd.
  - destruct (bool_decide (creator_id st0 = Some user)
              && bool_decide (status st0 = Some "Open"%string)); simpl in *.
    + destruct (thread_status e k0); simpl in *;
        try (apply IH; auto using NoDup_pop).
      destruct (fails e CreateSendRefusal); simpl in *;
        [apply IH; auto using NoDup_pop|discriminate].
    + apply IH; auto.
Qed.

Lemma dict_set_set (k : Z) (v1 v2 : ticket_state) (d : list (Z * ticket_state)) :
  Py.dict_set k v2 (Py.dict_set k v1 d) = Py.dict_set k v2 d.
Proof.
  induction d as [|[k0 v0] d IH]; simpl.
  - destruct (decide (k = k)); [reflexivity|contradiction].
  - destruct (decide (k = k0)) as [->|Hne]; simpl.
    + destruct (decide (k0 = k0)); [reflexivity|contradiction].
    + destruct (decide (k = k0)); [contradiction|]. rewrite IH. reflexivity.
Qed.

Lemma filter_set_length (P : Z * ticket_state -> bool) (k : Z)
    (v : ticket_state) (d : list (Z * ticket_state)) :
  (length (List.filter P (Py.dict_set k v d)) <=
   length (List.filter P d) + (if P (k, v) then 1 else 0))%nat.
Proof.
  induction d as [|[k0 v0] d IH]; simpl.
  - destruct (P (k, v)); simpl; lia.
  - destruct (decide (k = k0)) as [->|Hne]; simpl.
    + destruct (P (k0, v)), (P (k0, v0)); simpl; lia.
    + destruct (P (k0, v0)); simpl; lia.
Qed.

Lemma live_open_other_user (e : env) (u user : Z) (k : Z) (t : ticket_state) :
  creator_id t = Some user -> u <> user -> live_open e u (k, t) = false.
Proof.
  intros Hc Hne. unfold live_open. simpl. rewrite Hc.
  rewrite bool_decide_eq_false_2; [reflexivity|]. congruence.
Qed.

(** Opening a ticket from the panel keeps the invariant. *)
Lemma create_keeps_at_most_one (e : env) (i : interaction)
    (cat : option string) (b : bot) (v : list component) :
  fails e CreateSendRefusal = false ->
  at_most_one e b ->
  at_most_one e (final_bot (run (create_ticket_thread e i cat) b v)).
Proof.
  intros Hsend Hinv.
  pose proof (check_existing_spec e (user_id i) (active_tickets b) (active_tickets b)
                Hsend) as [Hf Hres].
  assert (Hstored : forall (t : ticket_state) (tickets : list (Z * ticket_state)) k u,
             creator_id t = Some (user_id i) ->
             (forall u', List.filter (live_open e u') tickets =
                         List.filter (live_open e u') (active_tickets b)) ->
             List.filter (live_open e (user_id i)) (active_tickets b) = [] ->
             (length (map fst (List.filter (live_open e u)
                                 (Py.dict_set k t tickets))) <= 1)%nat).
  { intros t tickets k u Hc Hsame Hnone. rewrite length_map.
    pose proof (filter_set_length (live_open e u) k t tickets) as Hlen.
    rewrite Hsame in Hlen.
    destruct (decide (u = user_id i)) as [->|Hne].
    - rewrite Hnone in Hlen. simpl in Hlen.
      destruct (live_open e (user_id i) (k, t)); lia.
    - rewrite (live_open_other_user e u (user_id i) k t Hc Hne) in Hlen.
      specialize (Hinv u). unfold live_open_tickets in Hinv.
      rewrite length_map in Hinv. lia. }
  unfold final_bot, run, create_ticket_thread. munfold. simpl.
  destruct (check_existing e (user_id i) (active_tickets b) (active_tickets b))
    as [[thread_id|] tickets]; simpl in *.
  - intros u. unfold live_open_tickets. simpl. rewrite Hf. apply Hinv.
  - assert (Hbase : forall u, (length (map fst (List.filter (live_open e u) tickets))
                               <= 1)%nat).
    { intros u. rewrite Hf. apply Hinv. }
    destruct (create_thread e) as [tid| |]; simpl; try exact Hbase.
    destruct (fails e CreateEditResponse); simpl; [exact Hbase|].
    destruct (fails e CreateAddUser); simpl; [exact Hbase|].
    destruct (bool_decide (cat = Some "BUY"%string)); simpl.
    + destruct (fails e CreateLoadProducts); simpl;
        [intros u; apply Hstored; auto|].
      destruct (fails e CreateSendCart); simpl;
        [intros u; apply Hstored; auto|].
      intros u. unfold live_open_tickets. simpl. rewrite dict_set_set.
      apply Hstored; auto.
    + intros u. apply Hstored; auto.
Qed.

(** C10. The quick-buy path opens a ticket without looking at the registry.
    User 7 has the live open ticket of thread 100; the panel refuses a new
    ticket, yet a quick buy succeeds and leaves the user with two live open
    tickets, threads 100 and 200. *)
Theorem quick_buy_opens_second_live_ticket :
  let b := sample_bot full_cart_ticket ∅ ∅ in
  live_open_tickets sample_env 7 b = [100] /\
  sent (run (create_ticket_thread sample_env sample_interaction (Some "BUY"%string))
            b sample_view) = [Followup (AlreadyHaveTicket 100)] /\
  let r := run (execute_quick_buy sample_env sample_interaction "a") b sample_view in
  fst r = Ok tt /\
  live_open_tickets sample_env 7 (final_bot r) = [100; 200].
Proof.
  vm_compute. repeat split; reflexivity.
Qed.

(** ** The lock of the cart view *)

Lemma keeps_view_bind {A B} (m : M A) (f : A -> M B) :
  keeps_view m -> (forall a, keeps_view (f a)) -> keeps_view (m ≫= f).
Proof.
  intros Hm Hf w. unfold mbind, M_bind.
  specialize (Hm w). destruct (m w) as [[a|ex] w']; simpl in *.
  - rewrite Hf. exact Hm.
  - exact Hm.
Qed.

Lemma keeps_view_try_except {A} (m : M A) (h : exn -> M A) :
  keeps_view m -> (forall ex, keeps_view (h ex)) -> keeps_view (try_except m h).
Proof.
  intros Hm Hh w. unfold try_except.
  specialize (Hm w). destruct (m w) as [[a|ex] w']; simpl in *.
  - exact Hm.
  - rewrite Hh. exact Hm.
Qed.

Lemma keeps_view_followup (r : reply) : keeps_view (followup r).
Proof. intros w. reflexivity. Qed.

Lemma keeps_view_request_payment e i oid d t :
  keeps_view (request_payment e i oid d t).
Proof.
  unfold request_payment.
  apply keeps_view_bind; [intros w; reflexivity|intros b].
  destruct (negb (payment_cog b)); [apply keeps_view_followup|].
  repeat (apply keeps_view_bind; [|intros ?]);
    try (intros w; unfold call; destruct (fails e _); reflexivity);
    try (intros w; reflexivity).
  destruct (truthy_id (gift_recipient_id t)); intros w; unfold call;
    try destruct (fails e _); reflexivity.
Qed.

(** A Confirm that writes its order leaves every component of the cart view
    disabled. *)
Lemma confirm_disables_components (e : env) (i : interaction) (b : bot)
    (c : component) (rest : list component) (t : ticket_state) (total : Q) :
  order_calls_succeed e ->
  Py.dict_get (channel_id i) (active_tickets b) = Some t ->
  cart t <> [] ->
  check_stock (products b) (cart t) = None ->
  cart_total (cart t) = Some total ->
  Forall (fun x => disabled x = true)
         (final_view (run (confirm e i) b (c :: rest))).
Proof.
  intros Hc Ht Hne Hs Hsum.
  destruct (tier_discount_defined e i (bot_config b) t total Hsum)
    as (t1 & d & Htier).
  pose proof (tier_discount_cart _ _ _ _ _ _ Htier) as Hcart.
  destruct (confirm_reaches_payment e i b c rest t t1 total d
              Hc Ht Hne Hs Hsum Htier Hcart) as [s ->].
  unfold final_view.
  rewrite (keeps_view_try_except _ _ (keeps_view_request_payment _ _ _ _ _)
             (fun ex => keeps_view_followup _)).
  cbn [w_view]. apply List.Forall_forall. intros x Hx.
  apply in_map_iff in Hx as (y & <- & _). reflexivity.
Qed.

(** C1 (amended). [ProductSelect.callback] does not look at [order_id]: on a
    ticket whose [order_id] is set, the selection of a catalog product with
    stock available is accepted like on any other ticket; the quantity of the
    product in the cart goes up by one and [order_id] stays as it was. What
    closes the cart after a confirmation is the cart view: a Confirm that
    writes its order leaves every component of the view disabled. *)
Theorem add_item_ignores_order_id :
  (forall (e : env) (i : interaction) (pid : string) (b : bot)
          (v : list component) (t : ticket_state) (p : product) (stock : Z)
          (oid : string),
      pid <> "disabled"%string ->
      fails e AddLoadProducts = false ->
      Py.dict_get (channel_id i) (active_tickets b) = Some t ->
      order_id t = Some oid ->
      products b !! pid = Some p ->
      stock_of p = Some stock ->
      stock = -1 \/ quantity_in_cart pid (cart t) < stock ->
      is_Some (Py.dict_get pid (cart t)) \/ is_Some (p_name p) ->
      let r := run (ProductSelect_callback e i pid) b v in
      exists t',
        Py.dict_get (channel_id i) (active_tickets (final_bot r)) = Some t' /\
        order_id t' = Some oid /\
        quantity_in_cart pid (cart t') = quantity_in_cart pid (cart t) + 1) /\
  (forall (e : env) (i : interaction) (b : bot) (c : component)
          (rest : list component) (t : ticket_state) (total : Q),
      order_calls_succeed e ->
      Py.dict_get (channel_id i) (active_tickets b) = Some t ->
      cart t <> [] ->
      check_stock (products b) (cart t) = None ->
      cart_total (cart t) = Some total ->
      Forall (fun x => disabled x = true)
             (final_view (run (confirm e i) b (c :: rest)))).
Proof.
  split; [|exact confirm_disables_components].
  intros e i pid b v t p stock oid Hv Hf Ht Ho Hp Hs Hok Hadd r.
  assert (Hc : exists c', cart_after_add pid p (cart t) = Some c' /\
                          quantity_in_cart pid c' = quantity_in_cart pid (cart t) + 1).
  { unfold cart_after_add, quantity_in_cart.
    destruct (Py.dict_get pid (cart t)) as [item|] eqn:Hget.
    - eexists. split; [reflexivity|]. rewrite dict_get_set_eq. reflexivity.
    - destruct Hadd as [[x Hx]|[name Hn]]; [discriminate|].
      rewrite Hn. eexists. split; [reflexivity|].
      rewrite dict_get_set_eq. reflexivity. }
  destruct Hc as (c' & Hc' & Hq).
  destruct (add_item_run e i pid b v t p stock c') as (t' & Ht' & Hsame); auto.
  apply same_but_message_fields in Hsame as (Hcart & Hoid & _).
  exists t'. split; [exact Ht'|]. split.
  - rewrite Hoid. exact Ho.
  - rewrite Hcart. exact Hq.
Qed.

Lemma add_item_ignores_order_id_witness :
  (exists t',
     Py.dict_get 100
       (active_tickets
          (final_bot
             (run (ProductSelect_callback sample_env sample_interaction "A")
                  (repriced_bot (Some "ORD0001"%string)) sample_view))) = Some t' /\
     order_id t' = Some "ORD0001"%string /\
     quantity_in_cart "A" (cart t') = 1 + 1) /\
  Forall (fun x => disabled x = true)
         (final_view (run (confirm sample_env sample_interaction)
                          (sample_bot full_cart_ticket ∅ ∅) sample_view)).
Proof.
  split.
  - exact (proj1 add_item_ignores_order_id sample_env sample_interaction "A"
             (repriced_bot (Some "ORD0001"%string)) sample_view
             (sample_ticket [("A"%string, alpha_line 1)] (Some 0%Q)
                (Some "No Discount"%string) (Some "ORD0001"%string))
             alpha_repriced (-1) "ORD0001"
             ltac:(discriminate) eq_refl eq_refl eq_refl eq_refl eq_refl
             (or_introl eq_refl) (or_introl (ex_intro _ _ eq_refl))).
  - exact (proj2 add_item_ignores_order_id sample_env sample_interaction
             (sample_bot full_cart_ticket ∅ ∅) ProductSelect
             [button "cart_confirm"; button "cart_discount"; button "cart_cancel"]
             full_cart_ticket (0 + 10 * inject_Z 10)%Q
             (no_faults_order_calls _ sample_env_no_faults)
             eq_refl ltac:(discriminate) eq_refl eq_refl).
Defined.

(** C1 as stated fails: with [order_id] set, a selection is not always
    rejected with the cart left unchanged. *)
Lemma add_item_not_rejected_with_order_id :
  ~ (forall (e : env) (i : interaction) (value : string) (b : bot)
            (v : list component) (t : ticket_state) (oid : string),
        Py.dict_get (channel_id i) (active_tickets b) = Some t ->
        order_id t = Some oid ->
        exists t',
          Py.dict_get (channel_id i)
            (active_tickets (final_bot (run (ProductSelect_callback e i value) b v)))
          = Some t' /\ cart t' = cart t).
Proof.
  intros H.
  destruct (H sample_env sample_interaction "A"%string
              (repriced_bot (Some "ORD0001"%string)) sample_view
              (sample_ticket [("A"%string, alpha_line 1)] (Some 0%Q)
                 (Some "No Discount"%string) (Some "ORD0001"%string))
              "ORD0001"%string eq_refl eq_refl) as (t' & Ht' & Hc).
  vm_compute in Ht'. injection Ht' as <-. vm_compute in Hc. discriminate.
Qed.


(** ** Scenarios *)

(** Two Alpha at 10, the code SAVE5 worth 5: the display totals 15, and the
    confirmed order holds the cart, the discount and the pending status. *)
Example scenario_promo_then_confirm :
  let b1 := after (DiscountCodeModal_on_submit sample_env plain_interaction "save5")
                  shop_bot in
  let b2 := after (confirm sample_env plain_interaction) b1 in
  (exists t em, Py.dict_get 100 (active_tickets b1) = Some t /\
                cart_embed t = Some em /\ (em_total em == 15)%Q) /\
  (exists o, orders b2 !! "ORD0001"%string = Some o /\
             o_items o = [("A"%string, alpha_line 2)] /\
             (o_discount o == 5)%Q /\
             o_status o = "Pending Payment"%string).
Proof.
  split.
  - eexists. eexists. split; [vm_compute; reflexivity|].
    split; [vm_compute; reflexivity|]. reflexivity.
  - eexists. split; [vm_compute; reflexivity|].
    split; [reflexivity|]. split; reflexivity.
Qed.

(** Confirm, Cancel, Confirm again: the same items, a new order id. *)
Example scenario_confirm_cancel_confirm :
  let b1 := after (confirm sample_env plain_interaction) shop_bot in
  let b2 := after (cancel_order sample_env plain_interaction) b1 in
  let b3 := after (confirm sample_env plain_interaction) b2 in
  (exists o1 o2, orders b3 !! "ORD0001"%string = Some o1 /\
                 orders b3 !! "ORD0002"%string = Some o2 /\
                 o_status o1 = "Cancelled by User"%string /\
                 o_status o2 = "Pending Payment"%string /\
                 o_items o1 = o_items o2) /\
  ticket_order_id 100 b3 = Some "ORD0002"%string.
Proof.
  split.
  - eexists. eexists. split; [vm_compute; reflexivity|].
    split; [vm_compute; reflexivity|]. repeat split.
  - vm_compute. reflexivity.
Qed.

(** A referral reward (type redeem, minted for user 7 under the name
    REWARD-...) is applied by user 7, the order is confirmed and cancelled:
    the code stays used. A loyalty code (REDEEM-...) goes back to unused. *)
Example scenario_reward_code_not_returned :
  let b1 := after (DiscountCodeModal_on_submit sample_env plain_interaction "REWARD-AB12CD")
                  shop_bot in
  let b2 := after (confirm sample_env plain_interaction) b1 in
  let b3 := after (cancel_order sample_env plain_interaction) b2 in
  ticket_discount 100 b1 = Some 5%Q /\
  code_used "REWARD-AB12CD" b1 = Some true /\
  ticket_order_id 100 b2 = Some "ORD0001"%string /\
  ticket_order_id 100 b3 = None /\
  code_used "REWARD-AB12CD" b3 = Some true.
Proof.
  vm_compute. repeat split; reflexivity.
Qed.

(** The second selection of a product with one unit in stock is refused. *)
Example scenario_stock_exhausted :
  let b0 := set_products {[ "A"%string := alpha_with_stock 1 ]}
              (sample_bot (fresh_ticket 7) ∅ ∅) in
  let r1 := run (ProductSelect_callback sample_env plain_interaction "A") b0 sample_view in
  let r2 := run (ProductSelect_callback sample_env plain_interaction "A")
                (final_bot r1) sample_view in
  sent r1 = [Followup AddedWithoutDisplay] /\
  sent r2 = [Followup (StockExhausted "Alpha")] /\
  final_bot r2 = final_bot r1.
Proof.
  vm_compute. repeat split; reflexivity.
Qed.

(** * Further properties of the handlers *)

(** ** Adding items *)

Lemma store_ticket_twice (ch : Z) (t1 t2 : ticket_state) (b : bot) :
  store_ticket ch t2 (store_ticket ch t1 b) = store_ticket ch t2 b.
Proof.
  unfold store_ticket, set_active_tickets. simpl. rewrite dict_set_set. reflexivity.
Qed.

Lemma refresh_after_add_bot e i t' product b v s :
  exists t'',
    w_bot (snd (refresh_after_add e i t' product
                  {| w_bot := store_ticket (channel_id i) t' b;
                     w_view := v; w_sent := s |}))
    = store_ticket (channel_id i) t'' b /\ same_but_message t'' t'.
Proof.
  unfold refresh_after_add, locate_cart_message, mbind, M_bind.
  destruct (fetch_by_stored_id e i t') as [m|].
  - simpl.
    pose proof (keeps_bot_update_cart_embed e i (Some m)
                  {| w_bot := store_ticket (channel_id i) t' b;
                     w_view := v; w_sent := s |}) as Hk.
    destruct (update_cart_embed e i (Some m) _) as [[[]|ex] w']; simpl in *.
    + exists t'. split; [|reflexivity].
      destruct (p_name product); simpl; rewrite Hk; reflexivity.
    + exists t'. split; [|reflexivity]. rewrite Hk. reflexivity.
  - destruct (channel_cart_message e (channel_id i)) as [m|]; simpl.
    + pose proof (keeps_bot_update_cart_embed e i (Some m)
                  {| w_bot := store_ticket (channel_id i)
                                (set_cart_message_id (Some m) t')
                                (store_ticket (channel_id i) t' b);
                     w_view := v; w_sent := s |}) as Hk.
      destruct (update_cart_embed e i (Some m) _) as [[[]|ex] w']; simpl in *.
      * exists (set_cart_message_id (Some m) t'). split; [|reflexivity].
        destruct (p_name product); simpl; rewrite Hk; simpl;
          apply store_ticket_twice.
      * exists (set_cart_message_id (Some m) t'). split; [|reflexivity].
        rewrite Hk. simpl. apply store_ticket_twice.
    + exists t'. split; reflexivity.
Qed.

(** What a selection does to the bot: nothing, or the ticket of the channel
    stored again with the cart of an accepted selection (and, possibly, the
    id of the cart message found in the channel). *)
Lemma add_item_outcome (e : env) (i : interaction) (value : string) (b : bot)
    (v : list component) :
  let r := run (ProductSelect_callback e i value) b v in
  final_bot r = b \/
  exists t p stock c' t',
    Py.dict_get (channel_id i) (active_tickets b) = Some t /\
    products b !! value = Some p /\
    stock_of p = Some stock /\
    (stock = -1 \/ quantity_in_cart value (cart t) < stock) /\
    cart_after_add value p (cart t) = Some c' /\
    same_but_message t' (set_cart c' t) /\
    final_bot r = store_ticket (channel_id i) t' b.
Proof.
  unfold final_bot, run, ProductSelect_callback.
  destruct (bool_decide (value = "disabled"%string)); [left; reflexivity|].
  unfold mbind, M_bind, get_bot, call. simpl.
  destruct (Py.dict_get (channel_id i) (active_tickets b)) as [t|] eqn:Ht;
    [|left; reflexivity].
  destruct (fails e AddLoadProducts); [left; reflexivity|]. simpl.
  destruct (products b !! value) as [p|] eqn:Hp; [|left; reflexivity].
  destruct (stock_of p) as [stock|] eqn:Hs; [|left; reflexivity].
  destruct (negb (stock =? -1) && (quantity_in_cart value (cart t) >=? stock))
    eqn:Hguard.
  - left. destruct (p_name p); reflexivity.
  - assert (Hok : stock = -1 \/ quantity_in_cart value (cart t) < stock).
    { apply andb_false_iff in Hguard. destruct Hguard as [H|H].
      - left. apply negb_false_iff in H. apply Z.eqb_eq in H. exact H.
      - right. rewrite Z.geb_leb in H. apply Z.leb_gt in H. exact H. }
    destruct (Py.dict_get value (cart t)) as [item|] eqn:Hget.
    + simpl.
      destruct (refresh_after_add_bot e i
                  (set_cart (Py.dict_set value
                               (set_quantity (ci_quantity item + 1) item) (cart t)) t)
                  p b v []) as (t' & Hb & Hsame).
      right.
      exists t, p, stock,
        (Py.dict_set value (set_quantity (ci_quantity item + 1) item) (cart t)), t'.
      repeat split; try eassumption.
      unfold cart_after_add. rewrite Hget. reflexivity.
    + destruct (p_name p) as [name|] eqn:Hn; [|left; reflexivity].
      simpl.
      destruct (refresh_after_add_bot e i
                  (set_cart (Py.dict_set value
                               {| ci_name := name; ci_price := price_of p;
                                  ci_quantity := 1 |} (cart t)) t)
                  p b v []) as (t' & Hb & Hsame).
      right.
      exists t, p, stock,
        (Py.dict_set value {| ci_name := name; ci_price := price_of p;
                              ci_quantity := 1 |} (cart t)), t'.
      repeat split; try eassumption.
      unfold cart_after_add. rewrite Hget, Hn. reflexivity.
Qed.



(** The re-validation loop, one line at a time. *)
Lemma check_stock_cons ps pid item_data rest :
  check_stock ps ((pid, item_data) :: rest) =
    match ps !! pid with
    | None => Some (ConfirmProductMissing pid)
    | Some product_info =>
        match stock_of product_info with
        | None => Some (ConfirmInvalidStock pid)
        | Some stock_available =>
            if negb (stock_available =? -1)
               && (ci_quantity item_data >? stock_available)
            then Some (ConfirmStockShort pid stock_available (ci_quantity item_data))
            else check_stock ps rest
        end
    end.
Proof. reflexivity. Qed.

Lemma check_stock_passes ps c :
  check_stock ps c = None <-> cart_in_stock ps c.
Proof.
  unfold cart_in_stock. induction c as [|[pid item] rest IH].
  - split; [constructor|reflexivity].
  - rewrite check_stock_cons. split.
    + intros H.
      destruct (ps !! pid) as [p|] eqn:Hp; [|discriminate].
      destruct (stock_of p) as [stock|] eqn:Hs; [|discriminate].
      destruct (negb (stock =? -1) && (ci_quantity item >? stock)) eqn:Hg;
        [discriminate|].
      constructor; [|apply IH; exact H].
      exists p, stock. simpl. repeat split; auto.
      apply andb_false_iff in Hg. destruct Hg as [Hg|Hg].
      * left. apply negb_false_iff in Hg. apply Z.eqb_eq in Hg. exact Hg.
      * right. rewrite Z.gtb_ltb in Hg. apply Z.ltb_ge in Hg. exact Hg.
    + intros H. inversion H as [|x l (p & stock & Hp & Hs & Hok) Hrest]; subst.
      simpl in Hp, Hok. rewrite Hp, Hs.
      assert (Hg : negb (stock =? -1) && (ci_quantity item >? stock) = false).
      { destruct Hok as [->|Hle]; [reflexivity|].
        apply andb_false_iff. right. rewrite Z.gtb_ltb. apply Z.ltb_ge. exact Hle. }
      rewrite Hg. apply IH. exact Hrest.
Qed.

Lemma check_stock_reply ps c r : check_stock ps c = Some r -> stock_reply r.
Proof.
  induction c as [|[pid item] rest IH]; [discriminate|].
  rewrite check_stock_cons.
  destruct (ps !! pid) as [p|]; [|intros [= <-]; exact I].
  destruct (stock_of p) as [stock|]; [|intros [= <-]; exact I].
  destruct (negb (stock =? -1) && (ci_quantity item >? stock));
    [intros [= <-]; exact I|exact IH].
Qed.

Section DictForall.
Context {V : Type}.

Lemma Forall_dict_set (P : string * V -> Prop) k v (c : list (string * V)) :
  List.Forall P c -> P (k, v) -> List.Forall P (Py.dict_set k v c).
Proof.
  intros Hc Hv. induction c as [|[k' v'] c IH]; simpl.
  - constructor; [exact Hv|constructor].
  - inversion Hc; subst. destruct (decide (k = k')).
    + constructor; assumption.
    + constructor; [assumption|apply IH; assumption].
Qed.
End DictForall.

Lemma cart_after_add_in_stock ps pid p stock c c' :
  ps !! pid = Some p ->
  stock_of p = Some stock ->
  stock = -1 \/ quantity_in_cart pid c < stock ->
  cart_after_add pid p c = Some c' ->
  cart_in_stock ps c -> cart_in_stock ps c'.
Proof.
  intros Hp Hs Hok Hc Hin. unfold cart_after_add, quantity_in_cart in *.
  destruct (Py.dict_get pid c) as [item|].
  - injection Hc as <-. apply Forall_dict_set; [exact Hin|].
    exists p, stock. simpl. repeat split; auto.
    destruct Hok as [->|Hlt]; [left; reflexivity|right; lia].
  - destruct (p_name p) as [name|]; [|discriminate].
    injection Hc as <-. apply Forall_dict_set; [exact Hin|].
    exists p, stock. simpl. repeat split; auto.
    destruct Hok as [->|Hlt]; [left; reflexivity|right; lia].
Qed.

Lemma add_item_keeps_in_stock (e : env) (i : interaction) (value : string)
    (b : bot) (v : list component) (t : ticket_state) :
  Py.dict_get (channel_id i) (active_tickets b) = Some t ->
  cart_in_stock (products b) (cart t) ->
  let b' := final_bot (run (ProductSelect_callback e i value) b v) in
  products b' = products b /\
  exists t', Py.dict_get (channel_id i) (active_tickets b') = Some t' /\
             cart_in_stock (products b) (cart t').
Proof.
  intros Ht Hin.
  destruct (add_item_outcome e i value b v)
    as [Hb|(t0 & p & stock & c' & t' & Ht0 & Hp & Hs & Hok & Hc & Hsame & Hb)];
    simpl; rewrite Hb.
  - split; [reflexivity|]. exists t. split; assumption.
  - split; [reflexivity|]. exists t'. split.
    + unfold store_ticket. simpl. apply dict_get_set_eq.
    + rewrite Ht in Ht0. injection Ht0 as <-.
      apply same_but_message_fields in Hsame. destruct Hsame as (Hcart & _).
      rewrite Hcart. simpl.
      eapply cart_after_add_in_stock; eassumption.
Qed.

(** X2. The dropdown never lets a cart outgrow the stock. Starting from a
    ticket whose cart the catalog covers (an empty cart, for one), after any
    sequence of selections, whatever the outcome of the external calls, the
    catalog is as it was and it still covers every line of the cart: the
    product exists, its stock is an integer, and the stock is unlimited or
    at least the quantity of the line. The stock re-validation of Confirm
    therefore passes as long as the catalog does not change. *)
Theorem selections_stay_in_stock (i : interaction) (steps : list (env * string))
    (b : bot) (v : list component) (t : ticket_state) :
  Py.dict_get (channel_id i) (active_tickets b) = Some t ->
  cart_in_stock (products b) (cart t) ->
  let b' := select_all i steps b v in
  products b' = products b /\
  exists t', Py.dict_get (channel_id i) (active_tickets b') = Some t' /\
             cart_in_stock (products b') (cart t') /\
             check_stock (products b') (cart t') = None.
Proof.
  revert b v t. induction steps as [|[e value] rest IH]; intros b v t Ht Hin.
  - simpl. split; [reflexivity|]. exists t. repeat split; auto.
    apply check_stock_passes. exact Hin.
  - destruct (add_item_keeps_in_stock e i value b v t Ht Hin)
      as (Hp & t1 & Ht1 & Hin1).
    simpl in Hp. rewrite <- Hp in Hin1.
    destruct (IH _ (final_view (run (ProductSelect_callback e i value) b v))
                 t1 Ht1 Hin1) as (Hp' & t' & Ht' & Hin' & Hc').
    simpl. split; [congruence|]. exists t'. repeat split; assumption.
Qed.

Lemma selections_stay_in_stock_witness :
  let b0 := set_products {[ "A"%string := alpha_with_stock 1 ]}
              (sample_bot (fresh_ticket 7) ∅ ∅) in
  let b' := select_all plain_interaction
              [(sample_env, "A"%string); (edit_fails_env, "A"%string);
               (sample_env, "B"%string)] b0 sample_view in
  products b' = products b0 /\
  exists t', Py.dict_get 100 (active_tickets b') = Some t' /\
             cart_in_stock (products b') (cart t') /\
             check_stock (products b') (cart t') = None.
Proof.
  apply (selections_stay_in_stock plain_interaction _ _ sample_view (fresh_ticket 7)).
  - reflexivity.
  - constructor.
Defined.

(** ** Confirming and cancelling: what is turned down *)

(** X3. A Confirm that is turned down allocates nothing. Without a ticket
    or with an empty cart the answer is that the cart is empty; with a cart
    that the catalog does not cover (a product gone, a stock that is not an
    integer, or a finite stock below the quantity of a line) the answer is
    one of the three stock messages. In both cases the bot is left as it
    was, so no order number is taken and no order is written, and the view
    keeps its components enabled. *)
Theorem confirm_refusals (e : env) (i : interaction) (b : bot)
    (v : list component) :
  let r := run (confirm e i) b v in
  (ticket_cart (channel_id i) b = None \/ ticket_cart (channel_id i) b = Some [] ->
   r = (Ok tt, {| w_bot := b; w_view := v; w_sent := [Followup CartEmpty] |})) /\
  (forall c,
      ticket_cart (channel_id i) b = Some c -> c <> [] ->
      fails e ConfirmLoadProducts = false ->
      ~ cart_in_stock (products b) c ->
      exists reply,
        stock_reply reply /\
        r = (Ok tt, {| w_bot := b; w_view := v; w_sent := [Followup reply] |})).
Proof.
  unfold ticket_cart, run, confirm, try_except, confirm_body.
  unfold mbind, M_bind, get_bot, call. simpl.
  destruct (Py.dict_get (channel_id i) (active_tickets b)) as [t|].
  - split.
    + intros [H|H]; [discriminate|]. injection H as ->. reflexivity.
    + intros c [= <-] Hne Hf Hout.
      destruct (cart t) as [|line rest] eqn:Hc; [contradiction|].
      rewrite Hf. simpl.
      destruct (check_stock (products b) (line :: rest)) as [reply|] eqn:Hs.
      * exists reply. split; [|reflexivity].
        eapply check_stock_reply. exact Hs.
      * exfalso. apply Hout. apply check_stock_passes. exact Hs.
  - split; [reflexivity|]. intros c H. discriminate.
Qed.

Lemma confirm_refusals_witness :
  let b := set_products {[ "A"%string := alpha_with_stock 1 ]}
             (sample_bot full_cart_ticket ∅ ∅) in
  exists reply,
    stock_reply reply /\
    run (confirm sample_env sample_interaction) b sample_view =
      (Ok tt, {| w_bot := b; w_view := sample_view; w_sent := [Followup reply] |}).
Proof.
  apply (proj2 (confirm_refusals sample_env sample_interaction
                  (set_products {[ "A"%string := alpha_with_stock 1 ]}
                     (sample_bot full_cart_ticket ∅ ∅)) sample_view)
               [("A"%string, alpha_line 10)]).
  - reflexivity.
  - discriminate.
  - reflexivity.
  - intros H. apply check_stock_passes in H. vm_compute in H. discriminate.
Defined.



(** ** Referral and redeemable codes *)




















(** ** Order numbers *)













(** ** Confirm, then Cancel *)

Lemma update_cart_embed_enabled e i m w :
  all_enabled (w_view w) -> all_enabled (w_view (snd (update_cart_embed e i m w))).
Proof.
  destruct w as [b0 v0 s0]. simpl. intros Hv.
  unfold update_cart_embed, mbind, M_bind, get_bot, get_view, put_view, call,
    or_raise, followup, send, raise, mret, M_ret. simpl.
  destruct (Py.dict_get (channel_id i) (active_tickets b0)) as [t|];
    [|exact Hv].
  destruct (cart_embed t); simpl; [|exact Hv].
  destruct (fails e EmbedLoadProducts); simpl; [exact Hv|].
  destruct v0 as [|c rest]; simpl; [exact Hv|].
  assert (Hv' : all_enabled (ProductSelect :: rest)).
  { inversion Hv; subst. constructor; [reflexivity|assumption]. }
  destruct m as [m|]; [destruct (fails e EmbedEditMessage)|]; simpl; exact Hv'.
Qed.

Lemma map_enable_all_enabled (v : list component) :
  all_enabled (map (set_disabled false) v).
Proof.
  apply List.Forall_forall. intros x Hx.
  apply in_map_iff in Hx as (y & <- & _). reflexivity.
Qed.

Lemma cancel_reenables_view (e : env) (i : interaction) (b : bot)
    (v : list component) (t : ticket_state) (oid : string) (o : order) :
  no_faults e ->
  Py.dict_get (channel_id i) (active_tickets b) = Some t ->
  order_id t = Some oid ->
  Py.truthy oid = true ->
  orders b !! oid = Some o ->
  o_status o = "Pending Payment"%string ->
  all_enabled (final_view (run (cancel_order e i) b v)).
Proof.
  intros Hnf Ht Ho Htr Hord Hst.
  unfold final_view, run, cancel_order, try_except, cancel_body.
  munfold. simpl.
  rewrite Ht, Ho, Htr. simpl. rewrite !Hnf, Hord.
  rewrite bool_decide_eq_true_2 by exact Hst. simpl.
  rewrite unuse_redeem_code_run by exact Hnf. simpl.
  unfold reopen_cart. munfold. simpl.
  destruct (fetch_by_stored_id e i (clear_order_info t)) as [m|].
  - match goal with
    | |- context [update_cart_embed e i (Some m) ?w] =>
        pose proof (update_cart_embed_enabled e i (Some m) w
                      (map_enable_all_enabled v)) as Hen;
        destruct (update_cart_embed e i (Some m) w) as [[[]|ex] w']
    end; simpl in *; rewrite ?Hnf; simpl; exact Hen.
  - simpl. rewrite Hnf. simpl. apply map_enable_all_enabled.
Qed.

(** X11. Confirm followed by Cancel gives the cart back. Let every
    external call succeed and let a Confirm pass the stock re-validation on
    a cart whose subtotal is defined. After the Confirm every component of
    the view is disabled. A Cancel pressed next enables every component
    again, turns the order that the Confirm wrote into an order cancelled by
    the user (its items being the cart), and leaves the ticket with the cart
    it had before the Confirm and without order id, discount and discount
    reason. The counter is not taken back: it stays at the number of the
    cancelled order. The ledger and the counter that Cancel loads are taken
    to be the ones that Confirm saved. *)
Theorem confirm_then_cancel (e : env) (i : interaction) (b : bot)
    (c : component) (rest : list component) (t : ticket_state) (total : Q) :
  no_faults e ->
  Py.dict_get (channel_id i) (active_tickets b) = Some t ->
  cart t <> [] ->
  check_stock (products b) (cart t) = None ->
  cart_total (cart t) = Some total ->
  let r1 := run (confirm e i) b (c :: rest) in
  let r2 := run (cancel_order e i) (final_bot r1) (final_view r1) in
  all_disabled (final_view r1) /\
  all_enabled (final_view r2) /\
  (exists o, orders (final_bot r2) !! next_order_id b = Some o /\
             o_status o = "Cancelled by User"%string /\ o_items o = cart t) /\
  (exists t', Py.dict_get (channel_id i) (active_tickets (final_bot r2)) = Some t' /\
              cart t' = cart t /\ order_id t' = None /\ discount t' = None /\
              discount_reason t' = None) /\
  counters (final_bot r2) !! order_key = Some (next_order_number b).
Proof.
  intros Hnf Ht Hne Hs Hsum r1 r2.
  pose proof (no_faults_order_calls e Hnf) as Hcalls.
  destruct (tier_discount_defined e i (bot_config b) t total Hsum)
    as (t1 & d & Htier).
  pose proof (tier_discount_cart _ _ _ _ _ _ Htier) as Hcart.
  pose proof (confirm_places_order e i b c rest t t1 total d
                Hcalls Ht Hne Hs Hsum Htier Hcart) as Hb1.
  fold r1 in Hb1.
  split; [exact (confirm_disables_components e i b c rest t total
                   Hcalls Ht Hne Hs Hsum)|].
  set (t3 := set_order_id (Some (next_order_id b)) (set_discount (Some d) t1)).
  set (o := order_record e i (set_discount (Some d) t1) d).
  assert (Ht3 : Py.dict_get (channel_id i) (active_tickets (final_bot r1)) = Some t3).
  { rewrite Hb1. unfold placed_bot. simpl. apply dict_get_set_eq. }
  assert (Ho3 : orders (final_bot r1) !! next_order_id b = Some o).
  { rewrite Hb1. unfold placed_bot. simpl. apply lookup_insert_eq. }
  assert (Hb2 : final_bot r2 =
                store_ticket (channel_id i) (clear_order_info t3)
                  (after_return (user_id i) t3
                     (set_orders
                        (<[next_order_id b := set_status "Cancelled by User" o]>
                           (orders (final_bot r1))) (final_bot r1)))).
  { apply (cancel_pending_run e i (final_bot r1) (final_view r1) t3
             (next_order_id b) o Hnf Ht3); reflexivity || assumption. }
  split.
  { apply (cancel_reenables_view e i (final_bot r1) (final_view r1) t3
             (next_order_id b) o Hnf Ht3); reflexivity || assumption. }
  rewrite Hb2. clearbody r1 r2.
  assert (Hafter : forall b0,
             orders (after_return (user_id i) t3 b0) = orders b0 /\
             counters (after_return (user_id i) t3 b0) = counters b0).
  { intros b0. unfold after_return.
    destruct (returned_code (user_id i) t3 (discounts b0)) as [[code info]|];
      split; reflexivity. }
  split; [|split].
  - exists (set_status "Cancelled by User" o). split; [|split; [reflexivity|]].
    + cbn [store_ticket set_active_tickets orders].
      rewrite (proj1 (Hafter _)). simpl. apply lookup_insert_eq.
    + simpl. exact Hcart.
  - exists (clear_order_info t3). split; [|repeat split].
    + cbn [store_ticket set_active_tickets active_tickets]. apply dict_get_set_eq.
    + simpl. exact Hcart.
  - cbn [store_ticket set_active_tickets counters].
    rewrite (proj2 (Hafter _)). simpl. rewrite Hb1. unfold placed_bot. simpl.
    apply lookup_insert_eq.
Qed.

Lemma confirm_then_cancel_witness :
  let r1 := run (confirm sample_env sample_interaction)
                (sample_bot full_cart_ticket ∅ ∅) sample_view in
  let r2 := run (cancel_order sample_env sample_interaction)
                (final_bot r1) (final_view r1) in
  all_disabled (final_view r1) /\
  all_enabled (final_view r2) /\
  (exists o, orders (final_bot r2) !! "ORD0001"%string = Some o /\
             o_status o = "Cancelled by User"%string /\
             o_items o = [("A"%string, alpha_line 10)]) /\
  (exists t', Py.dict_get 100 (active_tickets (final_bot r2)) = Some t' /\
              cart t' = [("A"%string, alpha_line 10)] /\ order_id t' = None /\
              discount t' = None /\ discount_reason t' = None) /\
  counters (final_bot r2) !! "last_order_number"%string = Some 1.
Proof.
  apply (confirm_then_cancel sample_env sample_interaction
           (sample_bot full_cart_ticket ∅ ∅) ProductSelect
           [button "cart_confirm"; button "cart_discount"; button "cart_cancel"]
           full_cart_ticket (0 + 10 * inject_Z 10)%Q).
  - exact sample_env_no_faults.
  - reflexivity.
  - discriminate.
  - reflexivity.
  - reflexivity.
Defined.

(** ** Opening tickets *)

Lemma check_existing_keys (e : env) (user : Z)
    (snapshot tickets : list (Z * ticket_state)) (k : Z) :
  In k (Py.dict_keys (snd (check_existing e user snapshot tickets))) ->
  In k (Py.dict_keys tickets).
Proof.
  revert tickets. induction snapshot as [|[k0 st0] snap IH]; intros tickets;
    simpl; [auto|].
  destruct (bool_decide (creator_id st0 = Some user)
            && bool_decide (status st0 = Some "Open"%string)); [|apply IH].
  destruct (thread_status e k0);
    try (intros H; apply IH in H; eauto using dict_keys_pop_subset).
  destruct (fails e CreateSendRefusal); simpl;
    [intros H; apply IH in H; eauto using dict_keys_pop_subset|auto].
Qed.

Lemma check_existing_none_when_no_live (e : env) (user : Z)
    (snapshot tickets : list (Z * ticket_state)) :
  List.filter (live_open e user) snapshot = [] ->
  fst (check_existing e user snapshot tickets) = None.
Proof.
  revert tickets. induction snapshot as [|[k0 st0] snap IH]; intros tickets;
    simpl; [reflexivity|].
  unfold live_open at 1. simpl.
  destruct (bool_decide (creator_id st0 = Some user)
            && bool_decide (status st0 = Some "Open"%string)); simpl;
    [|apply IH].
  destruct (thread_status e k0); simpl; try apply IH. discriminate.
Qed.

(** X12. The panel opens no second ticket. When the registry holds an open
    ticket of the actor whose thread can still be fetched, and the refusal
    can be sent, [create_ticket_thread] answers that the actor already has a
    ticket and names a thread that is such a ticket; no thread is
    registered (every key of the registry was there before), the live open
    tickets of every user are the same as before, and nothing but the
    registry is touched. *)
Theorem panel_refuses_second_ticket (e : env) (i : interaction)
    (cat : option string) (b : bot) (v : list component)
    (entry : Z * ticket_state) :
  fails e CreateSendRefusal = false ->
  In entry (active_tickets b) ->
  live_open e (user_id i) entry = true ->
  let r := run (create_ticket_thread e i cat) b v in
  fst r = Ok tt /\
  (exists thread_id,
     sent r = [Followup (AlreadyHaveTicket thread_id)] /\
     In thread_id (live_open_tickets e (user_id i) b)) /\
  (forall u, live_open_tickets e u (final_bot r) = live_open_tickets e u b) /\
  (forall k, In k (Py.dict_keys (active_tickets (final_bot r))) ->
             In k (Py.dict_keys (active_tickets b))) /\
  final_bot r = set_active_tickets (active_tickets (final_bot r)) b.
Proof.
  intros Hsend Hin Hlive r. subst r.
  unfold run, create_ticket_thread. munfold. simpl.
  pose proof (check_existing_spec e (user_id i) (active_tickets b) (active_tickets b)
                Hsend) as [Hf Hres].
  pose proof (check_existing_keys e (user_id i) (active_tickets b) (active_tickets b))
    as Hkeys.
  destruct (check_existing e (user_id i) (active_tickets b) (active_tickets b))
    as [[thread_id|] tickets]; simpl in *.
  - split; [reflexivity|]. split; [|split; [|split]].
    + exists thread_id. split; [reflexivity|].
      destruct Hres as (st & Hst & Hl). unfold live_open_tickets.
      apply in_map_iff. exists (thread_id, st). split; [reflexivity|].
      apply filter_In. split; assumption.
    + intros u. unfold live_open_tickets, final_bot. simpl. rewrite Hf. reflexivity.
    + exact Hkeys.
    + reflexivity.
  - exfalso.
    assert (Hx : In entry (List.filter (live_open e (user_id i)) (active_tickets b))).
    { apply filter_In. split; assumption. }
    rewrite Hres in Hx. exact Hx.
Qed.

Lemma panel_refuses_second_ticket_witness :
  let b := sample_bot full_cart_ticket ∅ ∅ in
  let r := run (create_ticket_thread sample_env sample_interaction (Some "SUPPORT"%string))
               b sample_view in
  fst r = Ok tt /\
  (exists thread_id,
     sent r = [Followup (AlreadyHaveTicket thread_id)] /\
     In thread_id (live_open_tickets sample_env 7 b)) /\
  (forall u, live_open_tickets sample_env u (final_bot r) = live_open_tickets sample_env u b) /\
  (forall k, In k (Py.dict_keys (active_tickets (final_bot r))) ->
             In k (Py.dict_keys (active_tickets b))) /\
  final_bot r = set_active_tickets (active_tickets (final_bot r)) b.
Proof.
  apply (panel_refuses_second_ticket sample_env sample_interaction
           (Some "SUPPORT"%string) (sample_bot full_cart_ticket ∅ ∅) sample_view
           (100, full_cart_ticket)).
  - reflexivity.
  - left. reflexivity.
  - reflexivity.
Defined.

(** X13. A ticket opened from the panel. When the actor has no live open
    ticket, the thread is created and every external call succeeds, the
    actor is told of the new ticket and the registry holds, under the id of
    the new thread, a ticket of the actor with the requested category, the
    status Open, an empty cart, a zero discount and no order; a BUY ticket
    also records the id of the cart message that was sent. If every user had
    at most one live open ticket before, this is still so afterwards. *)
Theorem panel_opens_ticket (e : env) (i : interaction)
    (cat : option string) (b : bot) (v : list component) (thread_id : Z) :
  no_faults e ->
  live_open_tickets e (user_id i) b = [] ->
  create_thread e = Created thread_id ->
  let r := run (create_ticket_thread e i cat) b v in
  fst r = Ok tt /\
  sent r = [Followup (TicketCreated thread_id)] /\
  Py.dict_get thread_id (active_tickets (final_bot r)) =
    Some (set_cart_message_id
            (if bool_decide (cat = Some "BUY"%string)
             then Some (cart_message_sent e) else None)
            (new_ticket_state (user_id i) cat)) /\
  (at_most_one e b -> at_most_one e (final_bot r)).
Proof.
  intros Hnf Hnone Hth r.
  split; [|split; [|split]];
    [| | |intros Hinv; apply create_keeps_at_most_one; [apply Hnf|exact Hinv]].
  all: subst r; unfold final_bot, sent, run, create_ticket_thread; munfold; simpl.
  all: pose proof (check_existing_none_when_no_live e (user_id i) (active_tickets b)
                     (active_tickets b)) as Hres.
  all: unfold live_open_tickets in Hnone; apply map_eq_nil in Hnone;
    specialize (Hres Hnone).
  all: destruct (check_existing e (user_id i) (active_tickets b) (active_tickets b))
         as [refused tickets]; simpl in Hres; subst refused; simpl.
  all: rewrite Hth; simpl; rewrite !Hnf; simpl.
  all: destruct (bool_decide (cat = Some "BUY"%string)); simpl; rewrite ?Hnf; simpl;
    try reflexivity.
  - rewrite dict_set_set. apply dict_get_set_eq.
  - apply dict_get_set_eq.
Qed.

Lemma panel_opens_ticket_witness :
  let b := sample_bot full_cart_ticket ∅ ∅ in
  let r := run (create_ticket_thread sample_env (interaction_of 8 50) (Some "BUY"%string))
               b sample_view in
  fst r = Ok tt /\
  sent r = [Followup (TicketCreated 200)] /\
  Py.dict_get 200 (active_tickets (final_bot r)) =
    Some (set_cart_message_id
            (if bool_decide (Some "BUY"%string = Some "BUY"%string)
             then Some 900 else None)
            (new_ticket_state 8 (Some "BUY"%string))) /\
  (at_most_one sample_env b -> at_most_one sample_env (final_bot r)).
Proof.
  apply (panel_opens_ticket sample_env (interaction_of 8 50) (Some "BUY"%string)
           (sample_bot full_cart_ticket ∅ ∅) sample_view 200).
  - exact sample_env_no_faults.
  - reflexivity.
  - reflexivity.
Defined.

(** X14. Opening a ticket clears the stale entries of the actor. Let the
    registry hold each thread once. When the actor has no live open ticket,
    every open ticket of the actor whose thread is gone (not in the cache,
    or failing to be fetched with an HTTP error) is removed from the
    registry by [create_ticket_thread], whether the new thread is created or
    not and whatever the later calls do. *)
Theorem panel_drops_stale_tickets (e : env) (i : interaction)
    (cat : option string) (b : bot) (v : list component)
    (k : Z) (st : ticket_state) :
  List.NoDup (Py.dict_keys (active_tickets b)) ->
  live_open_tickets e (user_id i) b = [] ->
  In (k, st) (active_tickets b) ->
  stale e (user_id i) (k, st) = true ->
  create_thread e <> Created k ->
  Py.dict_get k
    (active_tickets (final_bot (run (create_ticket_thread e i cat) b v))) = None.
Proof.
  intros Hnd Hnone Hin Hst Hth.
  pose proof (check_existing_none_when_no_live e (user_id i) (active_tickets b)
                (active_tickets b)) as Hres.
  unfold live_open_tickets in Hnone. apply map_eq_nil in Hnone.
  specialize (Hres Hnone).
  pose proof (check_existing_removes_stale e (user_id i) (active_tickets b)
                (active_tickets b) k st Hnd Hres Hin Hst) as Hgone.
  unfold final_bot, run, create_ticket_thread. munfold. simpl.
  destruct (check_existing e (user_id i) (active_tickets b) (active_tickets b))
    as [refused tickets]; simpl in *; subst refused; simpl.
  destruct (create_thread e) as [tid| |]; simpl; try exact Hgone.
  assert (Hne : tid <> k) by congruence.
  destruct (fails e CreateEditResponse); simpl; [exact Hgone|].
  destruct (fails e CreateAddUser); simpl; [exact Hgone|].
  destruct (bool_decide (cat = Some "BUY"%string)); simpl.
  - destruct (fails e CreateLoadProducts); simpl;
      [rewrite dict_get_set_ne by exact Hne; exact Hgone|].
    destruct (fails e CreateSendCart); simpl;
      rewrite ?dict_get_set_ne by exact Hne; exact Hgone.
  - rewrite dict_get_set_ne by exact Hne. exact Hgone.
Qed.

Lemma panel_drops_stale_tickets_witness :
  Py.dict_get 100
    (active_tickets
       (final_bot (run (create_ticket_thread gone_thread_env sample_interaction
                          (Some "BUY"%string))
                       (sample_bot full_cart_ticket ∅ ∅) sample_view))) = None.
Proof.
  apply (panel_drops_stale_tickets gone_thread_env sample_interaction
           (Some "BUY"%string) (sample_bot full_cart_ticket ∅ ∅) sample_view
           100 full_cart_ticket).
  - repeat constructor. intros H. exact H.
  - reflexivity.
  - left. reflexivity.
  - reflexivity.
  - discriminate.
Defined.

(** ** Quick buy *)

(** X15. What a quick buy does. With the catalog loaded: a product id that,
    in upper case, is not in the catalog, and a product whose stock is the
    number zero (or is not given) are turned down with their own message and
    the bot is left as it was. For a product in the catalog whose stock is
    anything else, with the ticket system loaded, the panel channel found,
    the thread created, a price that is not null and the later calls
    succeeding, the registry gets, under the id of the new thread, an open
    BUY ticket of the actor whose cart is one unit of the product at the
    catalog price, with the id of the cart message; nothing else changes. *)
Theorem quick_buy_outcomes (e : env) (i : interaction) (product_id : string)
    (b : bot) (v : list component) :
  fails e QuickLoadProducts = false ->
  let pid := Py.upper product_id in
  let r := run (execute_quick_buy e i product_id) b v in
  (products b !! pid = None ->
   r = (Ok tt, {| w_bot := b; w_view := v;
                  w_sent := [Followup QuickProductNotFound] |})) /\
  (forall p, products b !! pid = Some p -> stock_is_zero p = true ->
   r = (Ok tt, {| w_bot := b; w_view := v;
                  w_sent := [Followup QuickOutOfStock] |})) /\
  (forall p thread_id,
      products b !! pid = Some p -> stock_is_zero p = false ->
      ticket_cog b = true -> panel_channel_ok e = true ->
      create_thread e = Created thread_id ->
      quick_calls_succeed e ->
      is_Some (price_of p) ->
      fst r = Ok tt /\
      sent r = [Followup (QuickTicketCreated thread_id)] /\
      final_bot r =
        store_ticket thread_id
          (set_cart_message_id (Some (cart_message_sent e))
             (quick_ticket_state (user_id i) pid p)) b).
Proof.
  intros Hl pid r. subst r.
  unfold final_bot, sent, run, execute_quick_buy. fold pid.
  munfold. rewrite Hl. simpl.
  split; [|split].
  - intros ->. reflexivity.
  - intros p -> ->. reflexivity.
  - intros p thread_id -> -> -> -> Hth (H1 & H2 & H3 & H4) [price Hprice]. simpl.
    unfold try_except, quick_buy_body. munfold. rewrite Hth. simpl.
    rewrite H1. simpl. rewrite H2. simpl. rewrite H3. simpl.
    rewrite Hprice. simpl. rewrite H4. simpl.
    split; [reflexivity|]. split; [reflexivity|].
    apply store_ticket_twice.
Qed.

Lemma quick_buy_outcomes_witness :
  let r := run (execute_quick_buy sample_env (interaction_of 8 50) "a")
               (sample_bot full_cart_ticket ∅ ∅) sample_view in
  fst r = Ok tt /\
  sent r = [Followup (QuickTicketCreated 200)] /\
  final_bot r =
    store_ticket 200
      (set_cart_message_id (Some 900) (quick_ticket_state 8 "A" alpha))
      (sample_bot full_cart_ticket ∅ ∅).
Proof.
  apply (proj2 (proj2 (quick_buy_outcomes sample_env (interaction_of 8 50) "a"
                         (sample_bot full_cart_ticket ∅ ∅) sample_view eq_refl))
               alpha 200).
  - reflexivity.
  - reflexivity.
  - reflexivity.
  - reflexivity.
  - reflexivity.
  - repeat split; reflexivity.
  - eexists. reflexivity.
Defined.

(** * The commands and the staff controls *)

(** Unfolding of the operations of the second monad. *)
Ltac cunfold :=
  unfold mbind, Cmd_bind, mret, Cmd_ret, cget_bot, cput_bot, cget_users,
    cput_users, tell, respond, ccall, craise, cor_raise, catch in *.

Lemma ckeeps_bot_ret {A} (a : A) : ckeeps_bot (mret a).
Proof. intros w. reflexivity. Qed.

Lemma ckeeps_bot_raise {A} (ex : cexn) : ckeeps_bot (@craise A ex).
Proof. intros w. reflexivity. Qed.

Lemma ckeeps_bot_bind {A B} (m : Cmd A) (f : A -> Cmd B) :
  ckeeps_bot m -> (forall a, ckeeps_bot (f a)) -> ckeeps_bot (m ≫= f).
Proof.
  intros Hm Hf w. unfold mbind, Cmd_bind.
  specialize (Hm w). destruct (m w) as [[a|ex] w']; simpl in *.
  - rewrite Hf. exact Hm.
  - exact Hm.
Qed.

Lemma ckeeps_bot_tell (n : notice) : ckeeps_bot (tell n).
Proof. intros w. reflexivity. Qed.

Lemma ckeeps_bot_ccall (ce : cenv) (s : site) : ckeeps_bot (ccall ce s).
Proof. intros w. unfold ccall. destruct (result_of ce s); reflexivity. Qed.

Lemma ckeeps_bot_respond (ce : cenv) (s : site) (n : notice) :
  ckeeps_bot (respond ce s n).
Proof.
  unfold respond. apply ckeeps_bot_bind; [apply ckeeps_bot_ccall|].
  intros _. apply ckeeps_bot_tell.
Qed.

Lemma ckeeps_bot_catch {A} (m : Cmd A) (h : cexn -> Cmd A) :
  ckeeps_bot m -> (forall ex, ckeeps_bot (h ex)) -> ckeeps_bot (catch m h).
Proof.
  intros Hm Hh w. unfold catch.
  specialize (Hm w). destruct (m w) as [[a|ex] w']; simpl in *.
  - exact Hm.
  - rewrite Hh. exact Hm.
Qed.

Lemma ckeeps_bot_cor_raise {A} (ex : cexn) (o : option A) :
  ckeeps_bot (cor_raise ex o).
Proof. intros w. destruct o; reflexivity. Qed.

Lemma ckeeps_bot_cget_bot : ckeeps_bot cget_bot.
Proof. intros w. reflexivity. Qed.

Lemma ckeeps_bot_cget_users : ckeeps_bot cget_users.
Proof. intros w. reflexivity. Qed.

Lemma ckeeps_bot_cput_users us : ckeeps_bot (cput_users us).
Proof. intros w. reflexivity. Qed.

Lemma ckeeps_users_ret {A} (a : A) : ckeeps_users (mret a).
Proof. intros w. reflexivity. Qed.

Lemma ckeeps_users_raise {A} (ex : cexn) : ckeeps_users (@craise A ex).
Proof. intros w. reflexivity. Qed.

Lemma ckeeps_users_bind {A B} (m : Cmd A) (f : A -> Cmd B) :
  ckeeps_users m -> (forall a, ckeeps_users (f a)) -> ckeeps_users (m ≫= f).
Proof.
  intros Hm Hf w. unfold mbind, Cmd_bind.
  specialize (Hm w). destruct (m w) as [[a|ex] w']; simpl in *.
  - rewrite Hf. exact Hm.
  - exact Hm.
Qed.

Lemma ckeeps_users_tell (n : notice) : ckeeps_users (tell n).
Proof. intros w. reflexivity. Qed.

Lemma ckeeps_users_ccall (ce : cenv) (s : site) : ckeeps_users (ccall ce s).
Proof. intros w. unfold ccall. destruct (result_of ce s); reflexivity. Qed.

Lemma ckeeps_users_respond (ce : cenv) (s : site) (n : notice) :
  ckeeps_users (respond ce s n).
Proof.
  unfold respond. apply ckeeps_users_bind; [apply ckeeps_users_ccall|].
  intros _. apply ckeeps_users_tell.
Qed.

Lemma ckeeps_users_catch {A} (m : Cmd A) (h : cexn -> Cmd A) :
  ckeeps_users m -> (forall ex, ckeeps_users (h ex)) -> ckeeps_users (catch m h).
Proof.
  intros Hm Hh w. unfold catch.
  specialize (Hm w). destruct (m w) as [[a|ex] w']; simpl in *.
  - exact Hm.
  - rewrite Hh. exact Hm.
Qed.

Lemma ckeeps_users_cor_raise {A} (ex : cexn) (o : option A) :
  ckeeps_users (cor_raise ex o).
Proof. intros w. destruct o; reflexivity. Qed.

Lemma ckeeps_users_cget_bot : ckeeps_users cget_bot.
Proof. intros w. reflexivity. Qed.

Lemma ckeeps_users_cput_bot b : ckeeps_users (cput_bot b).
Proof. intros w. reflexivity. Qed.

Lemma ckeeps_users_try_finally (m c : Cmd unit) :
  ckeeps_users m -> ckeeps_users c -> ckeeps_users (try_finally m c).
Proof.
  intros Hm Hc w. unfold try_finally.
  specialize (Hm w). destruct (m w) as [r w']. specialize (Hc w').
  destruct (c w') as [[[]|ex] w'']; simpl in *; congruence.
Qed.

Create HintDb ckeeps.

#[local] Hint Resolve ckeeps_bot_ret ckeeps_bot_raise ckeeps_bot_tell
  ckeeps_bot_ccall ckeeps_bot_respond ckeeps_bot_cor_raise ckeeps_bot_cget_bot
  ckeeps_bot_cget_users ckeeps_bot_cput_users
  ckeeps_users_ret ckeeps_users_raise ckeeps_users_tell
  ckeeps_users_ccall ckeeps_users_respond ckeeps_users_cor_raise
  ckeeps_users_cget_bot ckeeps_users_cput_bot : ckeeps.

Ltac ckeeps :=
  repeat first
    [ apply ckeeps_bot_bind; [|intros ?]
    | apply ckeeps_bot_catch; [|intros ?]
    | apply ckeeps_users_bind; [|intros ?]
    | apply ckeeps_users_catch; [|intros ?]
    | apply ckeeps_users_try_finally
    | solve [auto with ckeeps]
    | match goal with
      | |- ckeeps_bot (match ?x with _ => _ end) => destruct x
      | |- ckeeps_bot (if ?x then _ else _) => destruct x
      | |- ckeeps_users (match ?x with _ => _ end) => destruct x
      | |- ckeeps_users (if ?x then _ else _) => destruct x
      end ].

(** ** Gifts *)

Lemma set_active_tickets_same (b : bot) :
  b = set_active_tickets (active_tickets b) b.
Proof. destruct b. reflexivity. Qed.

Lemma dict_mem_get (ch : Z) (d : list (Z * ticket_state)) :
  Py.dict_mem ch d = match Py.dict_get ch d with Some _ => true | None => false end.
Proof. reflexivity. Qed.

(** X16. What [/gift] does. In a channel whose ticket is a BUY ticket, for
    a recipient that is not a bot and not the actor, the ticket gets the
    recipient as [gift_recipient_id] and is otherwise as it was, whether or
    not the answer can be sent. In every other case (no ticket in the
    channel, a ticket of another category, a bot, the actor) the registry is
    left as it was and the actor is told why. The command never touches the
    accounts, and of the bot it touches the ticket registry only: an order
    that is already in the ledger keeps the recipient it was written
    with. *)
Theorem gift_outcome (ce : cenv) (i : interaction) (recipient : member)
    (b : bot) (us : gmap string account) :
  let r := crun (gift ce i recipient) b us in
  (forall t,
      Py.dict_get (channel_id i) (active_tickets b) = Some t ->
      gift_allowed i recipient t = true ->
      cbot r = store_ticket (channel_id i) (with_gift (m_id recipient) t) b /\
      (result_of ce GiftRespond = Succeeds ->
       fst r = Done tt /\ csent r = [GiftSet (m_id recipient)])) /\
  ((forall t, Py.dict_get (channel_id i) (active_tickets b) = Some t ->
              gift_allowed i recipient t = false) ->
   cbot r = b /\
   (result_of ce GiftRespond = Succeeds ->
    fst r = Done tt /\
    csent r = [gift_refusal i recipient
                 (Py.dict_get (channel_id i) (active_tickets b))])) /\
  cusers r = us /\
  cbot r = set_active_tickets (active_tickets (cbot r)) b.
Proof.
  unfold crun, cbot, cusers, csent, gift, gift_allowed, gift_refusal.
  cunfold. simpl. rewrite dict_mem_get.
  destruct (Py.dict_get (channel_id i) (active_tickets b)) as [t|]; simpl.
  - destruct (bool_decide (category t = Some "BUY"%string)) eqn:E1; simpl;
      [destruct (m_bot recipient) eqn:E2; simpl;
       [|destruct (m_id recipient =? user_id i) eqn:E3; simpl]|].
    all: split;
      [intros t0 [= <-] H; rewrite ?E1, ?E2, ?E3 in H; simpl in H;
       try discriminate
      |split; [intros H; try (specialize (H t eq_refl);
                              rewrite ?E1, ?E2, ?E3 in H; simpl in H;
                              discriminate)|]].
    all: destruct (result_of ce GiftRespond); simpl; repeat split;
      intros; try discriminate; repeat split;
      apply set_active_tickets_same.
  - split; [intros t0 H; discriminate|].
    destruct (result_of ce GiftRespond); simpl; repeat split;
      intros; try discriminate; repeat split;
      apply set_active_tickets_same.
Qed.

Lemma gift_outcome_witness :
  let r := crun (gift failing_cenv sample_interaction friend)
                (sample_bot full_cart_ticket ∅ ∅) ∅ in
  cbot r = store_ticket 100 (with_gift 8 full_cart_ticket)
             (sample_bot full_cart_ticket ∅ ∅) /\
  (result_of failing_cenv GiftRespond = Succeeds ->
   fst r = Done tt /\ csent r = [GiftSet 8]).
Proof.
  apply (proj1 (gift_outcome failing_cenv sample_interaction friend
                  (sample_bot full_cart_ticket ∅ ∅) ∅) full_cart_ticket).
  - reflexivity.
  - reflexivity.
Defined.

Lemma gift_accepted_bot (ce : cenv) (i : interaction) (recipient : member)
    (b : bot) (us : gmap string account) (t : ticket_state) :
  Py.dict_get (channel_id i) (active_tickets b) = Some t ->
  gift_allowed i recipient t = true ->
  cbot (crun (gift ce i recipient) b us) =
    store_ticket (channel_id i) (with_gift (m_id recipient) t) b.
Proof.
  intros Ht Hok. unfold gift_allowed in Hok.
  apply andb_true_iff in Hok as [Hok H3]. apply andb_true_iff in Hok as [H1 H2].
  apply negb_true_iff in H2, H3.
  unfold crun, cbot, gift. cunfold. simpl. rewrite dict_mem_get, Ht. simpl.
  rewrite H1, H2, H3. simpl.
  destruct (result_of ce GiftRespond); reflexivity.
Qed.

Lemma tier_discount_gift e i cfg t t1 d :
  tier_discount e i cfg t = Some (t1, d) ->
  gift_recipient_id t1 = gift_recipient_id t.
Proof.
  unfold tier_discount.
  destruct (user_roles i) as [roles|]; [|intros H; injection H as <- _; reflexivity].
  destruct (Py.eqb (discount_or_zero t) 0);
    [|intros H; injection H as <- _; reflexivity].
  destruct (cart_total (cart t)) as [total|]; [|discriminate].
  destruct (first_applicable roles _) as [[rid pct]|];
    [|intros H; injection H as <- _; reflexivity].
  destruct (Py.gtb _ _); intros H; injection H as <- _; reflexivity.
Qed.

(** X17. A gift named before Confirm reaches the order. On a BUY ticket,
    after [/gift] accepted a recipient (whether or not its answer could be
    sent), a Confirm that passes the stock re-validation and whose calls up
    to the write of the order succeed writes an order of the actor, pending
    payment, whose items are the cart and whose [gift_recipient_id] is the
    recipient; the ticket still names the recipient. *)
Theorem gift_reaches_order (ce : cenv) (e : env) (i : interaction)
    (recipient : member) (b : bot) (us : gmap string account)
    (c : component) (rest : list component) (t : ticket_state) (total : Q) :
  Py.dict_get (channel_id i) (active_tickets b) = Some t ->
  gift_allowed i recipient t = true ->
  order_calls_succeed e ->
  cart t <> [] ->
  check_stock (products b) (cart t) = None ->
  cart_total (cart t) = Some total ->
  let b1 := cbot (crun (gift ce i recipient) b us) in
  let r := run (confirm e i) b1 (c :: rest) in
  (exists o,
     orders (final_bot r) !! next_order_id b = Some o /\
     o_gift_recipient_id o = Some (m_id recipient) /\
     o_user_id o = user_id i /\ o_items o = cart t /\
     o_status o = "Pending Payment"%string) /\
  (exists t',
     Py.dict_get (channel_id i) (active_tickets (final_bot r)) = Some t' /\
     gift_recipient_id t' = Some (m_id recipient) /\
     order_id t' = Some (next_order_id b)).
Proof.
  intros Ht Hok Hcalls Hne Hs Hsum b1 r.
  assert (Hb1 : b1 = store_ticket (channel_id i) (with_gift (m_id recipient) t) b)
    by (apply gift_accepted_bot; assumption).
  set (tg := with_gift (m_id recipient) t) in *.
  assert (Htg : Py.dict_get (channel_id i) (active_tickets b1) = Some tg).
  { rewrite Hb1. simpl. apply dict_get_set_eq. }
  assert (Hsum' : cart_total (cart tg) = Some total) by exact Hsum.
  destruct (tier_discount_defined e i (bot_config b1) tg total Hsum')
    as (t1 & d & Htier).
  pose proof (tier_discount_cart _ _ _ _ _ _ Htier) as Hcart.
  pose proof (tier_discount_gift _ _ _ _ _ _ Htier) as Hgift.
  assert (Hs1 : check_stock (products b1) (cart tg) = None).
  { rewrite Hb1. exact Hs. }
  pose proof (confirm_places_order e i b1 c rest tg t1 total d
                Hcalls Htg Hne Hs1 Hsum' Htier Hcart) as Hfinal.
  fold r in Hfinal. rewrite Hfinal.
  assert (Hid : next_order_id b1 = next_order_id b) by (rewrite Hb1; reflexivity).
  unfold placed_bot. rewrite Hid. split.
  - eexists. split; [simpl; apply lookup_insert_eq|].
    simpl. rewrite Hgift, Hcart. repeat split; reflexivity.
  - eexists. split; [simpl; apply dict_get_set_eq|].
    simpl. rewrite Hgift. split; reflexivity.
Qed.

Lemma gift_reaches_order_witness :
  let b1 := cbot (crun (gift failing_cenv sample_interaction friend)
                       (sample_bot full_cart_ticket ∅ ∅) ∅) in
  let r := run (confirm sample_env sample_interaction) b1 sample_view in
  (exists o,
     orders (final_bot r) !! "ORD0001"%string = Some o /\
     o_gift_recipient_id o = Some 8 /\
     o_user_id o = 7 /\ o_items o = [("A"%string, alpha_line 10)] /\
     o_status o = "Pending Payment"%string) /\
  (exists t',
     Py.dict_get 100 (active_tickets (final_bot r)) = Some t' /\
     gift_recipient_id t' = Some 8 /\
     order_id t' = Some "ORD0001"%string).
Proof.
  apply (gift_reaches_order failing_cenv sample_env sample_interaction friend
           (sample_bot full_cart_ticket ∅ ∅) ∅ ProductSelect
           [button "cart_confirm"; button "cart_discount"; button "cart_cancel"]
           full_cart_ticket (0 + 10 * inject_Z 10)%Q).
  - reflexivity.
  - reflexivity.
  - apply no_faults_order_calls. exact sample_env_no_faults.
  - discriminate.
  - reflexivity.
  - reflexivity.
Defined.

(** ** Claiming a ticket *)

Lemma ticket_or_empty_get ch b t :
  Py.dict_get ch (active_tickets b) = Some t -> ticket_or_empty ch b = t.
Proof. unfold ticket_or_empty. intros ->. reflexivity. Qed.

Lemma ckeeps_bot_resolve_claimer ce c : ckeeps_bot (resolve_claimer ce c).
Proof. unfold resolve_claimer. ckeeps. Qed.

Lemma ckeeps_bot_report_error ce s ex : ckeeps_bot (report_error ce s ex).
Proof. unfold report_error. ckeeps. Qed.

#[local] Hint Resolve ckeeps_bot_resolve_claimer ckeeps_bot_report_error : ckeeps.

Lemma catch_bot {A} (m : Cmd A) (h : cexn -> Cmd A) (w : cworld) :
  (forall ex, ckeeps_bot (h ex)) ->
  cw_bot (snd (catch m h w)) = cw_bot (snd (m w)).
Proof.
  intros Hh. unfold catch. destruct (m w) as [[a|ex] w']; [reflexivity|].
  apply Hh.
Qed.

(** Case analysis on the outcome of every call met. *)
Ltac csites :=
  repeat match goal with
         | |- context [match result_of ?ce ?s with _ => _ end] =>
             destruct (result_of ce s) eqn:?; simpl
         end.

Lemma truthy_id_some (o : option Z) :
  truthy_id o = true -> exists c, o = Some c /\ c <> 0.
Proof.
  destruct o as [c|]; [|discriminate]. simpl. intros H.
  exists c. split; [reflexivity|]. apply negb_true_iff in H.
  apply Z.eqb_neq. exact H.
Qed.

Lemma claim_when_claimed (ce : cenv) (i : interaction) (b : bot)
    (us : gmap string account) (t : ticket_state) :
  Py.dict_get (channel_id i) (active_tickets b) = Some t ->
  truthy_id (claimed_by t) = true ->
  cbot (crun (ClaimButton_callback ce i) b us) = b.
Proof.
  intros Ht Hc. destruct (truthy_id_some _ Hc) as (c & Hsome & _).
  unfold cbot, crun, ClaimButton_callback, report_error, resolve_claimer.
  cunfold. simpl.
  destruct (result_of ce ClaimDefer); simpl; [|csites; reflexivity..].
  rewrite (ticket_or_empty_get _ _ _ Ht), Hc, Hsome. simpl.
  destruct (user_cached ce c); simpl; csites; reflexivity.
Qed.

Lemma claim_when_free (ce : cenv) (i : interaction) (b : bot)
    (us : gmap string account) (t : ticket_state) :
  Py.dict_get (channel_id i) (active_tickets b) = Some t ->
  truthy_id (claimed_by t) = false ->
  result_of ce ClaimDefer = Succeeds ->
  cbot (crun (ClaimButton_callback ce i) b us) =
    store_ticket (channel_id i) (set_claimed_by (Some (user_id i)) t) b.
Proof.
  intros Ht Hc Hd.
  unfold cbot, crun, ClaimButton_callback, report_error.
  cunfold. simpl. rewrite Hd. simpl.
  rewrite (ticket_or_empty_get _ _ _ Ht), Hc. simpl.
  csites; reflexivity.
Qed.

(** X18. The first claim wins. Pressing Claim on a ticket that a staff
    member holds changes nothing, whoever presses and whatever the calls do.
    On a ticket that nobody holds, once the press is acknowledged the ticket
    names the presser as [claimed_by] and is otherwise as it was, even if
    the controls cannot be redrawn or the claim announced; from then on
    every press of Claim in that channel, by anyone, leaves the registry as
    it is. If the press cannot be acknowledged nothing changes. *)
Theorem claim_first_wins (ce : cenv) (i : interaction) (b : bot)
    (us : gmap string account) (t : ticket_state) :
  Py.dict_get (channel_id i) (active_tickets b) = Some t ->
  user_id i <> 0 ->
  let r := crun (ClaimButton_callback ce i) b us in
  (truthy_id (claimed_by t) = true -> cbot r = b) /\
  (truthy_id (claimed_by t) = false ->
   (result_of ce ClaimDefer <> Succeeds -> cbot r = b) /\
   (result_of ce ClaimDefer = Succeeds ->
    cbot r = store_ticket (channel_id i) (set_claimed_by (Some (user_id i)) t) b /\
    forall (ce' : cenv) (i' : interaction) (us' : gmap string account),
      channel_id i' = channel_id i ->
      cbot (crun (ClaimButton_callback ce' i') (cbot r) us') = cbot r)) /\
  cusers r = us.
Proof.
  intros Ht Hu r. split; [|split].
  - intros Hc. apply (claim_when_claimed ce i b us t Ht Hc).
  - intros Hc. split.
    + intros Hd. subst r.
      unfold cbot, crun, ClaimButton_callback, report_error. cunfold. simpl.
      destruct (result_of ce ClaimDefer); [contradiction| | |]; simpl;
        csites; reflexivity.
    + intros Hd.
      pose proof (claim_when_free ce i b us t Ht Hc Hd) as Hb. fold r in Hb.
      split; [exact Hb|]. intros ce' i' us' Hch. rewrite Hb.
      apply (claim_when_claimed ce' i' _ us'
               (set_claimed_by (Some (user_id i)) t)).
      * rewrite Hch. simpl. apply dict_get_set_eq.
      * simpl. apply negb_true_iff. apply Z.eqb_neq. exact Hu.
  - subst r. unfold cusers, crun, ClaimButton_callback.
    match goal with
    | |- cw_users (snd (?m ?w)) = _ =>
        assert (Hk : ckeeps_users m); [|apply (Hk w)]
    end.
    unfold report_error, resolve_claimer. ckeeps.
Qed.

Lemma claim_first_wins_witness :
  let r := crun (ClaimButton_callback sample_cenv sample_interaction)
                (sample_bot full_cart_ticket ∅ ∅) ∅ in
  cbot r = store_ticket 100 (set_claimed_by (Some 7) full_cart_ticket)
             (sample_bot full_cart_ticket ∅ ∅) /\
  forall (ce' : cenv) (i' : interaction) (us' : gmap string account),
    channel_id i' = 100 ->
    cbot (crun (ClaimButton_callback ce' i') (cbot r) us') = cbot r.
Proof.
  apply (proj2 (proj1 (proj2 (claim_first_wins sample_cenv sample_interaction
                                (sample_bot full_cart_ticket ∅ ∅) ∅
                                full_cart_ticket eq_refl ltac:(discriminate)))
                      eq_refl) eq_refl).
Defined.

Lemma dict_set_same (k : Z) (v : ticket_state) (d : list (Z * ticket_state)) :
  Py.dict_get k d = Some v -> Py.dict_set k v d = d.
Proof.
  induction d as [|[k' v'] d IH]; simpl; [discriminate|].
  destruct (decide (k = k')) as [->|Hne].
  - intros [= ->]. reflexivity.
  - intros H. rewrite IH by exact H. reflexivity.
Qed.

Lemma store_ticket_same (ch : Z) (t : ticket_state) (b : bot) :
  Py.dict_get ch (active_tickets b) = Some t -> store_ticket ch t b = b.
Proof.
  intros H. unfold store_ticket. rewrite dict_set_same by exact H.
  destruct b. reflexivity.
Qed.

Lemma unclaim_allowed_bot (ce : cenv) (cfg : settings) (creator : option Z)
    (i : interaction) (b : bot) (us : gmap string account) (t : ticket_state) :
  Py.dict_get (channel_id i) (active_tickets b) = Some t ->
  may_unclaim cfg i t = true ->
  result_of ce UnclaimDefer = Succeeds ->
  cbot (crun (UnclaimButton_callback ce cfg creator i) b us) =
    store_ticket (channel_id i) (unclaimed t) b.
Proof.
  intros Ht Hmay Hd.
  assert (Hguard : truthy_id (claimed_by t)
                   && negb (bool_decide (claimed_by t = Some (user_id i)))
                   && negb (is_owner cfg i) = false).
  { unfold may_unclaim in Hmay.
    destruct (truthy_id (claimed_by t)); [|reflexivity].
    destruct (bool_decide (claimed_by t = Some (user_id i))); [reflexivity|].
    destruct (is_owner cfg i); [reflexivity|discriminate]. }
  unfold cbot, crun, UnclaimButton_callback, report_error.
  cunfold. simpl. rewrite Hd. simpl.
  rewrite (ticket_or_empty_get _ _ _ Ht), Hguard. simpl.
  destruct (truthy_id creator); simpl; csites; reflexivity.
Qed.

(** X19. Who may give up a claim. On a ticket held by a staff member, a
    press of Unclaim by anybody else who is not an owner of the bot is
    turned down and changes nothing. A press by the holder or by an owner,
    once acknowledged, removes [claimed_by] from the ticket and leaves the
    rest of it, whatever the later calls do. Hence a Claim followed by an
    Unclaim of the same staff member, both acknowledged, on a ticket that
    nobody held, leaves the bot exactly as it was before the Claim. *)
Theorem unclaim_rules (ce : cenv) (cfg : settings) (creator : option Z)
    (i : interaction) (b : bot) (us : gmap string account) (t : ticket_state) :
  Py.dict_get (channel_id i) (active_tickets b) = Some t ->
  user_id i <> 0 ->
  let r := crun (UnclaimButton_callback ce cfg creator i) b us in
  (may_unclaim cfg i t = false ->
   cbot r = b /\
   (result_of ce UnclaimDefer = Succeeds ->
    result_of ce UnclaimReplyRefused = Succeeds ->
    fst r = Done tt /\ csent r = [CannotUnclaim])) /\
  (may_unclaim cfg i t = true ->
   result_of ce UnclaimDefer = Succeeds ->
   cbot r = store_ticket (channel_id i) (unclaimed t) b) /\
  (claimed_by t = None ->
   forall (ce1 : cenv),
     result_of ce1 ClaimDefer = Succeeds ->
     result_of ce UnclaimDefer = Succeeds ->
     cbot (crun (UnclaimButton_callback ce cfg creator i)
                (cbot (crun (ClaimButton_callback ce1 i) b us)) us) = b).
Proof.
  intros Ht Hu r. split; [|split].
  - intros Hmay.
    assert (Hguard : truthy_id (claimed_by t)
                     && negb (bool_decide (claimed_by t = Some (user_id i)))
                     && negb (is_owner cfg i) = true).
    { unfold may_unclaim in Hmay.
      destruct (truthy_id (claimed_by t)); [|discriminate].
      destruct (bool_decide (claimed_by t = Some (user_id i))); [discriminate|].
      destruct (is_owner cfg i); [discriminate|reflexivity]. }
    subst r. unfold cbot, csent, crun, UnclaimButton_callback, report_error.
    cunfold. simpl.
    destruct (result_of ce UnclaimDefer) eqn:Hd; simpl;
      [|split; [csites; reflexivity|intros; discriminate]..].
    rewrite (ticket_or_empty_get _ _ _ Ht), Hguard. simpl.
    destruct (result_of ce UnclaimReplyRefused) eqn:Hr; simpl;
      (split; [csites; reflexivity|intros; try discriminate]).
    split; reflexivity.
  - intros Hmay Hd. apply unclaim_allowed_bot; assumption.
  - intros Hnone ce1 Hd1 Hd.
    rewrite (claim_when_free ce1 i b us t Ht) by (try rewrite Hnone; auto).
    rewrite (unclaim_allowed_bot ce cfg creator i _ us
               (set_claimed_by (Some (user_id i)) t)).
    + rewrite store_ticket_twice.
      assert (Hback : unclaimed (set_claimed_by (Some (user_id i)) t) = t).
      { destruct t. simpl in Hnone. subst. reflexivity. }
      rewrite Hback. apply store_ticket_same. exact Ht.
    + simpl. apply dict_get_set_eq.
    + unfold may_unclaim. simpl.
      rewrite bool_decide_eq_true_2 by reflexivity.
      apply orb_true_iff. left. apply orb_true_iff. right. reflexivity.
    + exact Hd.
Qed.

Lemma unclaim_rules_witness :
  let b := sample_bot (set_claimed_by (Some 9) full_cart_ticket) ∅ ∅ in
  let r := crun (UnclaimButton_callback sample_cenv sample_settings (Some 7)
                   sample_interaction) b ∅ in
  cbot r = b /\
  (result_of sample_cenv UnclaimDefer = Succeeds ->
   result_of sample_cenv UnclaimReplyRefused = Succeeds ->
   fst r = Done tt /\ csent r = [CannotUnclaim]).
Proof.
  apply (proj1 (unclaim_rules sample_cenv sample_settings (Some 7)
                  sample_interaction
                  (sample_bot (set_claimed_by (Some 9) full_cart_ticket) ∅ ∅) ∅
                  (set_claimed_by (Some 9) full_cart_ticket) eq_refl
                  ltac:(discriminate))).
  reflexivity.
Defined.

Lemma ckeeps_bot_send_or_explain ce s n rs n1 n2 :
  ckeeps_bot (send_or_explain ce s n rs n1 n2).
Proof. unfold send_or_explain. ckeeps. Qed.

Lemma ckeeps_bot_notify_staff ce s n : ckeeps_bot (notify_staff ce s n).
Proof. unfold notify_staff. ckeeps. Qed.

#[local] Hint Resolve ckeeps_bot_send_or_explain ckeeps_bot_notify_staff : ckeeps.

Lemma ckeeps_bot_make_transcript ce i c : ckeeps_bot (make_transcript ce i c).
Proof. unfold make_transcript. ckeeps. Qed.

Lemma ckeeps_bot_transcript_failed ce i ex : ckeeps_bot (transcript_failed ce i ex).
Proof. unfold transcript_failed. ckeeps. Qed.

Lemma ckeeps_bot_fetch_creator ce c : ckeeps_bot (fetch_creator ce c).
Proof. unfold fetch_creator. ckeeps. Qed.

#[local] Hint Resolve ckeeps_bot_make_transcript ckeeps_bot_transcript_failed
  ckeeps_bot_fetch_creator : ckeeps.

Lemma ckeeps_users_forget_and_delete ce i : ckeeps_users (forget_and_delete ce i).
Proof. unfold forget_and_delete. ckeeps. Qed.

Lemma ckeeps_users_close ce i done : ckeeps_users (close_ticket_action ce i done).
Proof.
  unfold close_ticket_action, make_transcript, transcript_failed, fetch_creator,
    send_or_explain, notify_staff.
  pose proof (ckeeps_users_forget_and_delete ce i). ckeeps.
Qed.

Lemma forget_and_delete_bot (ce : cenv) (i : interaction) (w : cworld) :
  cw_bot (snd (forget_and_delete ce i w)) = without_ticket i (cw_bot w).
Proof.
  unfold forget_and_delete. cunfold. simpl. csites; reflexivity.
Qed.

Lemma try_finally_bot (m c : Cmd unit) (f : bot -> bot) :
  ckeeps_bot m ->
  (forall w, cw_bot (snd (c w)) = f (cw_bot w)) ->
  forall w, cw_bot (snd (try_finally m c w)) = f (cw_bot w).
Proof.
  intros Hm Hc w. unfold try_finally.
  specialize (Hm w). destruct (m w) as [r w']. simpl in Hm.
  specialize (Hc w'). destruct (c w') as [[[]|ex] w'']; simpl in *; congruence.
Qed.

Lemma fetch_creator_done (ce : cenv) (o : option Z) (w : cworld) :
  exists c, fetch_creator ce o w = (Done c, w).
Proof.
  unfold fetch_creator. destruct o as [creator|]; [|eexists; reflexivity].
  destruct (negb (creator =? 0)); [|eexists; reflexivity].
  cunfold. destruct (result_of ce CloseFetchCreator); eexists; reflexivity.
Qed.

Lemma close_after_acknowledge (ce : cenv) (i : interaction) (w : cworld) :
  cw_bot (snd ((b ← cget_bot;
                ticket_creator ← fetch_creator ce
                  (creator_id (ticket_or_empty (channel_id i) b));
                try_finally
                  (catch (make_transcript ce i ticket_creator)
                     (transcript_failed ce i))
                  (forget_and_delete ce i)) w)) = without_ticket i (cw_bot w).
Proof.
  unfold mbind at 1, Cmd_bind at 1, cget_bot. simpl.
  unfold mbind, Cmd_bind.
  destruct (fetch_creator_done ce
              (creator_id (ticket_or_empty (channel_id i) (cw_bot w))) w)
    as [c Hc].
  rewrite Hc. apply try_finally_bot.
  - apply ckeeps_bot_catch; [apply ckeeps_bot_make_transcript|].
    intros ex. apply ckeeps_bot_transcript_failed.
  - apply forget_and_delete_bot.
Qed.

Lemma bind_done {A B} (m : Cmd A) (k : A -> Cmd B) (w w' : cworld) (a : A) :
  m w = (Done a, w') -> (m ≫= k) w = k a w'.
Proof. intros H. unfold mbind, Cmd_bind. rewrite H. reflexivity. Qed.

Lemma close_bot (ce : cenv) (i : interaction) (done : bool) (b : bot)
    (us : gmap string account) :
  result_of ce CloseAcknowledge = Succeeds ->
  cbot (crun (close_ticket_action ce i done) b us) = without_ticket i b.
Proof.
  intros Hack. unfold cbot, crun, close_ticket_action.
  destruct done.
  - erewrite bind_done;
      [|unfold respond, ccall; rewrite Hack; cunfold; reflexivity].
    cbv beta. rewrite close_after_acknowledge. reflexivity.
  - erewrite bind_done; [|unfold ccall; rewrite Hack; reflexivity].
    cbv beta. rewrite close_after_acknowledge. reflexivity.
Qed.

(** X20. What closing a ticket does to the registry. Let the registry hold
    each channel once. Once [close_ticket_action] has acknowledged the
    press, the ticket of the channel is out of the registry at the end,
    every other ticket is as it was and nothing else of the bot changes:
    whether or not the transcript could be exported, written or sent, and
    whether or not the channel could be deleted. When the acknowledgement
    itself fails, the action fails with the registry untouched and nothing
    sent. The accounts of the users are never touched. The Close button,
    which runs the action and reports an exception to the actor, changes the
    bot as the action does. *)
Theorem close_forgets_ticket (ce : cenv) (i : interaction) (done : bool)
    (b : bot) (us : gmap string account) :
  List.NoDup (Py.dict_keys (active_tickets b)) ->
  let r := crun (close_ticket_action ce i done) b us in
  cusers r = us /\
  (result_of ce CloseAcknowledge = Succeeds ->
   cbot r = without_ticket i b /\
   Py.dict_get (channel_id i) (active_tickets (cbot r)) = None /\
   forall ch, ch <> channel_id i ->
     Py.dict_get ch (active_tickets (cbot r)) = Py.dict_get ch (active_tickets b)) /\
  (result_of ce CloseAcknowledge <> Succeeds ->
   cbot r = b /\ csent r = [] /\ exists ex, fst r = Failed ex) /\
  cbot (crun (CloseButton_callback ce i) b us) =
    cbot (crun (close_ticket_action ce i false) b us).
Proof.
  intros Hnd r. split; [|split; [|split]].
  - subst r. unfold cusers, crun. apply ckeeps_users_close.
  - intros Hack. subst r. rewrite close_bot by exact Hack.
    split; [reflexivity|]. unfold without_ticket. simpl. split.
    + apply dict_get_pop_eq. exact Hnd.
    + intros ch Hne. apply dict_get_pop_ne. congruence.
  - intros Hack. subst r. unfold cbot, csent, crun, close_ticket_action.
    unfold mbind at 1, Cmd_bind at 1.
    destruct done; unfold respond, ccall; cunfold;
      destruct (result_of ce CloseAcknowledge); try contradiction; simpl;
      (split; [reflexivity|split; [reflexivity|eexists; reflexivity]]).
  - unfold cbot, crun, CloseButton_callback. apply catch_bot.
    intros ex. apply ckeeps_bot_report_error.
Qed.

Lemma close_forgets_ticket_witness :
  let b := sample_bot full_cart_ticket ∅ ∅ in
  let r := crun (close_ticket_action failing_cenv sample_interaction false) b ∅ in
  cusers r = ∅ /\
  (result_of failing_cenv CloseAcknowledge = Succeeds ->
   cbot r = without_ticket sample_interaction b /\
   Py.dict_get (channel_id sample_interaction) (active_tickets (cbot r)) = None /\
   forall ch, ch <> channel_id sample_interaction ->
     Py.dict_get ch (active_tickets (cbot r)) = Py.dict_get ch (active_tickets b)) /\
  (result_of failing_cenv CloseAcknowledge <> Succeeds ->
   cbot r = b /\ csent r = [] /\ exists ex, fst r = Failed ex) /\
  cbot (crun (CloseButton_callback failing_cenv sample_interaction) b ∅) =
    cbot (crun (close_ticket_action failing_cenv sample_interaction false) b ∅).
Proof.
  apply (close_forgets_ticket failing_cenv sample_interaction false
           (sample_bot full_cart_ticket ∅ ∅) ∅).
  simpl. repeat constructor. intros H. inversion H.
Defined.

Lemma filter_pop_only (P : Z * ticket_state -> bool) (k : Z)
    (d : list (Z * ticket_state)) :
  List.NoDup (Py.dict_keys d) ->
  map fst (List.filter P d) = [k] ->
  List.filter P (Py.dict_pop k d) = [].
Proof.
  induction d as [|[k0 v0] d IH]; simpl; [discriminate|].
  intros Hnd Hf. apply List.NoDup_cons_iff in Hnd as [Hn Hnd].
  destruct (decide (k = k0)) as [->|Hne].
  - destruct (P (k0, v0)); simpl in Hf.
    + injection Hf as Hf. apply map_eq_nil in Hf. exact Hf.
    + exfalso. apply Hn. unfold Py.dict_keys.
      assert (Hin : In k0 (map fst (List.filter P d))) by (rewrite Hf; left; reflexivity).
      apply in_map_iff in Hin as (x & Hx & Hin). apply filter_In in Hin as [Hin _].
      apply in_map_iff. exists x. split; assumption.
  - simpl. destruct (P (k0, v0)); simpl in Hf.
    + injection Hf as Hk _. congruence.
    + apply IH; assumption.
Qed.

Lemma create_when_no_live (e : env) (i : interaction) (cat : option string)
    (b : bot) (v : list component) (thread_id : Z) :
  no_faults e ->
  List.filter (live_open e (user_id i)) (active_tickets b) = [] ->
  create_thread e = Created thread_id ->
  let r := run (create_ticket_thread e i cat) b v in
  fst r = Ok tt /\ sent r = [Followup (TicketCreated thread_id)].
Proof.
  intros Hnf Hnone Hth r.
  split.
  all: subst r; unfold final_bot, sent, run, create_ticket_thread; munfold; simpl.
  all: pose proof (check_existing_none_when_no_live e (user_id i) (active_tickets b)
                     (active_tickets b) Hnone) as Hres.
  all: destruct (check_existing e (user_id i) (active_tickets b) (active_tickets b))
         as [refused tickets]; simpl in Hres; subst refused; simpl.
  all: rewrite Hth; simpl; rewrite !Hnf; simpl.
  all: destruct (bool_decide (cat = Some "BUY"%string)); simpl; rewrite ?Hnf; simpl;
    reflexivity.
Qed.

(** X21. Closing makes room for a new ticket. Let the registry hold each
    channel once and let the only live open ticket of a user be the one of
    the channel that is closed. Before the close the panel turns the user
    down, naming that channel; after a close that was acknowledged, the
    user has no live open ticket left and [create_ticket_thread] opens a
    new one when its calls succeed. *)
Theorem close_then_open (ce : cenv) (e : env) (closing opening : interaction)
    (done : bool) (cat : option string) (b : bot) (us : gmap string account)
    (v : list component) (thread_id : Z) :
  List.NoDup (Py.dict_keys (active_tickets b)) ->
  live_open_tickets e (user_id opening) b = [channel_id closing] ->
  result_of ce CloseAcknowledge = Succeeds ->
  no_faults e ->
  create_thread e = Created thread_id ->
  let b' := cbot (crun (close_ticket_action ce closing done) b us) in
  sent (run (create_ticket_thread e opening cat) b v) =
    [Followup (AlreadyHaveTicket (channel_id closing))] /\
  live_open_tickets e (user_id opening) b' = [] /\
  fst (run (create_ticket_thread e opening cat) b' v) = Ok tt /\
  sent (run (create_ticket_thread e opening cat) b' v) =
    [Followup (TicketCreated thread_id)].
Proof.
  intros Hnd Hlive Hack Hnf Hth b'.
  assert (Hnone : List.filter (live_open e (user_id opening)) (active_tickets b') = []).
  { subst b'. rewrite close_bot by exact Hack. unfold without_ticket. simpl.
    apply filter_pop_only; assumption. }
  split; [|split].
  - unfold sent, run, create_ticket_thread. munfold. simpl.
    pose proof (check_existing_spec e (user_id opening) (active_tickets b)
                  (active_tickets b) (Hnf _)) as [Hf Hres].
    destruct (check_existing e (user_id opening) (active_tickets b) (active_tickets b))
      as [[t|] tickets]; simpl in *.
    + destruct Hres as (st & Hst & Hl).
      assert (Hin : In t (live_open_tickets e (user_id opening) b)).
      { unfold live_open_tickets. apply in_map_iff. exists (t, st).
        split; [reflexivity|]. apply filter_In. split; assumption. }
      rewrite Hlive in Hin. destruct Hin as [<-|[]]. reflexivity.
    + exfalso. unfold live_open_tickets in Hlive. rewrite Hres in Hlive.
      discriminate.
  - unfold live_open_tickets. rewrite Hnone. reflexivity.
  - apply create_when_no_live; assumption.
Qed.

Lemma close_then_open_witness :
  let b := sample_bot full_cart_ticket ∅ ∅ in
  let b' := cbot (crun (close_ticket_action sample_cenv sample_interaction false) b ∅) in
  sent (run (create_ticket_thread sample_env sample_interaction (Some "BUY"%string))
          b sample_view) =
    [Followup (AlreadyHaveTicket (channel_id sample_interaction))] /\
  live_open_tickets sample_env (user_id sample_interaction) b' = [] /\
  fst (run (create_ticket_thread sample_env sample_interaction (Some "BUY"%string))
         b' sample_view) = Ok tt /\
  sent (run (create_ticket_thread sample_env sample_interaction (Some "BUY"%string))
          b' sample_view) = [Followup (TicketCreated 200)].
Proof.
  apply (close_then_open sample_cenv sample_env sample_interaction sample_interaction
           false (Some "BUY"%string) (sample_bot full_cart_ticket ∅ ∅) ∅
           sample_view 200).
  - simpl. repeat constructor. intros H. inversion H.
  - reflexivity.
  - reflexivity.
  - exact sample_env_no_faults.
  - reflexivity.
Defined.

Lemma list_slice_firstn_skipn {A} (a b : Z) (l : list A) :
  0 <= a <= b ->
  list_slice a b l = firstn (Z.to_nat (b - a)) (skipn (Z.to_nat a) l).
Proof.
  intros Hab. unfold list_slice, norm_index.
  destruct (a <? 0) eqn:Ha; [apply Z.ltb_lt in Ha; lia|].
  destruct (b <? 0) eqn:Hb; [apply Z.ltb_lt in Hb; lia|].
  destruct (Z.le_gt_cases (Z.of_nat (length l)) a) as [Hle|Hgt].
  - rewrite (skipn_all2 (n := Z.to_nat a)) by lia.
    rewrite (skipn_all2 (n := Z.to_nat (Z.min a (Z.of_nat (length l))))) by lia.
    rewrite !firstn_nil. reflexivity.
  - rewrite (Z.min_l a) by lia.
    destruct (Z.le_gt_cases b (Z.of_nat (length l))) as [Hb'|Hb'].
    + rewrite (Z.min_l b) by lia. reflexivity.
    + rewrite (Z.min_r b) by lia.
      rewrite !firstn_all2; [reflexivity| |]; rewrite length_skipn; lia.
Qed.

Lemma list_slice_prefix {A} (n : Z) (l : list A) :
  0 <= n -> list_slice 0 n l = firstn (Z.to_nat n) l.
Proof.
  intros Hn. rewrite list_slice_firstn_skipn by lia.
  rewrite Z.sub_0_r. reflexivity.
Qed.

Lemma stocked_options_sound (catalog : list (string * product)) (o : select_option) :
  In o (stocked_options catalog) ->
  exists pid prod stock,
    In (pid, prod) catalog /\ o = product_option pid prod /\
    stock_of prod = Some stock /\ (0 < stock \/ stock = -1).
Proof.
  induction catalog as [|[pid prod] rest IH]; simpl; [contradiction|].
  intros Hin.
  assert (Hrest : In o (stocked_options rest) ->
                  exists pid0 prod0 stock,
                    ((pid, prod) = (pid0, prod0) \/ In (pid0, prod0) rest) /\
                    o = product_option pid0 prod0 /\
                    stock_of prod0 = Some stock /\ (0 < stock \/ stock = -1)).
  { intros H. destruct (IH H) as (p0 & q0 & s0 & H1 & H2 & H3 & H4).
    exists p0, q0, s0. auto. }
  destruct (stock_of prod) as [stock|] eqn:Hs; [|auto].
  destruct ((stock >? 0) || (stock =? -1)) eqn:Hok; [|auto].
  destruct Hin as [<-|Hin]; [|auto].
  exists pid, prod, stock. split; [left; reflexivity|].
  split; [reflexivity|]. split; [exact Hs|].
  apply orb_true_iff in Hok. destruct Hok as [H|H].
  - left. apply Z.gtb_lt in H. exact H.
  - right. apply Z.eqb_eq in H. exact H.
Qed.

Lemma stocked_options_complete (catalog : list (string * product))
    (pid : string) (prod : product) (stock : Z) :
  In (pid, prod) catalog ->
  stock_of prod = Some stock -> 0 < stock \/ stock = -1 ->
  In (product_option pid prod) (stocked_options catalog).
Proof.
  intros Hin Hs Hok.
  induction catalog as [|[pid0 prod0] rest IH]; simpl; [contradiction|].
  destruct Hin as [Heq|Hin].
  - injection Heq as -> ->. rewrite Hs.
    assert (Hb : (stock >? 0) || (stock =? -1) = true).
    { apply orb_true_iff. destruct Hok as [H|H].
      - left. apply Z.gtb_lt. exact H.
      - right. apply Z.eqb_eq. exact H. }
    rewrite Hb. left. reflexivity.
  - specialize (IH Hin).
    destruct (stock_of prod0) as [s0|]; [|exact IH].
    destruct ((s0 >? 0) || (s0 =? -1)); [right; exact IH|exact IH].
Qed.

Lemma stocked_options_length (catalog : list (string * product)) :
  (length (stocked_options catalog) <= length catalog)%nat.
Proof.
  induction catalog as [|[pid prod] rest IH]; simpl; [lia|].
  destruct (stock_of prod) as [s|]; [|lia].
  destruct ((s >? 0) || (s =? -1)); simpl; lia.
Qed.

Lemma product_option_not_placeholder (pid : string) (prod : product) :
  product_option pid prod <> no_products_option.
Proof.
  unfold product_option, no_products_option. intros H.
  destruct (p_price prod) as [[q|]|]; discriminate.
Qed.

(** X22. What the product dropdown offers. [ProductSelect.__init__] builds
    between one and twenty-five options. The placeholder with the value
    disabled is offered exactly when no listed product is in stock, and then
    it stands alone; every other option is the option of a listed product
    whose stock reads as an integer that is positive or -1. When the catalog
    has at most twenty-five products, every listed product with such a stock
    is offered. *)
Theorem product_menu (catalog : list (string * product)) :
  let options := ProductSelect_init catalog in
  (1 <= length options <= 25)%nat /\
  (In no_products_option options <-> stocked_options catalog = []) /\
  (forall o, In o options ->
     o = no_products_option /\ options = [no_products_option]
     \/ exists pid prod stock,
          In (pid, prod) catalog /\ o = product_option pid prod /\
          stock_of prod = Some stock /\ (0 < stock \/ stock = -1)) /\
  ((length catalog <= 25)%nat ->
   forall pid prod stock,
     In (pid, prod) catalog -> stock_of prod = Some stock ->
     0 < stock \/ stock = -1 ->
     In (product_option pid prod) options).
Proof.
  intros options. subst options. unfold ProductSelect_init.
  rewrite list_slice_prefix by lia. cbv zeta.
  change (Z.to_nat 25) with 25%nat.
  pose proof (stocked_options_length catalog) as Hlen.
  destruct (firstn 25 (stocked_options catalog)) as [|o0 l0] eqn:Hf.
  - assert (Hnil : stocked_options catalog = []).
    { destruct (stocked_options catalog); [reflexivity|discriminate]. }
    split; [simpl; lia|].
    split; [split; [intros _; exact Hnil|intros _; left; reflexivity]|].
    split.
    + intros o [<-|[]]. left. split; reflexivity.
    + intros _ pid prod stock Hin Hs Hok.
      pose proof (stocked_options_complete catalog pid prod stock Hin Hs Hok) as H.
      rewrite Hnil in H. destruct H.
  - assert (Hsub : forall o, In o (o0 :: l0) -> In o (stocked_options catalog)).
    { intros o Ho. rewrite <- Hf in Ho.
      rewrite <- (firstn_skipn 25 (stocked_options catalog)).
      apply in_or_app. left. exact Ho. }
    split.
    + rewrite <- Hf. rewrite length_firstn. split; [|lia].
      assert (length (firstn 25 (stocked_options catalog)) <> 0)%nat
        by (rewrite Hf; discriminate).
      rewrite length_firstn in H. lia.
    + split; [|split].
      * split.
        -- intros Hin. exfalso.
           destruct (stocked_options_sound catalog _ (Hsub _ Hin))
             as (pid & prod & stock & _ & H2 & _).
           symmetry in H2. exact (product_option_not_placeholder _ _ H2).
        -- intros Hnil. rewrite Hnil in Hf. discriminate.
      * intros o Ho. right. apply stocked_options_sound. apply Hsub. exact Ho.
      * intros Hsmall pid prod stock Hin Hs Hok. rewrite <- Hf.
        rewrite firstn_all2 by lia.
        apply (stocked_options_complete catalog pid prod stock); assumption.
Qed.





Lemma page_products_at (l : list (string * product)) (p : Z) :
  0 <= p ->
  page_products (view_at l p) = firstn 3 (skipn (3 * Z.to_nat p) l).
Proof.
  intros Hp. unfold page_products, view_at, items_per_page. simpl.
  rewrite list_slice_firstn_skipn by lia.
  replace (Z.to_nat (p * 3 + 3 - p * 3)) with 3%nat by lia.
  replace (Z.to_nat (p * 3)) with (3 * Z.to_nat p)%nat by lia.
  reflexivity.
Qed.

Lemma page_products_view (br : browser) :
  page_products br = page_products (view_at (br_products br) (current_page br)).
Proof. reflexivity. Qed.

Lemma total_pages_bounds (br : browser) :
  let n := Z.of_nat (length (br_products br)) in
  (total_pages br - 1) * 3 < n <= total_pages br * 3.
Proof.
  unfold total_pages, items_per_page. cbv zeta.
  Z.to_euclidean_division_equations. lia.
Qed.

Lemma chunks_concat {A} (k : nat) (l : list A) :
  (length l <= 3 * k)%nat ->
  concat (map (fun p => firstn 3 (skipn (3 * p) l)) (seq 0 k)) = l.
Proof.
  revert l. induction k as [|k IH]; intros l Hlen.
  - destruct l; [reflexivity|simpl in Hlen; lia].
  - cbn [seq map concat]. rewrite <- seq_shift, map_map.
    transitivity (firstn 3 l ++ skipn 3 l); [|apply firstn_skipn].
    f_equal.
    rewrite <- (IH (skipn 3 l)) by (rewrite length_skipn; lia).
    f_equal. apply map_ext. intros p.
    rewrite skipn_skipn. f_equal. f_equal. lia.
Qed.

Lemma page_in_range_length (l : list (string * product)) (p : Z) :
  0 <= p < total_pages (view_at l 0) ->
  (1 <= length (page_products (view_at l p)) <= 3)%nat.
Proof.
  intros Hp.
  pose proof (total_pages_bounds (view_at l 0)) as Hb. simpl in Hb.
  rewrite page_products_at by lia. rewrite length_firstn, length_skipn. lia.
Qed.

(** X24. The pages of the product browser. The number of pages in the
    footer is the number of products divided by three, rounded up. Every
    page from the first to that number holds between one and three
    products, every page beyond holds none, so that Add to Cart answers that
    the page has no products, and the pages put one after the other are the
    catalog, each product once and in order. *)
Theorem browser_pages (l : list (string * product)) :
  let total := total_pages (view_at l 0) in
  (total - 1) * 3 < Z.of_nat (length l) <= total * 3 /\
  (forall p, 0 <= p < total ->
     (1 <= length (page_products (view_at l p)) <= 3)%nat /\
     quick_add_to_cart (view_at l p) =
       QuickAddModalShown (page_products (view_at l p))) /\
  (forall p, total <= p ->
     page_products (view_at l p) = [] /\
     quick_add_to_cart (view_at l p) = NoProductsOnPage) /\
  concat (map (fun p => page_products (view_at l (Z.of_nat p)))
              (seq 0 (Z.to_nat total))) = l.
Proof.
  intros total.
  pose proof (total_pages_bounds (view_at l 0)) as Hb. simpl in Hb.
  fold total in Hb.
  assert (Htot : 0 <= total) by lia.
  split; [exact Hb|]. split; [|split].
  - intros p Hp.
    assert (Hlen : (1 <= length (page_products (view_at l p)) <= 3)%nat)
      by (apply page_in_range_length; exact Hp).
    split; [exact Hlen|].
    unfold quick_add_to_cart.
    destruct (page_products (view_at l p)); [simpl in Hlen; lia|reflexivity].
  - intros p Hp.
    assert (Hnil : page_products (view_at l p) = []).
    { rewrite page_products_at by lia.
      rewrite skipn_all2 by lia. reflexivity. }
    split; [exact Hnil|]. unfold quick_add_to_cart. rewrite Hnil. reflexivity.
  - transitivity (concat (map (fun p => firstn 3 (skipn (3 * p) l))
                              (seq 0 (Z.to_nat total))));
      [|apply chunks_concat; lia].
    f_equal. apply map_ext. intros p.
    rewrite page_products_at by lia. rewrite Nat2Z.id. reflexivity.
Qed.

Lemma on_a_page_press (p : press) (br : browser) :
  on_a_page br -> press_enabled p br = true -> on_a_page (do_press true p br).
Proof.
  intros [Hrange Hshown] Hen.
  pose proof (total_pages_bounds br) as Hb. cbv zeta in Hb.
  unfold press_enabled in Hen. rewrite Hshown in Hen.
  unfold on_a_page, do_press, previous_button, next_button, update_view,
    set_current_page, total_pages, items_per_page in *.
  destruct p; simpl in *.
  - apply negb_true_iff, Z.eqb_neq in Hen. split; [|reflexivity].
    lia.
  - apply negb_true_iff in Hen. rewrite Z.geb_leb in Hen. apply Z.leb_gt in Hen.
    split; [|reflexivity].
    Z.to_euclidean_division_equations. lia.
Qed.

Lemma on_a_page_browse (l : list (string * product)) (n : browser_notice)
    (br : browser) :
  browse l = (n, Some br) -> on_a_page br /\ br_products br = l.
Proof.
  unfold browse. destruct l as [|x l]; [discriminate|].
  intros H. injection H as _ <-. split; [|reflexivity].
  unfold on_a_page, total_pages, items_per_page. simpl current_page.
  simpl br_products. simpl shown. split.
  - assert (0 < Z.of_nat (length (x :: l))) by (simpl; lia).
    Z.to_euclidean_division_equations. lia.
  - f_equal. f_equal. rewrite Z.geb_leb. reflexivity.
Qed.

Lemma presses_keep (ps : list press) (br br' : browser) :
  on_a_page br -> presses ps br = Some br' ->
  on_a_page br' /\ br_products br' = br_products br.
Proof.
  revert br. induction ps as [|p ps IH]; intros br Hok; simpl.
  - intros [= <-]. split; [exact Hok|reflexivity].
  - destruct (press_enabled p br) eqn:Hen; [|discriminate].
    intros H. destruct (IH _ (on_a_page_press p br Hok Hen) H) as [H1 H2].
    split; [exact H1|]. rewrite H2. destruct p; reflexivity.
Qed.

(** X25. The browser stays on its pages. [/browse] on a catalog with
    products shows the first page with the buttons as a later redisplay of
    that page would set them. From there, as long as only buttons that the
    message shows enabled are pressed and every edit of the message goes
    through, the browser shows a page between the first and the last of the
    same catalog: the page holds a product, Previous is disabled exactly on
    the first page and Next exactly on the last, and Add to Cart opens the
    form with the products of the page. *)
Theorem browser_stays_on_pages (l : list (string * product))
    (n : browser_notice) (br0 br : browser) (ps : list press) :
  browse l = (n, Some br0) ->
  presses ps br0 = Some br ->
  br_products br = l /\
  0 <= current_page br < total_pages br /\
  page_products br <> [] /\
  quick_add_to_cart br = QuickAddModalShown (page_products br) /\
  shown br = Some (current_page br =? 0, current_page br + 1 =? total_pages br) /\
  fst (update_view true br0) = Some n.
Proof.
  intros Hb Hp.
  destruct (on_a_page_browse l n br0 Hb) as [Hok0 Hl0].
  destruct (presses_keep ps br0 br Hok0 Hp) as [[Hrange Hshown] Hl].
  assert (Hne : page_products br <> []).
  { rewrite page_products_view.
    pose proof (page_in_range_length (br_products br) (current_page br) Hrange)
      as Hlen.
    intros Hnil. rewrite Hnil in Hlen. simpl in Hlen. lia. }
  split; [congruence|]. split; [exact Hrange|]. split; [exact Hne|].
  split; [|split].
  - unfold quick_add_to_cart. destruct (page_products br); [contradiction|reflexivity].
  - rewrite Hshown. f_equal. f_equal.
    pose proof (total_pages_bounds br) as Hbd. cbv zeta in Hbd.
    unfold items_per_page.
    destruct (current_page br + 1 =? total_pages br) eqn:Hlast.
    + apply Z.eqb_eq in Hlast. rewrite Z.geb_leb. apply Z.leb_le. lia.
    + apply Z.eqb_neq in Hlast. rewrite Z.geb_leb. apply Z.leb_gt. lia.
  - unfold browse in Hb. destruct l as [|x l]; [discriminate|].
    injection Hb as <- <-. unfold update_view, get_page_embed. simpl.
    f_equal. unfold items_per_page. f_equal. rewrite Z.geb_leb. reflexivity.
Qed.

Lemma browser_stays_on_pages_witness :
  let l := [("A"%string, alpha); ("B"%string, alpha); ("C"%string, alpha);
            ("D"%string, alpha)] in
  let br0 := {| br_products := l; current_page := 0; previous_disabled := true;
                next_disabled := false; shown := Some (true, false) |} in
  let br := do_press true PressPrevious (do_press true PressNext br0) in
  br_products br = l /\
  0 <= current_page br < total_pages br /\
  page_products br <> [] /\
  quick_add_to_cart br = QuickAddModalShown (page_products br) /\
  shown br = Some (current_page br =? 0, current_page br + 1 =? total_pages br) /\
  fst (update_view true br0) = Some (fst (browse l)).
Proof.
  apply (browser_stays_on_pages
           [("A"%string, alpha); ("B"%string, alpha); ("C"%string, alpha);
            ("D"%string, alpha)]
           _ _ _ [PressNext; PressPrevious]).
  - reflexivity.
  - reflexivity.
Defined.

Lemma leb_not_positive (q : Q) : Py.leb q 0%Q = true <-> (q <= 0)%Q.
Proof. unfold Py.leb. apply Qle_bool_iff. Qed.

Lemma create_discount_cases (ce : cenv) (cfg : settings) (i : interaction)
    (code : string) (discount_inr : Q) (max : Z) (expires_in_days : option Z)
    (b : bot) (us : gmap string account) :
  let r := crun (create_discount ce cfg i code discount_inr max expires_in_days) b us in
  cusers r = us /\
  (cbot r = b \/
   is_owner cfg i = true /\ creatable b code discount_inr max expires_in_days /\
   result_of ce DiscountSave = Succeeds /\
   cbot r = with_promo ce code discount_inr max expires_in_days b).
Proof.
  unfold cusers, cbot, crun, create_discount, creatable, with_promo, expiry_stamp.
  destruct (is_owner cfg i); simpl; [|split; [reflexivity|left; reflexivity]].
  cunfold. simpl.
  destruct (result_of ce DiscountDefer); simpl; try (split; [reflexivity|left; reflexivity]).
  destruct (result_of ce DiscountLoad); simpl; try (split; [reflexivity|left; reflexivity]).
  destruct (Py.leb discount_inr 0) eqn:Hamt; simpl;
    [csites; split; try reflexivity; left; reflexivity|].
  destruct (max <? 0) eqn:Hmax; simpl;
    [csites; split; try reflexivity; left; reflexivity|].
  destruct (bool_decide (is_Some (discounts b !! Py.upper (Py.strip code)))) eqn:Hex;
    simpl; [csites; split; try reflexivity; left; reflexivity|].
  assert (Hpos : (0 < discount_inr)%Q).
  { apply Qnot_le_lt. intros Hle. apply leb_not_positive in Hle. congruence. }
  apply Z.ltb_ge in Hmax.
  apply bool_decide_eq_false in Hex.
  assert (Hnone : discounts b !! Py.upper (Py.strip code) = None).
  { destruct (discounts b !! Py.upper (Py.strip code)) eqn:E; [|reflexivity].
    exfalso. apply Hex. eexists. reflexivity. }
  destruct expires_in_days as [days|]; simpl.
  - destruct (days <=? 0) eqn:Hd; simpl;
      [csites; split; try reflexivity; left; reflexivity|].
    apply Z.leb_gt in Hd.
    destruct (result_of ce DiscountSave) eqn:Hsave; simpl;
      try (split; [reflexivity|left; reflexivity]).
    csites; (split; [reflexivity|right; auto 10]).
  - destruct (result_of ce DiscountSave) eqn:Hsave; simpl;
      try (split; [reflexivity|left; reflexivity]).
    csites; (split; [reflexivity|right; auto 10]).
Qed.


(** X26. What [/create_discount] can do to the registry. The command never
    touches the accounts, and it leaves the bot as it was unless the caller
    is an owner, the amount is positive, the maximum is not negative, the
    code (trimmed, in upper case) is not yet in the registry, the expiry, if
    given, is a positive number of days, and the registry could be saved;
    then the one change is the new entry under that code. So no entry that
    is in the registry is ever replaced or removed. A caller who is no
    owner is stopped by the check before anything is sent. *)
Theorem create_discount_only_adds (ce : cenv) (cfg : settings) (i : interaction)
    (code : string) (discount_inr : Q) (max : Z) (expires_in_days : option Z)
    (b : bot) (us : gmap string account) :
  let r := crun (create_discount ce cfg i code discount_inr max expires_in_days) b us in
  cusers r = us /\
  (cbot r = b \/
   is_owner cfg i = true /\ creatable b code discount_inr max expires_in_days /\
   result_of ce DiscountSave = Succeeds /\
   cbot r = with_promo ce code discount_inr max expires_in_days b) /\
  (forall c info, discounts b !! c = Some info ->
                  discounts (cbot r) !! c = Some info) /\
  (is_owner cfg i = false -> r = crun (craise CheckFailure) b us).
Proof.
  intros r.
  destruct (create_discount_cases ce cfg i code discount_inr max expires_in_days b us)
    as [Hus Hcases]. fold r in Hus, Hcases.
  split; [exact Hus|]. split; [exact Hcases|]. split.
  - intros c info Hc.
    destruct Hcases as [->|(_ & (_ & _ & Hnone & _) & _ & ->)]; [exact Hc|].
    unfold with_promo. simpl.
    rewrite lookup_insert_ne; [exact Hc|]. intros <-. congruence.
  - intros Hown. subst r. unfold crun, create_discount. rewrite Hown. reflexivity.
Qed.








